(** * NoiseGuard: the DSP frame processor and the audio engine

    A shallow embedding of [native/src/rnnoise_wrapper.{h,cpp}] (the
    adaptive-floor / hold-timer / spectral-clamp version that the
    production header declares) and of the start, stop and callback
    paths of [native/src/audio.cpp], followed by the properties of the
    specification that concern them.

    C++ [float] is IEEE-754 binary32, round to nearest even.  It is
    modelled by [spec_float] with the operations of [SpecFloat] at
    precision 24 and infinity exponent 128, one rounding per operation
    as the expressions are written (no fused multiply-add), so every
    definition below computes what the compiled code computes,
    infinities and NaN included.

    The neural denoiser and PortAudio are external: the denoiser is a
    parameter of the frame processor, and the outcome of each PortAudio
    call is an input of the engine. *)

From Stdlib Require Import ZArith List Bool String Lia Sorted.
From Stdlib Require Import Floats.SpecFloat.
Import ListNotations.
Local Open Scope Z_scope.

(* ================================================================== *)
(** ** binary32 arithmetic *)
(* ================================================================== *)

Module F32.

Definition prec : Z := 24.
Definition emax : Z := 128.

Definition float := spec_float.

Definition add : float -> float -> float := SFadd prec emax.
Definition sub : float -> float -> float := SFsub prec emax.
Definition mul : float -> float -> float := SFmul prec emax.
Definition div : float -> float -> float := SFdiv prec emax.
Definition sqrt : float -> float := SFsqrt prec emax.
Definition abs : float -> float := SFabs.

(** The comparison operators of C++ on [float]; each is false as soon
    as one operand is NaN. *)
Definition ltb (x y : float) : bool := SFltb x y.
Definition leb (x y : float) : bool := SFleb x y.
Definition gtb (x y : float) : bool := SFltb y x.
Definition geb (x y : float) : bool := SFleb y x.

Definition is_nan (x : float) : bool :=
  match x with S754_nan => true | _ => false end.

(** [static_cast<float>(n)] for an integer [n]. *)
Definition of_Z (n : Z) : float := binary_normalize prec emax n 0 false.

(** The decimal literal [n / d] written with an [f] suffix.  Numerator
    and denominator are below [2^24], hence exact in binary32, and the
    correctly rounded quotient is the float nearest to the decimal,
    which is what the compiler stores for the literal. *)
Definition lit (n d : Z) : float := div (of_Z n) (of_Z d).

Definition zero : float := S754_zero false.
Definition one : float := of_Z 1.

(** [std::max(a, b)] is [(a < b) ? b : a], NaN operands included, in
    every implementation of the standard library. *)
Definition max (a b : float) : float := if ltb a b then b else a.

(** [std::clamp(v, lo, hi)] is [(v < lo) ? lo : (hi < v) ? hi : v]; a
    NaN [v] fails both tests and is handed back. *)
Definition clamp (v lo hi : float) : float :=
  if ltb v lo then lo else if ltb hi v then hi else v.

(** Membership in a closed interval, decided with the comparisons of
    the language. *)
Definition in_range (lo hi x : float) : bool := leb lo x && leb x hi.

End F32.

(** Arithmetic is evaluated by [vm_compute] on closed terms only; [simpl]
    and [cbn] leave it folded. *)
Arguments F32.add : simpl never.
Arguments F32.sub : simpl never.
Arguments F32.mul : simpl never.
Arguments F32.div : simpl never.
Arguments F32.sqrt : simpl never.
Arguments F32.abs : simpl never.
Arguments F32.ltb : simpl never.
Arguments F32.leb : simpl never.
Arguments F32.gtb : simpl never.
Arguments F32.geb : simpl never.
Arguments F32.of_Z : simpl never.
Arguments F32.lit : simpl never.
Arguments F32.one : simpl never.
Arguments F32.max : simpl never.
Arguments F32.clamp : simpl never.

Declare Scope f32_scope.
Delimit Scope f32_scope with f32.
Infix "+" := F32.add : f32_scope.
Infix "-" := F32.sub : f32_scope.
Infix "*" := F32.mul : f32_scope.
Infix "/" := F32.div : f32_scope.
Infix "<?" := F32.ltb : f32_scope.
Infix "<=?" := F32.leb : f32_scope.
Infix ">?" := F32.gtb : f32_scope.
Infix ">=?" := F32.geb : f32_scope.

Abbreviation float := F32.float.

(* ================================================================== *)
(** ** Fixed-width integers *)
(* ================================================================== *)

(** [uint32_t] and [uint64_t] values are kept as [Z] within their range;
    every operation that can leave the range is followed by the
    reduction the hardware performs. *)
Definition wrap32 (n : Z) : Z := n mod 2 ^ 32.
Definition wrap64 (n : Z) : Z := n mod 2 ^ 64.

(** A pointer is an [option]; [nullptr] is [None]. *)
Definition non_null {A : Type} (p : option A) : bool :=
  match p with Some _ => true | None => false end.

(** [static_cast<int32_t>] of a [uint32_t]. *)
Definition to_int32 (n : Z) : Z := if n <? 2 ^ 31 then n else n - 2 ^ 32.

(* ================================================================== *)
(** ** rnnoise_wrapper.h: constants, metrics, biquad *)
(* ================================================================== *)

Definition kRNNoiseFrameSize : nat := 480.

Record AudioMetrics := mkAudioMetrics {
  inputRms : float;
  outputRms : float;
  vadProbability : float;
  currentGain : float;
  noiseFloor : float;
  framesProcessed : Z
}.

(** The member initialisers of [AudioMetrics]. *)
Definition AudioMetrics_default : AudioMetrics :=
  mkAudioMetrics F32.zero F32.zero F32.zero F32.one F32.zero 0.

Definition store_inputRms (v : float) (m : AudioMetrics) :=
  mkAudioMetrics v (outputRms m) (vadProbability m) (currentGain m)
                 (noiseFloor m) (framesProcessed m).
Definition store_outputRms (v : float) (m : AudioMetrics) :=
  mkAudioMetrics (inputRms m) v (vadProbability m) (currentGain m)
                 (noiseFloor m) (framesProcessed m).
Definition store_vadProbability (v : float) (m : AudioMetrics) :=
  mkAudioMetrics (inputRms m) (outputRms m) v (currentGain m)
                 (noiseFloor m) (framesProcessed m).
Definition store_currentGain (v : float) (m : AudioMetrics) :=
  mkAudioMetrics (inputRms m) (outputRms m) (vadProbability m) v
                 (noiseFloor m) (framesProcessed m).
Definition store_noiseFloor (v : float) (m : AudioMetrics) :=
  mkAudioMetrics (inputRms m) (outputRms m) (vadProbability m)
                 (currentGain m) v (framesProcessed m).
Definition store_framesProcessed (v : Z) (m : AudioMetrics) :=
  mkAudioMetrics (inputRms m) (outputRms m) (vadProbability m)
                 (currentGain m) (noiseFloor m) v.

(** [framesProcessed.fetch_add(1)] on a [std::atomic<uint64_t>]. *)
Definition fetch_add_framesProcessed (m : AudioMetrics) :=
  store_framesProcessed (wrap64 (framesProcessed m + 1)) m.

Record BiquadState := mkBiquad {
  b0 : float; b1 : float; b2 : float;
  a1 : float; a2 : float;
  x1 : float; x2 : float;
  y1 : float; y2 : float
}.

Definition BiquadState_default : BiquadState :=
  mkBiquad F32.one F32.zero F32.zero F32.zero F32.zero
           F32.zero F32.zero F32.zero F32.zero.

(** Assignment of the five coefficients. *)
Definition BiquadState_set_coefficients (c0 c1 c2 d1 d2 : float)
           (s : BiquadState) : BiquadState :=
  mkBiquad c0 c1 c2 d1 d2 (x1 s) (x2 s) (y1 s) (y2 s).

(** [void reset() { x1 = x2 = y1 = y2 = 0.f; }] *)
Definition BiquadState_reset (s : BiquadState) : BiquadState :=
  mkBiquad (b0 s) (b1 s) (b2 s) (a1 s) (a2 s)
           F32.zero F32.zero F32.zero F32.zero.

(** [float process(float x)]: Direct Form I; the sum is evaluated left
    to right as the expression is written. *)
Definition BiquadState_process (s : BiquadState) (x : float)
  : float * BiquadState :=
  let y := (b0 s * x + b1 s * x1 s + b2 s * x2 s
            - a1 s * y1 s - a2 s * y2 s)%f32 in
  (y, mkBiquad (b0 s) (b1 s) (b2 s) (a1 s) (a2 s) x (x1 s) y (y1 s)).

(* ================================================================== *)
(** ** rnnoise_wrapper.cpp: tuning constants *)
(* ================================================================== *)

Definition kGateCloseCoeff : float := F32.lit 40 100.
Definition kGateOpenCoeff : float := F32.lit 15 100.
Definition kMinGateGain : float := F32.zero.
Definition kHoldFrames : Z := 15.
Definition kVadHysteresis : float := F32.lit 12 100.
Definition kCalibrationPeriod : Z := 200.
Definition kCalibrationAlpha : float := F32.lit 8 100.
Definition kTrackingAlpha : float := F32.lit 5 1000.
Definition kFloorMultiplier : float := F32.lit 15 10.
Definition kAbsoluteMinFloor : float := F32.lit 3 10000.
Definition kFallbackThreshold : float := F32.lit 2 1000.
Definition kSpectralClampMult : float := F32.of_Z 2.
Definition kClampGateThreshold : float := F32.lit 3 10.
Definition kSoftSilenceLevel : float := F32.lit 1 1000.
Definition kNoiseShapeCoeff : float := F32.lit 7 10.
Definition kSoftSilenceGateThresh : float := F32.lit 1 10.

(* ================================================================== *)
(** ** class RNNoiseWrapper *)
(* ================================================================== *)

Section RNNoiseWrapper.

(** The neural denoiser is an external library.  [DenoiseState] is its
    opaque state and [rnnoise_process_frame st in] stands for the call
    [rnnoise_process_frame(st, frame, frame)]: it yields the state
    after the call, the samples written back and the VAD
    probability. *)
Context {DenoiseState : Type}.
Variable rnnoise_process_frame :
  DenoiseState -> list float -> DenoiseState * list float * float.

Record RNNoiseWrapper := mkWrapper {
  state_ : option DenoiseState;          (* nullptr is None *)
  state2_ : option DenoiseState;
  suppressionLevel_ : float;
  vadThreshold_ : float;
  comfortNoiseEnabled_ : bool;
  smoothGain_ : float;
  holdCounter_ : Z;                       (* int *)
  noiseFloorEstimate_ : float;
  calibrationFrames_ : Z;                 (* uint64_t *)
  hpf_ : BiquadState;
  lpf_ : BiquadState;
  noiseState_ : Z;                        (* uint32_t *)
  prevNoise_ : float;
  metrics_ : AudioMetrics
}.

(** The object as its default member initialisers leave it. *)
Definition RNNoiseWrapper_new : RNNoiseWrapper :=
  mkWrapper None None F32.one (F32.lit 65 100) true
            F32.one 0 F32.zero 0
            BiquadState_default BiquadState_default
            0x12345678 F32.zero AudioMetrics_default.

Definition set_states (s1 s2 : option DenoiseState) (w : RNNoiseWrapper) :=
  mkWrapper s1 s2 (suppressionLevel_ w) (vadThreshold_ w)
    (comfortNoiseEnabled_ w) (smoothGain_ w) (holdCounter_ w)
    (noiseFloorEstimate_ w) (calibrationFrames_ w) (hpf_ w) (lpf_ w)
    (noiseState_ w) (prevNoise_ w) (metrics_ w).
Definition set_suppressionLevel (v : float) (w : RNNoiseWrapper) :=
  mkWrapper (state_ w) (state2_ w) v (vadThreshold_ w)
    (comfortNoiseEnabled_ w) (smoothGain_ w) (holdCounter_ w)
    (noiseFloorEstimate_ w) (calibrationFrames_ w) (hpf_ w) (lpf_ w)
    (noiseState_ w) (prevNoise_ w) (metrics_ w).
Definition set_vadThreshold (v : float) (w : RNNoiseWrapper) :=
  mkWrapper (state_ w) (state2_ w) (suppressionLevel_ w) v
    (comfortNoiseEnabled_ w) (smoothGain_ w) (holdCounter_ w)
    (noiseFloorEstimate_ w) (calibrationFrames_ w) (hpf_ w) (lpf_ w)
    (noiseState_ w) (prevNoise_ w) (metrics_ w).
Definition set_comfortNoiseEnabled (v : bool) (w : RNNoiseWrapper) :=
  mkWrapper (state_ w) (state2_ w) (suppressionLevel_ w) (vadThreshold_ w)
    v (smoothGain_ w) (holdCounter_ w)
    (noiseFloorEstimate_ w) (calibrationFrames_ w) (hpf_ w) (lpf_ w)
    (noiseState_ w) (prevNoise_ w) (metrics_ w).
Definition set_smoothGain (v : float) (w : RNNoiseWrapper) :=
  mkWrapper (state_ w) (state2_ w) (suppressionLevel_ w) (vadThreshold_ w)
    (comfortNoiseEnabled_ w) v (holdCounter_ w)
    (noiseFloorEstimate_ w) (calibrationFrames_ w) (hpf_ w) (lpf_ w)
    (noiseState_ w) (prevNoise_ w) (metrics_ w).
Definition set_holdCounter (v : Z) (w : RNNoiseWrapper) :=
  mkWrapper (state_ w) (state2_ w) (suppressionLevel_ w) (vadThreshold_ w)
    (comfortNoiseEnabled_ w) (smoothGain_ w) v
    (noiseFloorEstimate_ w) (calibrationFrames_ w) (hpf_ w) (lpf_ w)
    (noiseState_ w) (prevNoise_ w) (metrics_ w).
Definition set_noiseFloorEstimate (v : float) (w : RNNoiseWrapper) :=
  mkWrapper (state_ w) (state2_ w) (suppressionLevel_ w) (vadThreshold_ w)
    (comfortNoiseEnabled_ w) (smoothGain_ w) (holdCounter_ w)
    v (calibrationFrames_ w) (hpf_ w) (lpf_ w)
    (noiseState_ w) (prevNoise_ w) (metrics_ w).
Definition set_calibrationFrames (v : Z) (w : RNNoiseWrapper) :=
  mkWrapper (state_ w) (state2_ w) (suppressionLevel_ w) (vadThreshold_ w)
    (comfortNoiseEnabled_ w) (smoothGain_ w) (holdCounter_ w)
    (noiseFloorEstimate_ w) v (hpf_ w) (lpf_ w)
    (noiseState_ w) (prevNoise_ w) (metrics_ w).
Definition set_hpf (v : BiquadState) (w : RNNoiseWrapper) :=
  mkWrapper (state_ w) (state2_ w) (suppressionLevel_ w) (vadThreshold_ w)
    (comfortNoiseEnabled_ w) (smoothGain_ w) (holdCounter_ w)
    (noiseFloorEstimate_ w) (calibrationFrames_ w) v (lpf_ w)
    (noiseState_ w) (prevNoise_ w) (metrics_ w).
Definition set_lpf (v : BiquadState) (w : RNNoiseWrapper) :=
  mkWrapper (state_ w) (state2_ w) (suppressionLevel_ w) (vadThreshold_ w)
    (comfortNoiseEnabled_ w) (smoothGain_ w) (holdCounter_ w)
    (noiseFloorEstimate_ w) (calibrationFrames_ w) (hpf_ w) v
    (noiseState_ w) (prevNoise_ w) (metrics_ w).
Definition set_noiseState (v : Z) (w : RNNoiseWrapper) :=
  mkWrapper (state_ w) (state2_ w) (suppressionLevel_ w) (vadThreshold_ w)
    (comfortNoiseEnabled_ w) (smoothGain_ w) (holdCounter_ w)
    (noiseFloorEstimate_ w) (calibrationFrames_ w) (hpf_ w) (lpf_ w)
    v (prevNoise_ w) (metrics_ w).
Definition set_prevNoise (v : float) (w : RNNoiseWrapper) :=
  mkWrapper (state_ w) (state2_ w) (suppressionLevel_ w) (vadThreshold_ w)
    (comfortNoiseEnabled_ w) (smoothGain_ w) (holdCounter_ w)
    (noiseFloorEstimate_ w) (calibrationFrames_ w) (hpf_ w) (lpf_ w)
    (noiseState_ w) v (metrics_ w).
Definition set_metrics (v : AudioMetrics) (w : RNNoiseWrapper) :=
  mkWrapper (state_ w) (state2_ w) (suppressionLevel_ w) (vadThreshold_ w)
    (comfortNoiseEnabled_ w) (smoothGain_ w) (holdCounter_ w)
    (noiseFloorEstimate_ w) (calibrationFrames_ w) (hpf_ w) (lpf_ w)
    (noiseState_ w) (prevNoise_ w) v.

(** *** Member functions as state transformers

    A member function that returns [A] is a function from the object
    to the result and the object afterwards. *)
Definition M (A : Type) : Type := RNNoiseWrapper -> A * RNNoiseWrapper.

Definition ret {A} (a : A) : M A := fun w => (a, w).
Definition bind {A B} (c : M A) (k : A -> M B) : M B :=
  fun w => let (a, w') := c w in k a w'.
Definition get {A} (field : RNNoiseWrapper -> A) : M A :=
  fun w => (field w, w).
Definition modify (f : RNNoiseWrapper -> RNNoiseWrapper) : M unit :=
  fun w => (tt, f w).
Definition store (f : AudioMetrics -> AudioMetrics) : M unit :=
  modify (fun w => set_metrics (f (metrics_ w)) w).
Definition exec {A} (c : M A) (w : RNNoiseWrapper) : RNNoiseWrapper :=
  snd (c w).

Notation "x <- c ;; k" := (bind c (fun x => k))
  (at level 61, c at next level, right associativity).
Notation "c ;; k" := (bind c (fun _ => k))
  (at level 61, right associativity).

(** A loop [for (i = 0; i < kRNNoiseFrameSize; i++)] whose body reads
    and writes [frame[i]] and may call member functions: the first
    480 cells are visited in order, the cells beyond are not touched.
    The buffer holds at least 480 cells by the contract of
    [processFrame]; on a shorter list the cells it has are visited. *)
Fixpoint for_each (body : float -> M float) (cells : list float)
  : M (list float) :=
  match cells with
  | [] => ret []
  | x :: rest =>
      y <- body x ;;
      ys <- for_each body rest ;;
      ret (y :: ys)
  end.

Definition for_frame (body : float -> M float) (frame : list float)
  : M (list float) :=
  ys <- for_each body (firstn kRNNoiseFrameSize frame) ;;
  ret (ys ++ skipn kRNNoiseFrameSize frame).

(** The same loop with a second array read at the same index. *)
Fixpoint zip_with (f : float -> float -> float) (xs ys : list float)
  : list float :=
  match xs, ys with
  | x :: xs', y :: ys' => f x y :: zip_with f xs' ys'
  | _, _ => xs
  end.

(** *** Helpers *)

(** [computeRms(buf, len)] *)
Definition computeRms (buf : list float) (len : nat) : float :=
  let sum := fold_left (fun sum x => (sum + x * x)%f32)
                       (firstn len buf) F32.zero in
  F32.sqrt (sum / F32.of_Z (Z.of_nat len))%f32.

(** [comfortNoiseSample()]: xorshift32 then a one-pole low-pass. *)
Definition xorshift32 (s : Z) : Z :=
  let s := Z.lxor s (wrap32 (Z.shiftl s 13)) in
  let s := Z.lxor s (Z.shiftr s 17) in
  Z.lxor s (wrap32 (Z.shiftl s 5)).

Definition comfortNoiseSample : M float :=
  s <- get noiseState_ ;;
  let s := xorshift32 s in
  modify (set_noiseState s) ;;
  let white := (F32.of_Z (to_int32 s) / F32.of_Z 2147483648)%f32 in
  prev <- get prevNoise_ ;;
  let shaped := (kNoiseShapeCoeff * prev
                 + (F32.one - kNoiseShapeCoeff) * white)%f32 in
  modify (set_prevNoise shaped) ;;
  ret (shaped * kSoftSilenceLevel)%f32.

(** *** Lifecycle *)

(** [destroy()]: both handles are released and nulled. *)
Definition destroy : M unit := modify (set_states None None).

(** [initFilters()]: the five coefficients of each filter are assigned,
    then its delay line is reset. *)
Definition initFilters : M unit :=
  modify (fun w => set_hpf (BiquadState_reset
    (BiquadState_set_coefficients
       (F32.lit 992631 1000000)
       (F32.lit (-1985261) 1000000)
       (F32.lit 992631 1000000)
       (F32.lit (-1985199) 1000000)
       (F32.lit 985323 1000000) (hpf_ w))) w) ;;
  modify (fun w => set_lpf (BiquadState_reset
    (BiquadState_set_coefficients
       (F32.lit 155029 1000000)
       (F32.lit 310059 1000000)
       (F32.lit 155029 1000000)
       (F32.lit (-620209) 1000000)
       (F32.lit 240326 1000000) (lpf_ w))) w).

(** [init()].  [created1] and [created2] are what the two calls of
    [rnnoise_create(nullptr)] return. *)
Definition init (created1 created2 : option DenoiseState) : M bool :=
  s <- get state_ ;;
  (if non_null s then destroy else ret tt) ;;
  modify (set_states created1 created2) ;;
  modify (set_smoothGain F32.one) ;;
  modify (set_holdCounter 0) ;;
  modify (set_noiseFloorEstimate F32.zero) ;;
  modify (set_calibrationFrames 0) ;;
  modify (set_noiseState 0x12345678) ;;
  modify (set_prevNoise F32.zero) ;;
  initFilters ;;
  store (store_framesProcessed 0) ;;
  store (store_inputRms F32.zero) ;;
  store (store_outputRms F32.zero) ;;
  store (store_vadProbability F32.zero) ;;
  store (store_currentGain F32.one) ;;
  store (store_noiseFloor F32.zero) ;;
  s1 <- get state_ ;;
  s2 <- get state2_ ;;
  ret (non_null s1 && non_null s2).

(** *** Settings *)

Definition setSuppressionLevel (level : float) : M unit :=
  modify (set_suppressionLevel (F32.clamp level F32.zero F32.one)).
Definition setVadThreshold (threshold : float) : M unit :=
  modify (set_vadThreshold (F32.clamp threshold F32.zero F32.one)).
Definition setComfortNoise (enabled : bool) : M unit :=
  modify (set_comfortNoiseEnabled enabled).

Definition getSuppressionLevel : M float := get suppressionLevel_.
Definition getVadThreshold : M float := get vadThreshold_.

(** [isInitialized()] tests the first handle only. *)
Definition isInitialized : M bool :=
  s <- get state_ ;; ret (non_null s).

(** *** Adaptive noise floor *)

Definition updateNoiseFloor (postRms vad : float) : M unit :=
  vadThresh <- get vadThreshold_ ;;
  let isNoise := (vad <? vadThresh * F32.lit 5 10)%f32 in
  if negb isNoise then
    nf <- get noiseFloorEstimate_ ;;
    store (store_noiseFloor nf)
  else
    cal <- get calibrationFrames_ ;;
    alpha <- (if cal <? kCalibrationPeriod then
                modify (set_calibrationFrames (wrap64 (cal + 1))) ;;
                ret kCalibrationAlpha
              else
                ret kTrackingAlpha) ;;
    nf <- get noiseFloorEstimate_ ;;
    (if (nf <=? F32.zero)%f32 then
       modify (set_noiseFloorEstimate postRms)
     else
       modify (set_noiseFloorEstimate (nf + alpha * (postRms - nf))%f32)) ;;
    nf <- get noiseFloorEstimate_ ;;
    modify (set_noiseFloorEstimate (F32.max nf kAbsoluteMinFloor)) ;;
    nf <- get noiseFloorEstimate_ ;;
    store (store_noiseFloor nf).

(** *** Gate state machine *)

Definition computeGateTarget (vad postRms : float) : M float :=
  vadThresh <- get vadThreshold_ ;;
  nf <- get noiseFloorEstimate_ ;;
  let gateThresh := if (nf >? kAbsoluteMinFloor)%f32
                    then (nf * kFloorMultiplier)%f32
                    else kFallbackThreshold in
  let speechByVad := (vad >=? vadThresh)%f32 in
  let speechByEnergy := (vad >=? vadThresh - kVadHysteresis)%f32
                        && (postRms >? gateThresh * F32.of_Z 2)%f32 in
  if speechByVad || speechByEnergy then
    modify (set_holdCounter kHoldFrames) ;;
    ret F32.one
  else
    hold <- get holdCounter_ ;;
    if hold >? 0 then
      modify (set_holdCounter (hold - 1)) ;;
      ret F32.one
    else if (postRms <? gateThresh)%f32 then
      ret kMinGateGain
    else
      let ratio := ((postRms - gateThresh)
                    / F32.max gateThresh (F32.lit 1 10000))%f32 in
      ret (F32.clamp ratio kMinGateGain (F32.lit 5 10)).

(** *** Spectral floor clamp *)

Definition spectralClamp (frame : list float) (vad : float)
  : M (list float) :=
  vadThresh <- get vadThreshold_ ;;
  smooth <- get smoothGain_ ;;
  if (vad >=? vadThresh)%f32 || (smooth >? kClampGateThreshold)%f32 then
    ret frame
  else
    nf <- get noiseFloorEstimate_ ;;
    let clampThresh := F32.max (nf * kSpectralClampMult)%f32
                               (kAbsoluteMinFloor * F32.of_Z 3)%f32 in
    for_frame (fun x => ret (if (F32.abs x <? clampThresh)%f32
                             then F32.zero else x)) frame.

(** *** Soft silence *)

Definition applySoftSilence (frame : list float) : M (list float) :=
  enabled <- get comfortNoiseEnabled_ ;;
  if negb enabled then ret frame
  else
    smooth <- get smoothGain_ ;;
    if (smooth >=? kSoftSilenceGateThresh)%f32 then ret frame
    else
      let scale := ((kSoftSilenceGateThresh - smooth)
                    / kSoftSilenceGateThresh)%f32 in
      for_frame (fun x => n <- comfortNoiseSample ;;
                          ret (x + n * scale)%f32) frame.

(** *** Core pipeline *)

(** Step 9 of [processFrame]: asymmetric smoothing of the gate gain
    towards [targetGain], clamped and published. *)
Definition smoothGate (targetGain : float) : M unit :=
  smooth <- get smoothGain_ ;;
  let coeff := if (targetGain <? smooth)%f32
               then kGateCloseCoeff else kGateOpenCoeff in
  modify (set_smoothGain (smooth + coeff * (targetGain - smooth))%f32) ;;
  smooth <- get smoothGain_ ;;
  modify (set_smoothGain (F32.clamp smooth kMinGateGain F32.one)) ;;
  smooth <- get smoothGain_ ;;
  store (store_currentGain smooth).

(** The fast path taken when suppression is fully off. *)
Definition passthrough (frame : list float) : M float :=
  let rms := computeRms frame kRNNoiseFrameSize in
  store (store_inputRms rms) ;;
  store (store_outputRms rms) ;;
  store (store_vadProbability F32.zero) ;;
  store (store_currentGain F32.one) ;;
  store fetch_add_framesProcessed ;;
  ret F32.zero.

(** Steps 1 to 13 of [processFrame], entered with both handles in
    place and [level > 0]: the value returned and the contents of the
    buffer afterwards. *)
Definition pipeline (st1 st2 : DenoiseState) (level : float)
           (frame : list float) : M (float * list float) :=
  (* 1. input RMS *)
  let inputRms := computeRms frame kRNNoiseFrameSize in
  store (store_inputRms inputRms) ;;
  (* 2. keep the original, scale to the int16 range *)
  let original := firstn kRNNoiseFrameSize frame in
  frame <- for_frame (fun x => ret (x * F32.of_Z 32767)%f32) frame ;;
  (* 3. two passes of the denoiser *)
  let '(st1', frame, vad1) := rnnoise_process_frame st1 frame in
  let '(st2', frame, vad2) := rnnoise_process_frame st2 frame in
  modify (set_states (Some st1') (Some st2')) ;;
  let vad := F32.max vad1 vad2 in
  store (store_vadProbability vad) ;;
  let kInvScale := (F32.one / F32.of_Z 32767)%f32 in
  frame <- for_frame (fun x => ret (x * kInvScale)%f32) frame ;;
  (* 4. dry/wet blend *)
  let frame :=
    if (level <? F32.one)%f32 then
      let dry := (F32.one - level)%f32 in
      zip_with (fun wet o => (wet * level + o * dry)%f32) frame original
    else frame in
  (* 5. HPF then LPF *)
  frame <- for_frame (fun x =>
             h <- get hpf_ ;;
             let (x, h) := BiquadState_process h x in
             modify (set_hpf h) ;;
             l <- get lpf_ ;;
             let (x, l) := BiquadState_process l x in
             modify (set_lpf l) ;;
             ret x) frame ;;
  (* 6-8. post-filter RMS, noise floor, gate target *)
  let postRms := computeRms frame kRNNoiseFrameSize in
  updateNoiseFloor postRms vad ;;
  targetGain <- computeGateTarget vad postRms ;;
  (* 9-10. smoothing, gain *)
  smoothGate targetGain ;;
  smooth <- get smoothGain_ ;;
  frame <- for_frame (fun x => ret (x * smooth)%f32) frame ;;
  (* 11-12. clamp, comfort noise *)
  frame <- spectralClamp frame vad ;;
  frame <- applySoftSilence frame ;;
  (* 13. output RMS, frame counter *)
  let outputRms := computeRms frame kRNNoiseFrameSize in
  store (store_outputRms outputRms) ;;
  store fetch_add_framesProcessed ;;
  ret (vad, frame).

(** [processFrame(frame)]: the null-handle guard, the fast path, the
    pipeline. *)
Definition processFrame (frame : list float) : M (float * list float) :=
  s1 <- get state_ ;;
  s2 <- get state2_ ;;
  match s1, s2 with
  | Some st1, Some st2 =>
      level <- get suppressionLevel_ ;;
      if (level <=? F32.zero)%f32 then
        r <- passthrough frame ;;
        ret (r, frame)
      else
        pipeline st1 st2 level frame
  | _, _ => ret (F32.zero, frame)
  end.

End RNNoiseWrapper.

Arguments RNNoiseWrapper : clear implicits.

(* ================================================================== *)
(** ** ringbuffer.h *)
(* ================================================================== *)

(** Modelled from the spec: [ringbuffer.h] (class [RingBuffer]) is not
    among the sources; only its callers are.  The specification gives a
    single-producer/single-consumer buffer whose capacity is rounded up
    to a power of two, whose [write] copies [min(n, writable)] elements
    and drops the rest, and whose [read] copies [min(n, readable)]
    elements.  The samples held, oldest first, are the elements between
    the read index and the write index. *)
Fixpoint round_up_pow2_from (fuel : nat) (p n : nat) : nat :=
  match fuel with
  | O => p
  | S fuel' => if (n <=? p)%nat then p else round_up_pow2_from fuel' (2 * p) n
  end.

Definition round_up_pow2 (n : nat) : nat := round_up_pow2_from n 1 n.

Record RingBuffer := mkRing {
  ring_capacity : nat;
  ring_held : list float
}.

Definition RingBuffer_new (capacity : nat) : RingBuffer :=
  mkRing (round_up_pow2 capacity) [].

Definition available_read (r : RingBuffer) : nat :=
  List.length (ring_held r).
Definition available_write (r : RingBuffer) : nat :=
  (ring_capacity r - available_read r)%nat.

Definition RingBuffer_write (src : list float) (n : nat) (r : RingBuffer)
  : nat * RingBuffer :=
  let k := Nat.min n (available_write r) in
  (k, mkRing (ring_capacity r) (ring_held r ++ firstn k src)).

Definition RingBuffer_read (n : nat) (r : RingBuffer)
  : list float * RingBuffer :=
  let k := Nat.min n (available_read r) in
  (firstn k (ring_held r), mkRing (ring_capacity r) (skipn k (ring_held r))).

(* ================================================================== *)
(** ** audio.h / audio.cpp: class AudioEngine *)
(* ================================================================== *)

(** *** The PortAudio interface *)

Definition PaError : Type := Z.
Definition paNoError : PaError := 0.
Definition paNoDevice : Z := -1.

Definition paInputUnderflow : Z := 1.
Definition paInputOverflow : Z := 2.
Definition paOutputUnderflow : Z := 4.
Definition paOutputOverflow : Z := 8.

(** [statusFlags & bit] used as a condition. *)
Definition flag_set (statusFlags bit : Z) : bool :=
  negb (Z.land statusFlags bit =? 0).

Inductive StreamDir := Capture | Playback.

(** What a [PaStream*] points to: the device the stream was opened on
    and whether it has been started. *)
Record PaStream := mkStream {
  stream_device : Z;
  stream_active : bool
}.

Definition Pa_StopStream (s : PaStream) : PaStream :=
  mkStream (stream_device s) false.

(** The fields of a [PaDeviceInfo] that the engine reads; [pa_name] is
    [None] for a null [name] pointer.  The sample rate and the two
    latencies are [double]s, copied and never computed with. *)
Record PaDeviceInfo := mkPaDeviceInfo {
  pa_name : option string;
  pa_maxInputChannels : Z;
  pa_maxOutputChannels : Z;
  pa_defaultSampleRate : spec_float;
  pa_defaultLowInputLatency : spec_float;
  pa_defaultLowOutputLatency : spec_float
}.

(** The outcome of every call into PortAudio and RNNoise that [start]
    makes; these are inputs of the model.  [host_Pa_GetDeviceInfo i]
    is what [Pa_GetDeviceInfo(i)] points to, [None] for the null
    pointer it returns when [i] names no device.  [host_open dir
    device exclusive retry] is the result of [Pa_OpenStream] in
    direction [dir] on [device], with the WASAPI exclusive-mode stream
    info attached or not, at the first attempt or at the shared-mode
    retry. *)
Record Host {DenoiseState : Type} := mkHost {
  host_win32 : bool;                       (* compiled with _WIN32 *)
  host_wasapi : bool;                      (* a paWASAPI host API is listed *)
  host_Pa_Initialize : PaError;
  host_Pa_GetErrorText : PaError -> string;
  host_default_input : Z;
  host_default_output : Z;
  host_Pa_GetDeviceInfo : Z -> option PaDeviceInfo;
  host_open : StreamDir -> Z -> bool -> bool -> PaError;
  host_Pa_StartStream : StreamDir -> PaError;
  host_rnnoise_create1 : option DenoiseState;
  host_rnnoise_create2 : option DenoiseState
}.
Arguments Host : clear implicits.

Record AudioConfig := mkConfig {
  inputDeviceIndex : Z;
  outputDeviceIndex : Z;
  sampleRate : Z;
  framesPerBuffer : Z;
  tryExclusiveMode : bool
}.

(** The default member initialisers of [AudioConfig]. *)
Definition AudioConfig_default : AudioConfig :=
  mkConfig (-1) (-1) 48000 480 true.

Definition kRingCapacity : nat := 4096.
Definition kMaxRestartAttempts : Z := 5.

Definition empty (s : string) : bool :=
  match s with EmptyString => true | _ => false end.

Section AudioEngine.

Context {DenoiseState : Type}.
Variable rnnoise_process_frame :
  DenoiseState -> list float -> DenoiseState * list float * float.
Variable host : Host DenoiseState.

(** The members of [AudioEngine] that [start], [stop] and the
    callbacks use.  [processingThread_] is whether the thread object
    is joinable.  [pa_initialized] is not a member: it is the count of
    [Pa_Initialize] calls that [Pa_Terminate] has not yet matched,
    which PortAudio keeps for the process. *)
Record AudioEngine := mkEngine {
  running_ : bool;
  shouldRestart_ : bool;
  config_ : AudioConfig;
  captureStream_ : option PaStream;
  outputStream_ : option PaStream;
  captureRing_ : option RingBuffer;
  outputRing_ : option RingBuffer;
  rnnoise_ : RNNoiseWrapper DenoiseState;
  processingThread_ : bool;
  pa_initialized : nat
}.

Definition AudioEngine_new : AudioEngine :=
  mkEngine false false AudioConfig_default None None None None
           RNNoiseWrapper_new false 0.

Definition set_running (v : bool) (e : AudioEngine) :=
  mkEngine v (shouldRestart_ e) (config_ e) (captureStream_ e)
    (outputStream_ e) (captureRing_ e) (outputRing_ e) (rnnoise_ e)
    (processingThread_ e) (pa_initialized e).
Definition set_shouldRestart (v : bool) (e : AudioEngine) :=
  mkEngine (running_ e) v (config_ e) (captureStream_ e)
    (outputStream_ e) (captureRing_ e) (outputRing_ e) (rnnoise_ e)
    (processingThread_ e) (pa_initialized e).
Definition set_config (v : AudioConfig) (e : AudioEngine) :=
  mkEngine (running_ e) (shouldRestart_ e) v (captureStream_ e)
    (outputStream_ e) (captureRing_ e) (outputRing_ e) (rnnoise_ e)
    (processingThread_ e) (pa_initialized e).
Definition set_captureStream (v : option PaStream) (e : AudioEngine) :=
  mkEngine (running_ e) (shouldRestart_ e) (config_ e) v
    (outputStream_ e) (captureRing_ e) (outputRing_ e) (rnnoise_ e)
    (processingThread_ e) (pa_initialized e).
Definition set_outputStream (v : option PaStream) (e : AudioEngine) :=
  mkEngine (running_ e) (shouldRestart_ e) (config_ e) (captureStream_ e)
    v (captureRing_ e) (outputRing_ e) (rnnoise_ e)
    (processingThread_ e) (pa_initialized e).
Definition set_captureRing (v : option RingBuffer) (e : AudioEngine) :=
  mkEngine (running_ e) (shouldRestart_ e) (config_ e) (captureStream_ e)
    (outputStream_ e) v (outputRing_ e) (rnnoise_ e)
    (processingThread_ e) (pa_initialized e).
Definition set_outputRing (v : option RingBuffer) (e : AudioEngine) :=
  mkEngine (running_ e) (shouldRestart_ e) (config_ e) (captureStream_ e)
    (outputStream_ e) (captureRing_ e) v (rnnoise_ e)
    (processingThread_ e) (pa_initialized e).
Definition set_rnnoise (v : RNNoiseWrapper DenoiseState) (e : AudioEngine) :=
  mkEngine (running_ e) (shouldRestart_ e) (config_ e) (captureStream_ e)
    (outputStream_ e) (captureRing_ e) (outputRing_ e) v
    (processingThread_ e) (pa_initialized e).
Definition set_processingThread (v : bool) (e : AudioEngine) :=
  mkEngine (running_ e) (shouldRestart_ e) (config_ e) (captureStream_ e)
    (outputStream_ e) (captureRing_ e) (outputRing_ e) (rnnoise_ e)
    v (pa_initialized e).
Definition set_pa_initialized (v : nat) (e : AudioEngine) :=
  mkEngine (running_ e) (shouldRestart_ e) (config_ e) (captureStream_ e)
    (outputStream_ e) (captureRing_ e) (outputRing_ e) (rnnoise_ e)
    (processingThread_ e) v.

(** [Pa_Initialize()] that succeeded, and [Pa_Terminate()]. *)
Definition Pa_Initialize_ok (e : AudioEngine) :=
  set_pa_initialized (S (pa_initialized e)) e.
Definition Pa_Terminate (e : AudioEngine) :=
  set_pa_initialized (Nat.pred (pa_initialized e)) e.

(** A call of a member function of [rnnoise_]. *)
Definition on_rnnoise {A} (c : M A) (e : AudioEngine) : A * AudioEngine :=
  let (a, w) := c (rnnoise_ e) in (a, set_rnnoise w e).

(** *** Stream setup *)

(** [closeStreams()] *)
Definition closeStreams (e : AudioEngine) : AudioEngine :=
  let e := if non_null (captureStream_ e)
           then set_captureStream None e else e in
  if non_null (outputStream_ e) then set_outputStream None e else e.

(** [Pa_OpenStream] in direction [dir], followed under [_WIN32] and
    [tryExclusiveMode] by the retry without the exclusive-mode stream
    info when the first attempt failed. *)
Definition open_with_fallback (dir : StreamDir) (device : Z)
           (exclusive : bool) (cfg : AudioConfig) : PaError :=
  let err := host_open host dir device exclusive false in
  if negb (err =? paNoError) then
    if host_win32 host && tryExclusiveMode cfg
    then host_open host dir device false true
    else err
  else err.

(** [openStreams()].  [None] is the undefined behaviour of reading
    [Pa_GetDeviceInfo(idx)->defaultLow...Latency] through the null
    pointer returned for an index that names no device; both
    latencies are read before the first stream is opened.  The
    latency read goes into the stream parameters handed to
    [Pa_OpenStream], whose outcome on the device [host_open] gives.
    A stream pointer is written only by an open that succeeded. *)
Definition openStreams (e : AudioEngine) : option (string * AudioEngine) :=
  let cfg := config_ e in
  let inputIdx := inputDeviceIndex cfg in
  let outputIdx := outputDeviceIndex cfg in
  let inputIdx :=
    if inputIdx <? 0 then host_default_input host else inputIdx in
  let outputIdx :=
    if outputIdx <? 0 then host_default_output host else outputIdx in
  if inputIdx =? paNoDevice then
    Some ("No input device available"%string, e)
  else if outputIdx =? paNoDevice then
    Some ("No output device available"%string, e)
  else
    match host_Pa_GetDeviceInfo host inputIdx with
    | None => None
    | Some inputInfo =>
    match host_Pa_GetDeviceInfo host outputIdx with
    | None => None
    | Some outputInfo =>
        let exclusive :=
          host_win32 host && tryExclusiveMode cfg && host_wasapi host in
        let err := open_with_fallback Capture inputIdx exclusive cfg in
        if negb (err =? paNoError) then
          Some (("Failed to open capture stream: "
                 ++ host_Pa_GetErrorText host err)%string, e)
        else
          let e := set_captureStream (Some (mkStream inputIdx false)) e in
          let err := open_with_fallback Playback outputIdx exclusive cfg in
          if negb (err =? paNoError) then
            Some (("Failed to open output stream: "
                   ++ host_Pa_GetErrorText host err)%string,
                  set_captureStream None e)
          else
            Some (EmptyString,
                  set_outputStream (Some (mkStream outputIdx false)) e)
    end
    end.

(** [if (stream) Pa_StopStream(stream);] *)
Definition stop_if_open (s : option PaStream) : option PaStream :=
  option_map Pa_StopStream s.

(** [Pa_StartStream(stream)] that succeeded. *)
Definition started (s : option PaStream) : option PaStream :=
  option_map (fun s => mkStream (stream_device s) true) s.

(** *** Start / Stop *)

(** [start(config)].  [None]: the call does not return, because
    [openStreams] reads through a null pointer. *)
Definition start (config : AudioConfig) (e : AudioEngine)
  : option (string * AudioEngine) :=
  if running_ e then Some ("Engine already running"%string, e)
  else
    let e := set_config config e in
    let err := host_Pa_Initialize host in
    if negb (err =? paNoError) then
      Some (("Pa_Initialize failed: "
             ++ host_Pa_GetErrorText host err)%string, e)
    else
      let e := Pa_Initialize_ok e in
      let e := set_captureRing (Some (RingBuffer_new kRingCapacity)) e in
      let e := set_outputRing (Some (RingBuffer_new kRingCapacity)) e in
      let (ok, e) := on_rnnoise (init (host_rnnoise_create1 host)
                                      (host_rnnoise_create2 host)) e in
      if negb ok then
        Some ("RNNoise initialization failed"%string, Pa_Terminate e)
      else
        match openStreams e with
        | None => None
        | Some (openErr, e) =>
        if negb (empty openErr) then
          let (_, e) := on_rnnoise destroy e in
          Some (openErr, Pa_Terminate e)
        else
          let err := host_Pa_StartStream host Capture in
          if negb (err =? paNoError) then
            let e := closeStreams e in
            let (_, e) := on_rnnoise destroy e in
            Some (("Failed to start capture stream: "
                   ++ host_Pa_GetErrorText host err)%string, Pa_Terminate e)
          else
            let e := set_captureStream (started (captureStream_ e)) e in
            let err := host_Pa_StartStream host Playback in
            if negb (err =? paNoError) then
              let e := set_captureStream
                         (stop_if_open (captureStream_ e)) e in
              let e := closeStreams e in
              let (_, e) := on_rnnoise destroy e in
              Some (("Failed to start output stream: "
                     ++ host_Pa_GetErrorText host err)%string,
                    Pa_Terminate e)
            else
              let e := set_outputStream (started (outputStream_ e)) e in
              let e := set_running true e in
              let e := set_processingThread true e in
              Some (EmptyString, e)
        end.

(** [stop()], as the calling thread sees it: the join returns once the
    worker has left its loop. *)
Definition stop (e : AudioEngine) : AudioEngine :=
  if negb (running_ e) then e
  else
    let e := set_running false e in
    let e := if processingThread_ e
             then set_processingThread false e else e in
    let e := set_captureStream (stop_if_open (captureStream_ e)) e in
    let e := set_outputStream (stop_if_open (outputStream_ e)) e in
    let e := closeStreams e in
    let (_, e) := on_rnnoise destroy e in
    let e := set_captureRing None e in
    let e := set_outputRing None e in
    Pa_Terminate e.

(** [setSuppressionLevel(level)] *)
Definition AudioEngine_setSuppressionLevel (level : float)
           (e : AudioEngine) : AudioEngine :=
  snd (on_rnnoise (setSuppressionLevel level) e).

(** *** Callbacks

    A callback dereferences its ring pointer; [None] is the undefined
    behaviour of doing so on a null pointer. *)

(** [captureCallback]: [input] is the device buffer ([None] for a null
    pointer). *)
Definition captureCallback (input : option (list float))
           (frameCount : nat) (statusFlags : Z) (e : AudioEngine)
  : option AudioEngine :=
  match input with
  | None => Some e
  | Some samples =>
      if negb (running_ e) then Some e
      else
        match captureRing_ e with
        | None => None
        | Some ring =>
            let (_, ring) := RingBuffer_write samples frameCount ring in
            let e := set_captureRing (Some ring) e in
            Some (if flag_set statusFlags paInputUnderflow
                     || flag_set statusFlags paInputOverflow
                  then set_shouldRestart true e else e)
        end
  end.

(** [outputCallback]: the contents of [output] after the call. *)
Definition outputCallback (frameCount : nat) (statusFlags : Z)
           (e : AudioEngine) : option (list float * AudioEngine) :=
  if negb (running_ e) then
    Some (repeat F32.zero frameCount, e)
  else
    match outputRing_ e with
    | None => None
    | Some ring =>
        let (got, ring) := RingBuffer_read frameCount ring in
        let read := List.length got in
        let out := got ++ repeat F32.zero (frameCount - read) in
        let e := set_outputRing (Some ring) e in
        Some (out,
              if flag_set statusFlags paOutputUnderflow
                 || flag_set statusFlags paOutputOverflow
              then set_shouldRestart true e else e)
    end.

(** *** Processing thread

    The first statement of the body of the loop in [processingLoop]:
    one frame is moved from the capture ring through [processFrame]
    to the output ring when 480 samples are readable; otherwise the
    thread sleeps. *)
Definition processingLoop_frame (e : AudioEngine) : option AudioEngine :=
  match captureRing_ e, outputRing_ e with
  | Some cring, Some oring =>
      if (kRNNoiseFrameSize <=? available_read cring)%nat then
        let (frame, cring) := RingBuffer_read kRNNoiseFrameSize cring in
        let e := set_captureRing (Some cring) e in
        let (r, e) :=
          on_rnnoise (processFrame rnnoise_process_frame frame) e in
        let (_, oring) :=
          RingBuffer_write (snd r) kRNNoiseFrameSize oring in
        Some (set_outputRing (Some oring) e)
      else Some e
  | _, _ => None
  end.

End AudioEngine.

Arguments AudioEngine : clear implicits.

(** *** Auto-restart *)

Section Restart.

Context {DenoiseState : Type}.

(** [hosts k] is the machine as the attempt numbered [k] finds it;
    [has_callback] is whether [statusCallback_] holds a function. *)
Variable hosts : nat -> Host DenoiseState.
Variable has_callback : bool.

(** What [attemptRestart] does besides changing the engine: the
    messages handed to the status callback, oldest first, and the
    milliseconds spent in [sleep_for]. *)
Record RestartTrace := mkTrace {
  status_messages : list string;
  slept_ms : Z
}.

(** [if (statusCallback_) statusCallback_(msg);] *)
Definition report (msg : string) (t : RestartTrace) : RestartTrace :=
  if has_callback
  then mkTrace (status_messages t ++ [msg]) (slept_ms t)
  else t.

Definition sleep_for (ms : Z) (t : RestartTrace) : RestartTrace :=
  mkTrace (status_messages t) (slept_ms t + ms).

(** The body of the loop of [attemptRestart] after the [running_]
    test, on the machine [h]: the streams are stopped and closed,
    reopened and started.  The flag is [true] when the pass reaches
    the [return] of a successful restart and [false] when it ends in
    [continue]; [None] when [openStreams] does not return. *)
Definition restart_pass (h : Host DenoiseState)
           (e : AudioEngine DenoiseState)
  : option (bool * AudioEngine DenoiseState) :=
  let e := set_captureStream (stop_if_open (captureStream_ e)) e in
  let e := set_outputStream (stop_if_open (outputStream_ e)) e in
  let e := closeStreams e in
  match openStreams h e with
  | None => None
  | Some (err, e) =>
  if negb (empty err) then Some (false, e)
  else
    let e1 := host_Pa_StartStream h Capture in
    if negb (e1 =? paNoError) then Some (false, closeStreams e)
    else
      let e := set_captureStream (started (captureStream_ e)) e in
      let e2 := host_Pa_StartStream h Playback in
      if negb (e2 =? paNoError) then
        let e := set_captureStream (stop_if_open (captureStream_ e)) e in
        Some (false, closeStreams e)
      else
        Some (true, set_outputStream (started (outputStream_ e)) e)
  end.

(** The loop [for (attempt = 0; attempt < kMaxRestartAttempts;
    attempt++)], with [remaining] iterations to go, and the statement
    after it. *)
Fixpoint restart_loop (remaining attempt : nat) (t : RestartTrace)
         (e : AudioEngine DenoiseState)
  : option (RestartTrace * AudioEngine DenoiseState) :=
  match remaining with
  | O =>
      Some (report "Failed to restart audio engine after multiple attempts"
                   t, e)
  | S remaining' =>
      (* Exponential backoff: 100ms, 200ms, 400ms, 800ms, 1600ms *)
      let t := sleep_for (100 * Z.shiftl 1 (Z.of_nat attempt)) t in
      if negb (running_ e) then Some (t, e)
      else
        match restart_pass (hosts attempt) e with
        | None => None
        | Some (ok, e) =>
            if ok
            then Some (report "Audio engine restarted successfully" t, e)
            else restart_loop remaining' (S attempt) t e
        end
  end.

(** [attemptRestart()] *)
Definition attemptRestart (e : AudioEngine DenoiseState)
  : option (RestartTrace * AudioEngine DenoiseState) :=
  let t := report "Device issue detected, attempting restart..."
                  (mkTrace [] 0) in
  restart_loop (Z.to_nat kMaxRestartAttempts) 0 t e.

End Restart.

(** *** Device enumeration *)

Record DeviceInfo := mkDeviceInfo {
  index : Z;
  name : string;
  maxInputChannels : Z;
  maxOutputChannels : Z;
  defaultSampleRate : spec_float
}.

(** What PortAudio answers during an enumeration. *)
Record DeviceHost := mkDeviceHost {
  enum_Pa_Initialize : PaError;
  enum_Pa_GetDeviceCount : Z;
  enum_Pa_GetDeviceInfo : Z -> option PaDeviceInfo
}.

(** The entry pushed for device [i]. *)
Definition device_entry (i : Z) (info : PaDeviceInfo) : DeviceInfo :=
  mkDeviceInfo i
    (match pa_name info with Some n => n | None => "(unknown)"%string end)
    (pa_maxInputChannels info) (pa_maxOutputChannels info)
    (pa_defaultSampleRate info).

(** The loop [for (int i = ...; i < numDevices; i++)] with [todo]
    iterations to go. *)
Fixpoint enumerate_from (h : DeviceHost) (todo : nat) (i : Z)
         (devices : list DeviceInfo) : list DeviceInfo :=
  match todo with
  | O => devices
  | S todo' =>
      match enum_Pa_GetDeviceInfo h i with
      | None => enumerate_from h todo' (i + 1) devices
      | Some info =>
          enumerate_from h todo' (i + 1) (devices ++ [device_entry i info])
      end
  end.

(** [enumerateDevices()] *)
Definition enumerateDevices (h : DeviceHost) : list DeviceInfo :=
  if negb (enum_Pa_Initialize h =? paNoError) then []
  else enumerate_from h (Z.to_nat (enum_Pa_GetDeviceCount h)) 0 [].

(* ================================================================== *)
(** ** The rules of the specification, as it words them *)
(* ================================================================== *)

Module Spec.

(** Gate target: from [vad], [post_rms], the noise floor, the hold
    counter and the user threshold [vt] to the hold counter afterwards
    and the target gain. *)
Definition gate_thresh (noise_floor : float) : float :=
  if (noise_floor >? F32.lit 3 10000)%f32
  then (noise_floor * F32.lit 15 10)%f32
  else F32.lit 2 1000.

Definition speech (vad post_rms noise_floor vt : float) : bool :=
  (vad >=? vt)%f32
  || ((vad >=? vt - F32.lit 12 100)%f32
      && (post_rms >? F32.of_Z 2 * gate_thresh noise_floor)%f32).

Definition gate_target (vad post_rms noise_floor : float)
           (hold_counter : Z) (vt : float) : Z * float :=
  let gt := gate_thresh noise_floor in
  if speech vad post_rms noise_floor vt then (15, F32.one)
  else if hold_counter >? 0 then (hold_counter - 1, F32.one)
  else if (post_rms <? gt)%f32 then (hold_counter, F32.zero)
  else (hold_counter,
        F32.clamp ((post_rms - gt) / F32.max gt (F32.lit 1 10000))%f32
                  F32.zero (F32.lit 5 10)).


(** [RMS(frame)], the root mean square of the samples of a frame:
    the square root of the mean of their squares,
    [sqrt((x_0^2 + ... + x_(n-1)^2) / n)], the squares added up from
    the first sample on. *)
Fixpoint sum_of_squares (n : nat) (frame : list float) : float :=
  match n with
  | O => F32.zero
  | S k => (sum_of_squares k frame
            + nth k frame F32.zero * nth k frame F32.zero)%f32
  end.

Definition rms (frame : list float) : float :=
  let n := List.length frame in
  F32.sqrt (sum_of_squares n frame / F32.of_Z (Z.of_nat n))%f32.

(** Asymmetric smoothing of the gate gain. *)
Definition smooth_step (target smooth : float) : float :=
  let coeff := if (target <? smooth)%f32
               then F32.lit 40 100 else F32.lit 15 100 in
  F32.clamp (smooth + coeff * (target - smooth))%f32 F32.zero F32.one.

End Spec.

(* ================================================================== *)
(** ** Vocabulary of the properties *)
(* ================================================================== *)

Section Vocabulary.

Context {DenoiseState : Type}.
Variable rnnoise_process_frame :
  DenoiseState -> list float -> DenoiseState * list float * float.

Local Abbreviation Wrapper := (RNNoiseWrapper DenoiseState).

(** Both denoiser handles are non-null. *)
Definition initialised (w : Wrapper) : bool :=
  non_null (state_ w) && non_null (state2_ w).





(** What the fast path stores: both RMS metrics are [rms], the VAD
    metric is 0, the gain metric is 1, the frame counter moves by one
    and the [noiseFloor] metric keeps its value. *)
Definition bypass_metrics (rms : float) (m : AudioMetrics) : AudioMetrics :=
  mkAudioMetrics rms rms F32.zero F32.one (noiseFloor m)
                 (wrap64 (framesProcessed m + 1)).

(** The four delay cells of a biquad are zero. *)
Definition delays_zero (s : BiquadState) : Prop :=
  x1 s = F32.zero /\ x2 s = F32.zero /\ y1 s = F32.zero /\ y2 s = F32.zero.

(** A published gate gain is acceptable: it is not below 0, not above
    1, and inside the interval whenever it is a number. *)
Definition gain_ok (g : float) : Prop :=
  (g <? F32.zero)%f32 = false
  /\ (F32.one <? g)%f32 = false
  /\ (F32.is_nan g = false -> F32.in_range F32.zero F32.one g = true).

(** Pre- and postconditions of a member function. *)
Definition hoare {A : Type} (P : Wrapper -> Prop) (c : M A)
           (Q : A -> Wrapper -> Prop) : Prop :=
  forall w, P w -> Q (fst (c w)) (snd (c w)).

(** [c] keeps [I] true. *)
Definition stable {A : Type} (I : Wrapper -> Prop) (c : M A) : Prop :=
  hoare I c (fun _ => I).

(** The gate gain [g] becomes the smoothed gain and is stored into the
    [currentGain] metric. *)
Definition publish_gain (g : float) (w : Wrapper) : Wrapper :=
  set_metrics (store_currentGain g (metrics_ w)) (set_smoothGain g w).

(** The metric holds the smoothed gain, and that gain is acceptable. *)
Definition gain_published (w : Wrapper) : Prop :=
  currentGain (metrics_ w) = smoothGain_ w
  /\ gain_ok (currentGain (metrics_ w)).



(** Successive calls of [processFrame], oldest first. *)
Definition processFrame_calls (frames : list (list float))
           (w : Wrapper) : Wrapper :=
  fold_left (fun w frame => exec (processFrame rnnoise_process_frame frame) w)
            frames w.

End Vocabulary.

(** Concrete data on which the definitions are run: a denoiser that
    hands the samples back and reports a VAD probability of zero, an
    initialised wrapper, and frames. *)
Module Sample.

Definition rnnoise_stub (st : unit) (frame : list float)
  : unit * list float * float := (st, frame, F32.zero).

Definition fresh : RNNoiseWrapper unit :=
  exec (init (Some tt) (Some tt)) RNNoiseWrapper_new.

Definition constant_frame (x : float) : list float :=
  repeat x kRNNoiseFrameSize.

Definition silence : list float := constant_frame F32.zero.
Definition half_scale : list float := constant_frame (F32.lit 1 2).

(** Samples of 1e38, finite in binary32. *)
Definition overload : list float := constant_frame (F32.of_Z (10 ^ 38)).

(** An initialised wrapper with suppression switched off. *)
Definition bypassed : RNNoiseWrapper unit :=
  exec (setSuppressionLevel F32.zero) fresh.

(** What [Pa_GetDeviceInfo] points to for a device of the samples. *)
Definition device : PaDeviceInfo :=
  mkPaDeviceInfo (Some "device"%string) 1 1 (S754_zero false)
                 (S754_zero false) (S754_zero false).

(** A machine with two devices, on which every call succeeds: device 0
    is the default input, device 1 the default output. *)
Definition two_devices (i : Z) : option PaDeviceInfo :=
  if (0 <=? i) && (i <? 2) then Some device else None.

Definition host_ok : Host unit :=
  @mkHost unit false false paNoError (fun _ => "Success"%string)
         0 1 two_devices (fun _ _ _ _ => paNoError) (fun _ => paNoError)
         (Some tt) (Some tt).

(** The same machine with no capture device plugged in: device 1 is
    the only device. *)
Definition host_no_microphone : Host unit :=
  @mkHost unit false false paNoError (fun _ => "Success"%string)
         paNoDevice 1 (fun i => if i =? 1 then Some device else None)
         (fun _ _ _ _ => paNoError) (fun _ => paNoError)
         (Some tt) (Some tt).

(** The first machine when the second [rnnoise_create] returns null. *)
Definition host_denoiser_fails : Host unit :=
  @mkHost unit false false paNoError (fun _ => "Success"%string)
         0 1 two_devices (fun _ _ _ _ => paNoError) (fun _ => paNoError)
         (Some tt) None.

(** "No Output (Mute)" as the device picker sends it. *)
Definition mute_config : AudioConfig := mkConfig (-1) (-2) 48000 480 true.

(** The engine started with [mute_config] and suppression switched
    off, after the capture callback delivered [half_scale] and the
    worker moved that frame to the output ring. *)
Definition muted_engine : option (AudioEngine unit) :=
  match start host_ok mute_config AudioEngine_new with
  | None => None
  | Some (_, e) =>
      let e := AudioEngine_setSuppressionLevel F32.zero e in
      match captureCallback (Some half_scale) 480 0 e with
      | Some e => processingLoop_frame rnnoise_stub e
      | None => None
      end
  end.

(** What the output callback then hands to the device. *)
Definition muted_playback : option (list float) :=
  match muted_engine with
  | Some e => option_map fst (outputCallback 480 0 e)
  | None => None
  end.

End Sample.

(* ================================================================== *)
(** ** Vocabulary of the further properties *)
(* ================================================================== *)

Section FurtherVocabulary.

Context {DenoiseState : Type}.

Local Abbreviation Wrapper := (RNNoiseWrapper DenoiseState).

(** A value stored by a clamping setter: not below 0, not above 1, and
    inside [0, 1] whenever it is a number. *)
Definition clamped_unit (x : float) : Prop :=
  (x <? F32.zero)%f32 = false
  /\ (F32.one <? x)%f32 = false
  /\ (F32.is_nan x = false -> F32.in_range F32.zero F32.one x = true).

(** The hold counter is within its range. *)
Definition hold_in_range (w : Wrapper) : Prop :=
  0 <= holdCounter_ w <= kHoldFrames.

(** The calibration count is within its range. *)
Definition calibration_in_range (w : Wrapper) : Prop :=
  0 <= calibrationFrames_ w <= kCalibrationPeriod.

(** [gateThresh], [speechByVad || speechByEnergy] as
    [computeGateTarget] computes them in state [w]. *)
Definition gateThresh (w : Wrapper) : float :=
  if (noiseFloorEstimate_ w >? kAbsoluteMinFloor)%f32
  then (noiseFloorEstimate_ w * kFloorMultiplier)%f32
  else kFallbackThreshold.

Definition is_speech (w : Wrapper) (vad postRms : float) : bool :=
  (vad >=? vadThreshold_ w)%f32
  || ((vad >=? vadThreshold_ w - kVadHysteresis)%f32
      && (postRms >? gateThresh w * F32.of_Z 2)%f32).


(** The five coefficients of a biquad. *)
Definition coefficients (s : BiquadState)
  : float * float * float * float * float :=
  (b0 s, b1 s, b2 s, a1 s, a2 s).

(** What the control surface sets, and the filter coefficients. *)
Definition settings (w : Wrapper) :=
  (suppressionLevel_ w, vadThreshold_ w, comfortNoiseEnabled_ w,
   coefficients (hpf_ w), coefficients (lpf_ w)).

(** The LFSR holds a non-zero 32-bit value. *)
Definition lfsr_ok (w : Wrapper) : Prop :=
  0 < noiseState_ w < 2 ^ 32.

(** The sample that [spectralClamp] leaves in a cell that held [x]. *)
Definition clamped_sample (clampThresh x : float) : float :=
  if (F32.abs x <? clampThresh)%f32 then F32.zero else x.

(** [clampThresh] as [spectralClamp] computes it in state [w]. *)
Definition clampThresh (w : Wrapper) : float :=
  F32.max (noiseFloorEstimate_ w * kSpectralClampMult)%f32
          (kAbsoluteMinFloor * F32.of_Z 3)%f32.

(** [spectralClamp] returns at once. *)
Definition clamp_inactive (w : Wrapper) (vad : float) : bool :=
  (vad >=? vadThreshold_ w)%f32 || (smoothGain_ w >? kClampGateThreshold)%f32.

(** A buffer of 480 samples none of which is a number. *)
Definition nan_frame : list float := repeat S754_nan kRNNoiseFrameSize.

(** The gate cannot find speech and holds nothing: the VAD threshold is
    not a number and the hold counter has run out. *)
Definition gate_blind (w : Wrapper) : Prop :=
  vadThreshold_ w = S754_nan /\ holdCounter_ w <= 0.

(** The denoiser writes back as many samples as it is handed (it works
    in place on a buffer of 480 floats). *)
Definition keeps_length
           (rnnoise_process_frame :
              DenoiseState -> list float -> DenoiseState * list float * float)
  : Prop :=
  forall st f,
    List.length (snd (fst (rnnoise_process_frame st f))) = List.length f.

(** The smoothed gain is not a number, and is published. *)
Definition gain_lost (w : Wrapper) : Prop :=
  smoothGain_ w = S754_nan /\ currentGain (metrics_ w) = S754_nan.

End FurtherVocabulary.

Section EngineVocabulary.

Context {DenoiseState : Type}.

Local Abbreviation Engine := (AudioEngine DenoiseState).

(** The devices [openStreams] settles on: the configured index, or
    the default device of the machine for a negative index. *)
Definition input_device (h : Host DenoiseState) (cfg : AudioConfig) : Z :=
  if inputDeviceIndex cfg <? 0 then host_default_input h
  else inputDeviceIndex cfg.
Definition output_device (h : Host DenoiseState) (cfg : AudioConfig) : Z :=
  if outputDeviceIndex cfg <? 0 then host_default_output h
  else outputDeviceIndex cfg.

(** The exclusive-mode stream info is attached to the first open. *)
Definition wants_exclusive (h : Host DenoiseState) (cfg : AudioConfig)
  : bool :=
  host_win32 h && tryExclusiveMode cfg && host_wasapi h.

(** Every test of [openStreams] passes on machine [h]. *)
Definition streams_openable (h : Host DenoiseState) (cfg : AudioConfig)
  : bool :=
  negb (input_device h cfg =? paNoDevice)
  && negb (output_device h cfg =? paNoDevice)
  && (open_with_fallback h Capture (input_device h cfg)
                         (wants_exclusive h cfg) cfg =? paNoError)
  && (open_with_fallback h Playback (output_device h cfg)
                         (wants_exclusive h cfg) cfg =? paNoError).

(** [openStreams] reaches a null [Pa_GetDeviceInfo] pointer: both
    indices resolve to a device index and one of them names no
    device. *)
Definition devices_missing (h : Host DenoiseState) (cfg : AudioConfig)
  : bool :=
  negb (input_device h cfg =? paNoDevice)
  && negb (output_device h cfg =? paNoDevice)
  && negb (non_null (host_Pa_GetDeviceInfo h (input_device h cfg))
           && non_null (host_Pa_GetDeviceInfo h (output_device h cfg))).

(** Both calls of [Pa_StartStream] succeed. *)
Definition streams_startable (h : Host DenoiseState) : bool :=
  (host_Pa_StartStream h Capture =? paNoError)
  && (host_Pa_StartStream h Playback =? paNoError).

(** Every test of one pass of [attemptRestart] passes. *)
Definition restart_possible (h : Host DenoiseState) (cfg : AudioConfig)
  : bool :=
  streams_openable h cfg && streams_startable h.

(** Every test of [start] after the [running_] test passes. *)
Definition start_possible (h : Host DenoiseState) (cfg : AudioConfig)
  : bool :=
  (host_Pa_Initialize h =? paNoError)
  && (non_null (host_rnnoise_create1 h)
      && non_null (host_rnnoise_create2 h))
  && restart_possible h cfg.

(** [start] on a stopped engine gets as far as [openStreams], which
    reaches a null [Pa_GetDeviceInfo] pointer. *)
Definition start_crashes (h : Host DenoiseState) (cfg : AudioConfig)
  : bool :=
  (host_Pa_Initialize h =? paNoError)
  && (non_null (host_rnnoise_create1 h)
      && non_null (host_rnnoise_create2 h))
  && devices_missing h cfg.

(** The engine with its two stream pointers replaced. *)
Definition with_streams (cs os : option PaStream) (e : Engine) : Engine :=
  set_outputStream os (set_captureStream cs e).

(** Both streams open on the devices of [cfg], started or not. *)
Definition open_streams (h : Host DenoiseState) (cfg : AudioConfig)
           (active : bool) (e : Engine) : Engine :=
  with_streams (Some (mkStream (input_device h cfg) active))
               (Some (mkStream (output_device h cfg) active)) e.

(** The milliseconds [attemptRestart] has slept when [n] passes of its
    loop have gone through their [sleep_for]: 100, 300, 700, 1500,
    3100. *)
Definition backoff_total (n : nat) : Z := 100 * (2 ^ Z.of_nat n - 1).

(** The messages of a trace when a status callback is registered. *)
Definition messages (has_callback : bool) (msgs : list string)
  : list string :=
  if has_callback then msgs else [].

(** An xrun bit of the capture side, of the playback side, is set. *)
Definition input_xrun (statusFlags : Z) : bool :=
  negb (Z.land statusFlags 3 =? 0).
Definition output_xrun (statusFlags : Z) : bool :=
  negb (Z.land statusFlags 12 =? 0).

(** One frame through the engine: the capture callback delivers
    [frame], the worker runs the first statement of its loop, the
    output callback asks for [frameCount] samples. *)
Definition one_frame_through
           (rnnoise_process_frame :
              DenoiseState -> list float -> DenoiseState * list float * float)
           (frame : list float) (frameCount : nat) (e : Engine)
  : option (list float * Engine) :=
  match captureCallback (Some frame) (List.length frame) 0 e with
  | None => None
  | Some e =>
      match processingLoop_frame rnnoise_process_frame e with
      | None => None
      | Some e => outputCallback frameCount 0 e
      end
  end.

End EngineVocabulary.

(** The devices found by an enumeration are listed in the order of
    their indices. *)
Definition ascending (devices : list DeviceInfo) : Prop :=
  StronglySorted (fun a b => index a < index b) devices.

(** Further concrete runs. *)
Module Scenario.

(** [0.0f / 0.0f]: not a number. *)
Definition not_a_number : float := (F32.zero / F32.zero)%f32.



(** The engine started with the default configuration on a machine
    where every call succeeds. *)
Definition running_engine : AudioEngine unit :=
  match start Sample.host_ok AudioConfig_default AudioEngine_new with
  | Some (_, e) => e
  | None => AudioEngine_new
  end.

(** The same engine with suppression switched off. *)
Definition wire_engine : AudioEngine unit :=
  AudioEngine_setSuppressionLevel F32.zero running_engine.

(** The microphone stays unplugged. *)
Definition unplugged (attempt : nat) : Host unit :=
  Sample.host_no_microphone.

(** The microphone is plugged in again before the third attempt. *)
Definition replugged (attempt : nat) : Host unit :=
  if (attempt <? 2)%nat then Sample.host_no_microphone else Sample.host_ok.

(** The output callback asks a running engine with an empty ring for
    two samples. *)
Definition underrun : option (list float * AudioEngine unit) :=
  outputCallback 2 0 running_engine.
Definition underrun_buffer : list float :=
  match underrun with Some (out, _) => out | None => [] end.
Definition underrun_engine : AudioEngine unit :=
  match underrun with Some (_, e) => e | None => running_engine end.

(** A configuration whose input index names no device of the
    samples. *)
Definition unknown_input : AudioConfig := mkConfig 99 (-1) 48000 480 true.

End Scenario.

(** Case analysis on the condition of a conditional of the goal. *)
Ltac case_if :=
  match goal with
  | |- context [if ?b then _ else _] => destruct b eqn:?
  end.

(* ================================================================== *)
(** ** Facts about binary32 comparison *)
(* ================================================================== *)

Lemma SFcompare_antisym (x y : float) :
  SFcompare y x = option_map CompOpp (SFcompare x y).
Proof.
  destruct x as [sx | sx | | sx mx ex], y as [sy | sy | | sy my ey];
    simpl; try reflexivity;
    try (destruct sx; reflexivity); try (destruct sy; reflexivity);
    try (destruct sx, sy; reflexivity).
  assert (Hm : PosDef.Pos.compare_cont Eq my mx
               = CompOpp (PosDef.Pos.compare_cont Eq mx my))
    by exact (eq_sym (Pos.compare_cont_antisym mx my Eq)).
  destruct sx, sy; simpl; try reflexivity;
    rewrite (Z.compare_antisym ex ey);
    destruct (ex ?= ey); simpl; try reflexivity;
    rewrite Hm;
    destruct (PosDef.Pos.compare_cont Eq mx my); reflexivity.
Qed.

Lemma SFcompare_None (x y : float) :
  SFcompare x y = None -> F32.is_nan x = true \/ F32.is_nan y = true.
Proof.
  destruct x as [sx | sx | | sx mx ex], y as [sy | sy | | sy my ey];
    simpl; intros H; auto; discriminate.
Qed.

Lemma ltb_irrefl (x : float) : F32.ltb x x = false.
Proof.
  unfold F32.ltb, SFltb.
  pose proof (SFcompare_antisym x x) as H.
  destruct (SFcompare x x) as [[ | | ] | ]; simpl in H;
    try reflexivity; discriminate.
Qed.

Lemma leb_ltb_false (x y : float) : F32.leb y x = true -> F32.ltb x y = false.
Proof.
  unfold F32.leb, F32.ltb, SFleb, SFltb.
  rewrite (SFcompare_antisym y x).
  destruct (SFcompare y x) as [[ | | ] | ]; simpl; intros H;
    try reflexivity; discriminate.
Qed.

Lemma ltb_false_leb (x y : float) :
  F32.is_nan x = false -> F32.is_nan y = false ->
  F32.ltb x y = false -> F32.leb y x = true.
Proof.
  unfold F32.leb, F32.ltb, SFleb, SFltb. intros Hx Hy.
  rewrite (SFcompare_antisym x y).
  destruct (SFcompare x y) as [[ | | ] | ] eqn:E; simpl; intros H;
    try reflexivity; try discriminate.
  apply SFcompare_None in E. destruct E; congruence.
Qed.

Lemma mul_comm (x y : float) : (x * y = y * x)%f32.
Proof.
  unfold F32.mul.
  destruct x as [sx | sx | | sx mx ex], y as [sy | sy | | sy my ey];
    simpl; try reflexivity; try (rewrite xorb_comm; reflexivity).
  rewrite xorb_comm, Pos.mul_comm, Z.add_comm. reflexivity.
Qed.


(** [std::clamp(v, lo, hi)] with [lo <= hi] is never below [lo] and
    never above [hi]; when it is a number it lies in the interval. *)
Lemma clamp_not_outside (v lo hi : float) :
  F32.leb lo hi = true ->
  F32.ltb (F32.clamp v lo hi) lo = false /\
  F32.ltb hi (F32.clamp v lo hi) = false.
Proof.
  intros Hle. unfold F32.clamp.
  destruct (F32.ltb v lo) eqn:E1; [| destruct (F32.ltb hi v) eqn:E2].
  - split; [apply ltb_irrefl | apply leb_ltb_false; exact Hle].
  - split; [apply leb_ltb_false; exact Hle | apply ltb_irrefl].
  - split; assumption.
Qed.

Lemma clamp_in_range (v lo hi : float) :
  F32.leb lo hi = true ->
  F32.is_nan (F32.clamp v lo hi) = false ->
  F32.in_range lo hi (F32.clamp v lo hi) = true.
Proof.
  intros Hle Hnan.
  assert (Hlo : F32.is_nan lo = false).
  { destruct lo; try reflexivity.
    unfold F32.leb, SFleb in Hle. simpl in Hle. discriminate. }
  assert (Hhi : F32.is_nan hi = false).
  { destruct hi; try reflexivity.
    unfold F32.leb, SFleb in Hle. destruct lo; simpl in Hle; discriminate. }
  assert (Hlolo : F32.leb lo lo = true).
  { apply ltb_false_leb; auto. apply ltb_irrefl. }
  assert (Hhihi : F32.leb hi hi = true).
  { apply ltb_false_leb; auto. apply ltb_irrefl. }
  unfold F32.in_range. revert Hnan. unfold F32.clamp.
  destruct (F32.ltb v lo) eqn:E1; [| destruct (F32.ltb hi v) eqn:E2];
    intros Hnan.
  - rewrite Hlolo, Hle. reflexivity.
  - rewrite Hle, Hhihi. reflexivity.
  - rewrite (ltb_false_leb v lo), (ltb_false_leb hi v); auto.
Qed.

(* ================================================================== *)
(** ** Properties of the frame processor *)
(* ================================================================== *)

Section FrameProcessor.

Context {DenoiseState : Type}.
Variable rnnoise_process_frame :
  DenoiseState -> list float -> DenoiseState * list float * float.

Local Abbreviation Wrapper := (RNNoiseWrapper DenoiseState).

(** C1.  The gate-target computation is the rule of the
    specification: with [gate_thresh] chosen from the noise floor, a
    frame that is speech by VAD or by energy sets the hold counter to
    15 and yields 1; otherwise a positive hold counter is decremented
    and yields 1; otherwise the target is 0 below [gate_thresh] and
    the clamped ratio above it.  Nothing but the hold counter
    changes. *)
Theorem computeGateTarget_spec (w : Wrapper) (vad post_rms : float) :
  computeGateTarget vad post_rms w =
  (let r := Spec.gate_target vad post_rms (noiseFloorEstimate_ w)
                             (holdCounter_ w) (vadThreshold_ w) in
   (snd r, set_holdCounter (fst r) w)).
Proof.
  destruct w as [s1 s2 lvl vt cn sg hold nf cal hp lp ns pn m].
  unfold computeGateTarget, Spec.gate_target, Spec.speech,
    Spec.gate_thresh, bind, get, modify, ret, set_holdCounter,
    kAbsoluteMinFloor, kFloorMultiplier, kFallbackThreshold,
    kVadHysteresis, kHoldFrames, kMinGateGain; simpl.
  set (gt := if (nf >? F32.lit 3 10000)%f32
             then (nf * F32.lit 15 10)%f32 else F32.lit 2 1000).
  rewrite (mul_comm (F32.of_Z 2) gt).
  repeat (case_if; simpl; try reflexivity).
Qed.










End FrameProcessor.

Section FrameProcessorPipeline.

Context {DenoiseState : Type}.
Variable rnnoise_process_frame :
  DenoiseState -> list float -> DenoiseState * list float * float.

Local Abbreviation Wrapper := (RNNoiseWrapper DenoiseState).

(** *** Rules for sequencing *)

Lemma hoare_bind {A B} (P : Wrapper -> Prop) (R : A -> Wrapper -> Prop)
      (Q : B -> Wrapper -> Prop) (c : M A) (k : A -> M B) :
  hoare P c R -> (forall a, hoare (R a) (k a) Q) -> hoare P (bind c k) Q.
Proof.
  unfold hoare, bind. intros Hc Hk w HP.
  specialize (Hc w HP). destruct (c w) as [a w1]. simpl in Hc.
  apply Hk. exact Hc.
Qed.

Lemma hoare_ret {A} (P : Wrapper -> Prop) (Q : A -> Wrapper -> Prop) (a : A) :
  (forall w, P w -> Q a w) -> hoare P (ret a) Q.
Proof. unfold hoare, ret. simpl. auto. Qed.

Lemma hoare_skip {A B} (Q : B -> Wrapper -> Prop) (c : M A) (k : A -> M B) :
  (forall a, hoare (fun _ => True) (k a) Q) ->
  hoare (fun _ => True) (bind c k) Q.
Proof.
  intros Hk. apply hoare_bind with (R := fun _ _ => True); [| exact Hk].
  intros w _. exact I.
Qed.

Lemma stable_bind {A B} (I : Wrapper -> Prop) (c : M A) (k : A -> M B) :
  stable I c -> (forall a, stable I (k a)) -> stable I (bind c k).
Proof. intros Hc Hk. apply hoare_bind with (R := fun _ => I); assumption. Qed.

Lemma hoare_bind_stable {A B} (I : Wrapper -> Prop)
      (Q : B -> Wrapper -> Prop) (c : M A) (k : A -> M B) :
  stable I c -> (forall a, hoare I (k a) Q) -> hoare I (bind c k) Q.
Proof. intros Hc Hk. apply hoare_bind with (R := fun _ => I); assumption. Qed.

Lemma stable_ret {A} (I : Wrapper -> Prop) (a : A) : stable I (ret a).
Proof. apply hoare_ret. auto. Qed.

Lemma stable_get {A} (I : Wrapper -> Prop) (f : Wrapper -> A) :
  stable I (get f).
Proof. intros w H. exact H. Qed.

Lemma stable_modify (I : Wrapper -> Prop) (f : Wrapper -> Wrapper) :
  (forall w, I w -> I (f w)) -> stable I (modify f).
Proof. intros H w Hw. apply H. exact Hw. Qed.

Lemma stable_for_each (I : Wrapper -> Prop) (body : float -> M float) :
  (forall x, stable I (body x)) ->
  forall cells, stable I (for_each body cells).
Proof.
  intros Hbody. induction cells as [| x rest IH]; simpl.
  - apply stable_ret.
  - apply stable_bind; [apply Hbody | intros y].
    apply stable_bind; [exact IH | intros ys]. apply stable_ret.
Qed.

Lemma stable_for_frame (I : Wrapper -> Prop) (body : float -> M float)
      (frame : list float) :
  (forall x, stable I (body x)) -> stable I (for_frame body frame).
Proof.
  intros Hbody. unfold for_frame.
  apply stable_bind; [apply stable_for_each; exact Hbody | intros ys].
  apply stable_ret.
Qed.

(** One step of a stability proof, directed by the shape of the
    command. *)
Ltac stable_step :=
  lazymatch goal with
  | |- stable _ (bind _ _) => apply stable_bind; [| intros ?]
  | |- stable _ (ret _) => apply stable_ret
  | |- stable _ (get _) => apply stable_get
  | |- stable _ (modify _) =>
      apply stable_modify; intros ? ?; cbv beta in *; simpl;
      first [assumption | reflexivity]
  | |- stable _ (store _) => unfold store
  | |- stable _ (for_frame _ _) => apply stable_for_frame; intros ?
  | |- stable _ (if ?b then _ else _) => destruct b
  | |- stable _ (let (_, _) := ?p in _) => destruct p
  | |- stable _ comfortNoiseSample => unfold comfortNoiseSample
  | |- stable _ (updateNoiseFloor _ _) => unfold updateNoiseFloor
  | |- stable _ (computeGateTarget _ _) => unfold computeGateTarget
  | |- stable _ (smoothGate _) => unfold smoothGate
  | |- stable _ (spectralClamp _ _) => unfold spectralClamp
  | |- stable _ (applySoftSilence _) => unfold applySoftSilence
  end.

Ltac stable_auto := repeat stable_step.

(** *** What the pipeline does to the frame counter *)

Lemma pipeline_counts (st1 st2 : DenoiseState) (level : float)
      (frame : list float) (count : Z) :
  hoare (fun w => framesProcessed (metrics_ w) = count)
        (pipeline rnnoise_process_frame st1 st2 level frame)
        (fun _ w => framesProcessed (metrics_ w) = wrap64 (count + 1)).
Proof.
  unfold pipeline.
  apply hoare_bind_stable; [solve [stable_auto] | intros _].
  apply hoare_bind_stable; [solve [stable_auto] | intros frame1].
  destruct (rnnoise_process_frame st1 frame1) as [[st1' frame2] vad1].
  destruct (rnnoise_process_frame st2 frame2) as [[st2' frame3] vad2].
  repeat (apply hoare_bind_stable; [solve [stable_auto] | intros ?]).
  apply hoare_bind
    with (R := fun _ w => framesProcessed (metrics_ w) = wrap64 (count + 1)).
  - intros w Hw. unfold store, modify. simpl. rewrite Hw. reflexivity.
  - intros _. apply hoare_ret. auto.
Qed.

(** *** The fast path and the null-handle guard *)

Lemma processFrame_fast_path (w : Wrapper) (frame : list float) :
  initialised w = true ->
  (suppressionLevel_ w <=? F32.zero)%f32 = true ->
  processFrame rnnoise_process_frame frame w =
  ((F32.zero, frame),
   set_metrics (bypass_metrics (computeRms frame kRNNoiseFrameSize)
                               (metrics_ w)) w).
Proof.
  intros Hinit Hlevel.
  destruct w as [s1 s2 lvl vt cn sg hold nf cal hp lp ns pn m].
  unfold initialised in Hinit. simpl in Hinit, Hlevel.
  destruct s1 as [st1 |]; [| discriminate].
  destruct s2 as [st2 |]; [| discriminate].
  unfold processFrame, passthrough, bind, get, store, modify, ret. simpl.
  rewrite Hlevel. reflexivity.
Qed.

Lemma processFrame_slow_path (w : Wrapper) (frame : list float)
      (st1 st2 : DenoiseState) :
  state_ w = Some st1 -> state2_ w = Some st2 ->
  (suppressionLevel_ w <=? F32.zero)%f32 = false ->
  processFrame rnnoise_process_frame frame w =
  pipeline rnnoise_process_frame st1 st2 (suppressionLevel_ w) frame w.
Proof.
  intros H1 H2 Hlevel.
  unfold processFrame, bind at 1 2 3, get. simpl.
  rewrite H1, H2, Hlevel. reflexivity.
Qed.

Lemma processFrame_null (w : Wrapper) (frame : list float) :
  initialised w = false ->
  processFrame rnnoise_process_frame frame w = ((F32.zero, frame), w).
Proof.
  intros Hinit. unfold initialised in Hinit.
  unfold processFrame, bind, get, ret. simpl.
  destruct (state_ w), (state2_ w); try discriminate; reflexivity.
Qed.

(** [computeRms] over a whole buffer is the root mean square of its
    samples. *)
Lemma firstn_succ_nth (frame : list float) :
  forall n : nat,
    (n < List.length frame)%nat ->
    firstn (S n) frame = firstn n frame ++ [nth n frame F32.zero].
Proof.
  induction frame as [| x rest IH]; intros n Hn; simpl in Hn; [lia |].
  destruct n as [| n]; [reflexivity |].
  change (firstn (S (S n)) (x :: rest)) with (x :: firstn (S n) rest).
  rewrite IH by lia. reflexivity.
Qed.

Lemma sum_of_squares_loop (frame : list float) :
  forall n : nat,
    (n <= List.length frame)%nat ->
    fold_left (fun sum x => (sum + x * x)%f32) (firstn n frame) F32.zero
    = Spec.sum_of_squares n frame.
Proof.
  induction n as [| n IH]; intros Hn; [reflexivity |].
  rewrite firstn_succ_nth by lia.
  rewrite fold_left_app, IH by lia. reflexivity.
Qed.

Lemma computeRms_rms (frame : list float) :
  computeRms frame (List.length frame) = Spec.rms frame.
Proof.
  unfold computeRms, Spec.rms. cbv zeta.
  rewrite sum_of_squares_loop by apply Nat.le_refl. reflexivity.
Qed.

(** C3.  For a frame of 480 samples, with both handles in place and a
    suppression level that is [<= 0], [processFrame] returns 0 and
    leaves every sample of the buffer as it was; [inputRms] and
    [outputRms] both receive [RMS(frame)], the square root of the mean
    of the squares of the 480 samples; [vadProbability] receives 0,
    [currentGain] receives 1 and [framesProcessed] moves forward by
    one (as a 64-bit counter). *)
Theorem processFrame_bypass (w : Wrapper) (frame : list float) :
  List.length frame = kRNNoiseFrameSize ->
  initialised w = true ->
  (suppressionLevel_ w <=? F32.zero)%f32 = true ->
  let r := processFrame rnnoise_process_frame frame w in
  let m' := metrics_ (snd r) in
  snd (fst r) = frame
  /\ fst (fst r) = F32.zero
  /\ inputRms m' = Spec.rms frame
  /\ outputRms m' = Spec.rms frame
  /\ vadProbability m' = F32.zero
  /\ currentGain m' = F32.one
  /\ framesProcessed m' = wrap64 (framesProcessed (metrics_ w) + 1).
Proof.
  intros Hlen Hinit Hlevel r m'. unfold m', r.
  rewrite (processFrame_fast_path w frame Hinit Hlevel).
  cbn [fst snd metrics_ set_metrics bypass_metrics inputRms outputRms
       vadProbability currentGain framesProcessed].
  rewrite <- Hlen, computeRms_rms.
  repeat split; reflexivity.
Qed.

(** C10.  On the same fast path the gate and filter state is not
    touched: the smoothed gain, the hold counter, the noise-floor
    estimate, the calibration count, the LFSR state and shaping
    history of the comfort noise and both biquads keep their values,
    and so does the [noiseFloor] metric, which is not written. *)
Theorem processFrame_bypass_frame_effect (w : Wrapper) (frame : list float) :
  initialised w = true ->
  (suppressionLevel_ w <=? F32.zero)%f32 = true ->
  let w' := exec (processFrame rnnoise_process_frame frame) w in
  smoothGain_ w' = smoothGain_ w
  /\ holdCounter_ w' = holdCounter_ w
  /\ noiseFloorEstimate_ w' = noiseFloorEstimate_ w
  /\ calibrationFrames_ w' = calibrationFrames_ w
  /\ noiseState_ w' = noiseState_ w
  /\ prevNoise_ w' = prevNoise_ w
  /\ hpf_ w' = hpf_ w
  /\ lpf_ w' = lpf_ w
  /\ noiseFloor (metrics_ w') = noiseFloor (metrics_ w)
  /\ w' = set_metrics (metrics_ w') w.
Proof.
  intros Hinit Hlevel w'. unfold w', exec.
  rewrite (processFrame_fast_path w frame Hinit Hlevel). simpl.
  repeat split; reflexivity.
Qed.

(** *** The published gate gain *)

Lemma smoothGate_publishes (w : Wrapper) (target : float) :
  exec (smoothGate target) w =
  publish_gain (Spec.smooth_step target (smoothGain_ w)) w.
Proof.
  destruct w as [s1 s2 lvl vt cn sg hold nf cal hp lp ns pn m].
  reflexivity.
Qed.

Lemma smooth_step_ok (target smooth : float) :
  gain_ok (Spec.smooth_step target smooth).
Proof.
  assert (Hle : F32.leb F32.zero F32.one = true) by (vm_compute; reflexivity).
  unfold gain_ok, Spec.smooth_step.
  destruct (clamp_not_outside
              (smooth + (if (target <? smooth)%f32
                         then F32.lit 40 100 else F32.lit 15 100)
                        * (target - smooth))%f32
              F32.zero F32.one Hle) as [Hlo Hhi].
  repeat split; try assumption.
  apply clamp_in_range. exact Hle.
Qed.

Lemma one_gain_ok : gain_ok F32.one.
Proof. unfold gain_ok. repeat split; vm_compute; reflexivity. Qed.

Lemma pipeline_gain (st1 st2 : DenoiseState) (level : float)
      (frame : list float) :
  hoare (fun _ => True)
        (pipeline rnnoise_process_frame st1 st2 level frame)
        (fun _ w => gain_published w).
Proof.
  unfold pipeline.
  apply hoare_skip; intros _.
  apply hoare_skip; intros frame1.
  destruct (rnnoise_process_frame st1 frame1) as [[st1' frame2] vad1].
  destruct (rnnoise_process_frame st2 frame2) as [[st2' frame3] vad2].
  do 5 (apply hoare_skip; intros ?).
  apply hoare_skip; intros target.
  apply hoare_bind with (R := fun _ w => gain_published w).
  - intros w _.
    change (snd (smoothGate target w)) with (exec (smoothGate target) w).
    rewrite smoothGate_publishes. unfold gain_published. simpl.
    split; [reflexivity | apply smooth_step_ok].
  - intros _.
    repeat (apply hoare_bind_stable; [solve [stable_auto] | intros ?]).
    apply hoare_ret. auto.
Qed.

Lemma pipeline_initialised (st1 st2 : DenoiseState) (level : float)
      (frame : list float) :
  stable (fun w => initialised w = true)
         (pipeline rnnoise_process_frame st1 st2 level frame).
Proof.
  unfold pipeline.
  apply stable_bind; [solve [stable_auto] | intros _].
  apply stable_bind; [solve [stable_auto] | intros frame1].
  destruct (rnnoise_process_frame st1 frame1) as [[st1' frame2] vad1].
  destruct (rnnoise_process_frame st2 frame2) as [[st2' frame3] vad2].
  repeat (apply stable_bind; [solve [stable_auto] | intros ?]).
  apply stable_ret.
Qed.

Lemma processFrame_gain (w : Wrapper) (frame : list float) :
  initialised w = true ->
  gain_ok (currentGain
             (metrics_ (exec (processFrame rnnoise_process_frame frame) w)))
  /\ initialised (exec (processFrame rnnoise_process_frame frame) w) = true.
Proof.
  intros Hinit. unfold exec.
  destruct (suppressionLevel_ w <=? F32.zero)%f32 eqn:Hlevel.
  - rewrite (processFrame_fast_path w frame Hinit Hlevel). simpl.
    split; [apply one_gain_ok | exact Hinit].
  - pose proof Hinit as Hinit'. unfold initialised in Hinit'.
    destruct (state_ w) as [st1 |] eqn:H1; [| discriminate].
    destruct (state2_ w) as [st2 |] eqn:H2; [| discriminate].
    rewrite (processFrame_slow_path w frame st1 st2 H1 H2 Hlevel).
    split.
    + apply (pipeline_gain st1 st2 (suppressionLevel_ w) frame w). exact I.
    + apply (pipeline_initialised st1 st2 (suppressionLevel_ w) frame w).
      exact Hinit.
Qed.

Lemma processFrame_calls_gain (frames : list (list float)) :
  forall w : Wrapper,
    initialised w = true -> frames <> [] ->
    gain_ok (currentGain
               (metrics_ (processFrame_calls rnnoise_process_frame frames w))).
Proof.
  induction frames as [| frame rest IH]; intros w Hinit Hne.
  - contradiction.
  - simpl. destruct (processFrame_gain w frame Hinit) as [Hgain Hinit'].
    destruct rest as [| frame' rest'].
    + exact Hgain.
    + apply IH; [exact Hinit' | discriminate].
Qed.

(** A smoothed gain that is NaN stays NaN and is published as such,
    whatever the denoiser returns: [std::clamp] hands a NaN back. *)
Lemma smooth_step_nan (target : float) :
  Spec.smooth_step target S754_nan = S754_nan.
Proof. reflexivity. Qed.

Lemma pipeline_nan_gain (st1 st2 : DenoiseState) (level : float)
      (frame : list float) :
  hoare (fun w => smoothGain_ w = S754_nan)
        (pipeline rnnoise_process_frame st1 st2 level frame)
        (fun _ w => smoothGain_ w = S754_nan
                    /\ currentGain (metrics_ w) = S754_nan).
Proof.
  unfold pipeline.
  apply hoare_bind_stable; [solve [stable_auto] | intros _].
  apply hoare_bind_stable; [solve [stable_auto] | intros frame1].
  destruct (rnnoise_process_frame st1 frame1) as [[st1' frame2] vad1].
  destruct (rnnoise_process_frame st2 frame2) as [[st2' frame3] vad2].
  do 5 (apply hoare_bind_stable; [solve [stable_auto] | intros ?]).
  apply hoare_bind_stable; [solve [stable_auto] | intros target].
  apply hoare_bind
    with (R := fun _ w => smoothGain_ w = S754_nan
                          /\ currentGain (metrics_ w) = S754_nan).
  - intros w Hnan.
    change (snd (smoothGate target w)) with (exec (smoothGate target) w).
    rewrite smoothGate_publishes, Hnan, smooth_step_nan.
    split; reflexivity.
  - intros _.
    repeat (apply hoare_bind_stable; [solve [stable_auto] | intros ?]).
    apply hoare_ret. auto.
Qed.

(** What the clamp of the smoothing step does achieve.  The step takes
    0.40 as coefficient when the target is below the smoothed gain and
    0.15 otherwise, adds [coeff * (target - smooth)], applies
    [std::clamp(smooth, 0, 1)] and publishes the result.  After every
    call of [processFrame] on an initialised wrapper, and so after
    every non-empty run of calls, from any state, the published gain
    is not below 0, not above 1, and inside [0, 1] whenever it is a
    number; the fast path publishes exactly 1. *)
Theorem gate_gain_published (w : Wrapper) (frame : list float) :
  initialised w = true ->
  (forall target : float,
      exec (smoothGate target) w =
      publish_gain (Spec.smooth_step target (smoothGain_ w)) w)
  /\ gain_ok (currentGain
                (metrics_ (exec (processFrame rnnoise_process_frame frame) w)))
  /\ (forall frames : list (list float),
        frames <> [] ->
        gain_ok (currentGain
                   (metrics_ (processFrame_calls rnnoise_process_frame
                                                 frames w))))
  /\ ((suppressionLevel_ w <=? F32.zero)%f32 = true ->
      currentGain
        (metrics_ (exec (processFrame rnnoise_process_frame frame) w))
      = F32.one).
Proof.
  intros Hinit. split; [| split; [| split]].
  - intros target. apply smoothGate_publishes.
  - apply (processFrame_gain w frame Hinit).
  - intros frames Hne. apply (processFrame_calls_gain frames w Hinit Hne).
  - intros Hlevel. unfold exec.
    rewrite (processFrame_fast_path w frame Hinit Hlevel). reflexivity.
Qed.

(** C5, as the code has it.  A call of [processFrame] with both
    handles in place moves [framesProcessed] forward by one (as a
    64-bit counter); a call with a null handle returns 0 and changes
    neither the buffer nor the object, the counter included.  Short
    of the wrap-around at [2^64 - 1] the counter therefore never
    decreases and grows by at most one per call. *)
Theorem processFrame_framesProcessed (w : Wrapper) (frame : list float) :
  let r := processFrame rnnoise_process_frame frame w in
  let count := framesProcessed (metrics_ w) in
  let count' := framesProcessed (metrics_ (snd r)) in
  (if initialised w
   then count' = wrap64 (count + 1)
   else r = ((F32.zero, frame), w))
  /\ (0 <= count < 2 ^ 64 - 1 -> count <= count' <= count + 1).
Proof.
  intros r count count'.
  assert (Hcount : if initialised w then count' = wrap64 (count + 1)
                   else r = ((F32.zero, frame), w)).
  { destruct (initialised w) eqn:Hinit.
    - destruct (suppressionLevel_ w <=? F32.zero)%f32 eqn:Hlevel.
      + unfold count', r.
        rewrite (processFrame_fast_path w frame Hinit Hlevel).
        reflexivity.
      + unfold initialised in Hinit.
        destruct (state_ w) as [st1 |] eqn:H1; [| discriminate].
        destruct (state2_ w) as [st2 |] eqn:H2; [| discriminate].
        unfold count', r.
        rewrite (processFrame_slow_path w frame st1 st2 H1 H2 Hlevel).
        apply (pipeline_counts st1 st2 (suppressionLevel_ w) frame count).
        reflexivity.
    - apply processFrame_null. exact Hinit. }
  split; [exact Hcount |].
  intros Hrange. destruct (initialised w).
  - rewrite Hcount. unfold wrap64. rewrite Z.mod_small; lia.
  - unfold count'. rewrite Hcount. simpl. fold count. lia.
Qed.

(** What [init] leaves in the fields that the gate, the noise floor and
    the filters use. *)
Lemma init_leaves_reset (w : Wrapper)
      (created1 created2 : option DenoiseState) :
  let w' := snd (init created1 created2 w) in
  framesProcessed (metrics_ w') = 0
  /\ smoothGain_ w' = F32.one
  /\ holdCounter_ w' = 0
  /\ noiseFloorEstimate_ w' = F32.zero
  /\ calibrationFrames_ w' = 0
  /\ noiseState_ w' = 0x12345678
  /\ delays_zero (hpf_ w') /\ delays_zero (lpf_ w').
Proof.
  unfold init, initFilters, destroy, bind, get, modify, store, ret. simpl.
  destruct (non_null (state_ w)); simpl;
    unfold delays_zero; simpl; repeat split; reflexivity.
Qed.

(** C9.  [init] resets the DSP state whatever it was before and
    whatever the two [rnnoise_create] calls return: the frame counter
    is 0, the smoothed gain 1, the hold counter 0, the noise-floor
    estimate 0, the calibration count 0, the LFSR holds 0x12345678
    and the four delay cells of both biquads are zero. *)
Theorem init_resets (w : Wrapper) (created1 created2 : option DenoiseState) :
  let w' := exec (init created1 created2) w in
  framesProcessed (metrics_ w') = 0
  /\ smoothGain_ w' = F32.one
  /\ holdCounter_ w' = 0
  /\ noiseFloorEstimate_ w' = F32.zero
  /\ calibrationFrames_ w' = 0
  /\ noiseState_ w' = 0x12345678
  /\ delays_zero (hpf_ w')
  /\ delays_zero (lpf_ w').
Proof.
  unfold exec, init, initFilters, destroy, delays_zero,
    bind, get, modify, store, ret. simpl.
  destruct (non_null (state_ w)); simpl; repeat split; reflexivity.
Qed.

(** *** Settings *)

Lemma clamp_unit (x : float) : clamped_unit (F32.clamp x F32.zero F32.one).
Proof.
  assert (Hle : F32.leb F32.zero F32.one = true) by (vm_compute; reflexivity).
  destruct (clamp_not_outside x F32.zero F32.one Hle) as [Hlo Hhi].
  repeat split; try assumption. apply clamp_in_range. exact Hle.
Qed.

Lemma clamp_inside (x lo hi : float) :
  F32.in_range lo hi x = true -> F32.clamp x lo hi = x.
Proof.
  unfold F32.in_range, F32.clamp. intros H.
  apply andb_prop in H. destruct H as [Hlo Hhi].
  rewrite (leb_ltb_false x lo Hlo), (leb_ltb_false hi x Hhi). reflexivity.
Qed.

(** X1.  The two clamping setters.  After [setSuppressionLevel(level)]
    the getter returns a value that is not below 0 and not above 1 (in
    [0, 1] whenever it is a number), and returns [level] itself
    whenever [level] is in [0, 1]; no other member changes.  The same
    holds for [setVadThreshold] and [getVadThreshold]. *)
Theorem setters_clamp_and_round_trip (w : Wrapper) (x : float) :
  let wl := exec (setSuppressionLevel x) w in
  let wt := exec (setVadThreshold x) w in
  clamped_unit (fst (getSuppressionLevel wl))
  /\ clamped_unit (fst (getVadThreshold wt))
  /\ (F32.in_range F32.zero F32.one x = true ->
      fst (getSuppressionLevel wl) = x /\ fst (getVadThreshold wt) = x)
  /\ wl = set_suppressionLevel (fst (getSuppressionLevel wl)) w
  /\ wt = set_vadThreshold (fst (getVadThreshold wt)) w.
Proof.
  unfold exec, setSuppressionLevel, setVadThreshold, getSuppressionLevel,
    getVadThreshold, modify, get. simpl.
  split; [apply clamp_unit | split; [apply clamp_unit | split]].
  - intros H. rewrite (clamp_inside x F32.zero F32.one H). split; reflexivity.
  - split; reflexivity.
Qed.

(** *** The gate state machine *)

Lemma computeGateTarget_speech (w : Wrapper) (vad postRms : float) :
  is_speech w vad postRms = true ->
  computeGateTarget vad postRms w = (F32.one, set_holdCounter kHoldFrames w).
Proof.
  unfold is_speech, gateThresh, computeGateTarget, bind, get, modify, ret.
  simpl. intros H. rewrite H. reflexivity.
Qed.

Lemma computeGateTarget_held (w : Wrapper) (vad postRms : float) :
  is_speech w vad postRms = false -> 0 < holdCounter_ w ->
  computeGateTarget vad postRms w
  = (F32.one, set_holdCounter (holdCounter_ w - 1) w).
Proof.
  unfold is_speech, gateThresh, computeGateTarget, bind, get, modify, ret.
  simpl. intros H Hhold. rewrite H.
  assert (Hgt : (holdCounter_ w >? 0) = true) by (apply Z.gtb_lt; lia).
  rewrite Hgt. reflexivity.
Qed.

Lemma computeGateTarget_released (w : Wrapper) (vad postRms : float) :
  is_speech w vad postRms = false -> holdCounter_ w <= 0 ->
  computeGateTarget vad postRms w
  = (if (postRms <? gateThresh w)%f32 then kMinGateGain
     else F32.clamp ((postRms - gateThresh w)
                     / F32.max (gateThresh w) (F32.lit 1 10000))%f32
                    kMinGateGain (F32.lit 5 10),
     w).
Proof.
  unfold is_speech, gateThresh, computeGateTarget, bind, get, modify, ret.
  simpl. intros H Hhold. rewrite H.
  assert (Hgt : (holdCounter_ w >? 0) = false).
  { destruct (holdCounter_ w >? 0) eqn:E; [| reflexivity].
    apply Z.gtb_lt in E. lia. }
  rewrite Hgt. simpl. case_if; reflexivity.
Qed.





Lemma is_speech_set_holdCounter (w : Wrapper) (h : Z) (vad postRms : float) :
  is_speech (set_holdCounter h w) vad postRms = is_speech w vad postRms.
Proof. reflexivity. Qed.



(** *** Invariants of [processFrame] *)

(** An invariant that the pipeline keeps and that does not read the
    metrics is kept by [processFrame]. *)
Lemma processFrame_keeps (I : Wrapper -> Prop) :
  (forall st1 st2 level frame,
      stable I (pipeline rnnoise_process_frame st1 st2 level frame)) ->
  (forall m w, I w -> I (set_metrics m w)) ->
  forall frame w, I w -> I (exec (processFrame rnnoise_process_frame frame) w).
Proof.
  intros Hpipe Hmetrics frame w Hw. unfold exec.
  destruct (initialised w) eqn:Hinit.
  - destruct (suppressionLevel_ w <=? F32.zero)%f32 eqn:Hlevel.
    + rewrite (processFrame_fast_path w frame Hinit Hlevel). simpl.
      apply Hmetrics. exact Hw.
    + unfold initialised in Hinit.
      destruct (state_ w) as [st1 |] eqn:H1; [| discriminate].
      destruct (state2_ w) as [st2 |] eqn:H2; [| discriminate].
      rewrite (processFrame_slow_path w frame st1 st2 H1 H2 Hlevel).
      apply (Hpipe st1 st2 (suppressionLevel_ w) frame w Hw).
  - rewrite (processFrame_null w frame Hinit). exact Hw.
Qed.

(** Stability of the whole pipeline from the stability of its steps;
    [leaf] closes the steps that [stable_auto] cannot. *)
Ltac pipeline_stable leaf :=
  unfold pipeline;
  apply stable_bind; [solve [stable_auto] | intros _];
  apply stable_bind; [solve [stable_auto] | intros ?frame1];
  match goal with
  | |- context [rnnoise_process_frame ?s ?f] =>
      destruct (rnnoise_process_frame s f) as [[?st1' ?frame2] ?vad1]
  end;
  match goal with
  | |- context [rnnoise_process_frame ?s ?f] =>
      destruct (rnnoise_process_frame s f) as [[?st2' ?frame3] ?vad2]
  end;
  repeat (apply stable_bind;
          [first [solve [leaf] | solve [stable_auto]] | intros ?]);
  apply stable_ret.

Lemma computeGateTarget_hold_in_range (vad postRms : float) :
  stable (@hold_in_range DenoiseState) (computeGateTarget vad postRms).
Proof.
  intros w Hw. unfold hold_in_range, kHoldFrames in *.
  destruct (is_speech w vad postRms) eqn:Hs.
  - rewrite (computeGateTarget_speech w vad postRms Hs). simpl.
    unfold kHoldFrames. lia.
  - destruct (Z_lt_le_dec 0 (holdCounter_ w)) as [Hh | Hh].
    + rewrite (computeGateTarget_held w vad postRms Hs Hh). simpl. lia.
    + rewrite (computeGateTarget_released w vad postRms Hs Hh). simpl. lia.
Qed.

(** X4.  [processFrame] keeps the hold counter within [0, 15]: from
    any state in which it is in that range, and for every frame and
    every denoiser, it is in that range afterwards. *)
Theorem processFrame_hold_in_range (w : Wrapper) (frame : list float) :
  hold_in_range w ->
  hold_in_range (exec (processFrame rnnoise_process_frame frame) w).
Proof.
  apply (processFrame_keeps (@hold_in_range DenoiseState)).
  - intros st1 st2 level fr.
    pipeline_stable ltac:(apply computeGateTarget_hold_in_range).
  - intros m w0 H. exact H.
Qed.

Lemma updateNoiseFloor_calibration (postRms vad : float) (c : Z) :
  0 <= c <= kCalibrationPeriod ->
  hoare (fun w : Wrapper => calibrationFrames_ w = c)
        (updateNoiseFloor postRms vad)
        (fun _ w => c <= calibrationFrames_ w <= c + 1
                    /\ calibrationFrames_ w <= kCalibrationPeriod).
Proof.
  unfold kCalibrationPeriod. intros Hc w Hw.
  unfold updateNoiseFloor, bind, get, modify, store, ret. simpl.
  destruct (negb (vad <? vadThreshold_ w * F32.lit 5 10)%f32); simpl;
    [lia |].
  unfold kCalibrationPeriod.
  destruct (calibrationFrames_ w <? 200) eqn:E; simpl.
  - apply Z.ltb_lt in E.
    assert (Hwrap : wrap64 (calibrationFrames_ w + 1)
                    = calibrationFrames_ w + 1)
      by (unfold wrap64; apply Z.mod_small; lia).
    destruct (noiseFloorEstimate_ w <=? F32.zero)%f32; simpl;
      rewrite Hwrap; lia.
  - destruct (noiseFloorEstimate_ w <=? F32.zero)%f32; simpl; lia.
Qed.

Lemma pipeline_calibration (st1 st2 : DenoiseState) (level : float)
      (frame : list float) (c : Z) :
  0 <= c <= kCalibrationPeriod ->
  hoare (fun w : Wrapper => calibrationFrames_ w = c)
        (pipeline rnnoise_process_frame st1 st2 level frame)
        (fun _ w => c <= calibrationFrames_ w <= c + 1
                    /\ calibrationFrames_ w <= kCalibrationPeriod).
Proof.
  intros Hc. unfold pipeline.
  apply hoare_bind_stable; [solve [stable_auto] | intros _].
  apply hoare_bind_stable; [solve [stable_auto] | intros frame1].
  destruct (rnnoise_process_frame st1 frame1) as [[st1' frame2] vad1].
  destruct (rnnoise_process_frame st2 frame2) as [[st2' frame3] vad2].
  do 4 (apply hoare_bind_stable; [solve [stable_auto] | intros ?]).
  apply hoare_bind
    with (R := fun _ w => c <= calibrationFrames_ w <= c + 1
                          /\ calibrationFrames_ w <= kCalibrationPeriod).
  - apply updateNoiseFloor_calibration. exact Hc.
  - intros _.
    repeat (apply hoare_bind_stable; [solve [stable_auto] | intros ?]).
    apply hoare_ret. auto.
Qed.

(** X5.  [processFrame] never lets the calibration count decrease or
    pass 200: from a count in [0, 200] the count afterwards is the
    same or one more, and still at most 200. *)
Theorem processFrame_calibration (w : Wrapper) (frame : list float) :
  calibration_in_range w ->
  let count := calibrationFrames_ w in
  let count' :=
    calibrationFrames_ (exec (processFrame rnnoise_process_frame frame) w) in
  count <= count' <= count + 1 /\ count' <= kCalibrationPeriod.
Proof.
  intros Hw count count'. unfold calibration_in_range in Hw.
  unfold count', exec.
  destruct (initialised w) eqn:Hinit.
  - destruct (suppressionLevel_ w <=? F32.zero)%f32 eqn:Hlevel.
    + rewrite (processFrame_fast_path w frame Hinit Hlevel). simpl.
      fold count. unfold count. lia.
    + unfold initialised in Hinit.
      destruct (state_ w) as [st1 |] eqn:H1; [| discriminate].
      destruct (state2_ w) as [st2 |] eqn:H2; [| discriminate].
      rewrite (processFrame_slow_path w frame st1 st2 H1 H2 Hlevel).
      apply (pipeline_calibration st1 st2 (suppressionLevel_ w) frame
                                  count Hw w).
      reflexivity.
  - rewrite (processFrame_null w frame Hinit). simpl. unfold count. lia.
Qed.

Lemma filters_keep_settings (x : float) (v : _) :
  stable (fun w : Wrapper => settings w = v)
         (bind (get hpf_) (fun h =>
            let (x0, h0) := BiquadState_process h x in
            bind (modify (set_hpf h0)) (fun _ =>
              bind (get lpf_) (fun l =>
                let (x1, l0) := BiquadState_process l x0 in
                bind (modify (set_lpf l0)) (fun _ => ret x1))))).
Proof.
  intros w Hw. unfold bind, get, modify, ret, BiquadState_process. simpl.
  exact Hw.
Qed.

(** X6.  [processFrame] never changes what the control surface sets
    nor the filter coefficients: the suppression level, the VAD
    threshold, the comfort-noise switch and the five coefficients of
    each biquad are the same after the call, for every frame, state
    and denoiser.  [init] keeps the three settings as well. *)
Theorem processFrame_keeps_settings (w : Wrapper) (frame : list float)
        (created1 created2 : option DenoiseState) :
  settings (exec (processFrame rnnoise_process_frame frame) w) = settings w
  /\ (let w' := exec (init created1 created2) w in
      suppressionLevel_ w' = suppressionLevel_ w
      /\ vadThreshold_ w' = vadThreshold_ w
      /\ comfortNoiseEnabled_ w' = comfortNoiseEnabled_ w).
Proof.
  split.
  - apply (processFrame_keeps (fun w0 : Wrapper => settings w0 = settings w)).
    + intros st1 st2 level fr.
      pipeline_stable
        ltac:(apply stable_for_frame; intros ?; apply filters_keep_settings).
    + intros m w0 H. exact H.
    + reflexivity.
  - unfold exec, init, initFilters, destroy, bind, get, modify, store, ret.
    simpl. destruct (non_null (state_ w)); simpl; repeat split; reflexivity.
Qed.

(** *** The comfort-noise generator *)

Lemma lxor_32 (a b : Z) :
  0 <= a < 2 ^ 32 -> 0 <= b < 2 ^ 32 -> 0 <= Z.lxor a b < 2 ^ 32.
Proof.
  intros Ha Hb.
  assert (Hnn : 0 <= Z.lxor a b) by (apply Z.lxor_nonneg; lia).
  split; [exact Hnn |].
  destruct (Z.eq_dec (Z.lxor a b) 0) as [E | E]; [rewrite E; lia |].
  apply Z.log2_lt_pow2; [lia |].
  pose proof (Z.log2_lxor a b (proj1 Ha) (proj1 Hb)) as Hlog.
  assert (Hla : Z.log2 a < 32).
  { destruct (Z.eq_dec a 0) as [-> | Hne]; [simpl; lia |].
    apply Z.log2_lt_pow2; lia. }
  assert (Hlb : Z.log2 b < 32).
  { destruct (Z.eq_dec b 0) as [-> | Hne]; [simpl; lia |].
    apply Z.log2_lt_pow2; lia. }
  lia.
Qed.

Lemma xor_shift_left (s k : Z) :
  0 < k < 32 -> Z.gcd (2 ^ 32) (2 ^ k - 1) = 1 -> 0 < s < 2 ^ 32 ->
  0 < Z.lxor s (wrap32 (Z.shiftl s k)) < 2 ^ 32.
Proof.
  intros Hk Hodd Hs.
  assert (Hw : 0 <= wrap32 (Z.shiftl s k) < 2 ^ 32)
    by (unfold wrap32; apply Z.mod_pos_bound; lia).
  destruct (lxor_32 s (wrap32 (Z.shiftl s k))) as [Hlo Hhi]; [lia | exact Hw |].
  split; [| exact Hhi].
  destruct (Z.eq_dec (Z.lxor s (wrap32 (Z.shiftl s k))) 0) as [E | E]; [| lia].
  exfalso. apply Z.lxor_eq in E.
  unfold wrap32 in E. rewrite Z.shiftl_mul_pow2 in E by lia.
  assert (Hdiv : (2 ^ 32 | (2 ^ k - 1) * s)).
  { exists ((s * 2 ^ k) / 2 ^ 32).
    pose proof (Z.div_mod (s * 2 ^ k) (2 ^ 32)) as Hdm.
    rewrite <- E in Hdm. lia. }
  apply Z.gauss in Hdiv; [| exact Hodd].
  apply Z.divide_pos_le in Hdiv; lia.
Qed.

Lemma xor_shift_right (s : Z) :
  0 < s < 2 ^ 32 -> 0 < Z.lxor s (Z.shiftr s 17) < 2 ^ 32.
Proof.
  intros Hs.
  assert (Hr : 0 <= Z.shiftr s 17 < s).
  { rewrite Z.shiftr_div_pow2 by lia. split.
    - apply Z.div_pos; lia.
    - apply Z.div_lt; lia. }
  destruct (lxor_32 s (Z.shiftr s 17)) as [Hlo Hhi]; [lia | lia |].
  split; [| exact Hhi].
  destruct (Z.eq_dec (Z.lxor s (Z.shiftr s 17)) 0) as [E | E]; [| lia].
  apply Z.lxor_eq in E. lia.
Qed.

Lemma xorshift32_nonzero (s : Z) :
  0 < s < 2 ^ 32 -> 0 < xorshift32 s < 2 ^ 32.
Proof.
  intros Hs. unfold xorshift32.
  apply xor_shift_left; [lia | reflexivity |].
  apply xor_shift_right.
  apply xor_shift_left; [lia | reflexivity | exact Hs].
Qed.

Lemma comfortNoiseSample_lfsr :
  stable (@lfsr_ok DenoiseState) comfortNoiseSample.
Proof.
  intros w Hw. unfold comfortNoiseSample, bind, get, modify, ret. simpl.
  apply xorshift32_nonzero. exact Hw.
Qed.

(** X7.  The comfort-noise generator never dies: [init] seeds the LFSR
    with a non-zero 32-bit value, and [processFrame] keeps it a
    non-zero 32-bit value however many samples of comfort noise it
    draws (the xorshift never maps a non-zero state to zero). *)
Theorem lfsr_never_zero (w : Wrapper) (frame : list float)
        (created1 created2 : option DenoiseState) :
  lfsr_ok (exec (init created1 created2) w)
  /\ (lfsr_ok w ->
      lfsr_ok (exec (processFrame rnnoise_process_frame frame) w)).
Proof.
  split.
  - unfold lfsr_ok, exec, init, initFilters, destroy, bind, get, modify,
      store, ret. simpl.
    destruct (non_null (state_ w)); simpl; lia.
  - apply (processFrame_keeps (@lfsr_ok DenoiseState)).
    + intros st1 st2 level fr.
      pipeline_stable
        ltac:(unfold applySoftSilence;
              repeat first [apply comfortNoiseSample_lfsr | stable_step]).
    + intros m w0 H. exact H.
Qed.

(** *** The RMS metrics *)

Lemma binary_round_aux_not_negative (m e : Z) (l : location) :
  F32.ltb (binary_round_aux F32.prec F32.emax false m e l) F32.zero = false.
Proof.
  unfold binary_round_aux.
  destruct (shr_fexp F32.prec F32.emax m e l) as [mrs1 e1].
  destruct (shr_fexp F32.prec F32.emax _ e1 loc_Exact) as [mrs2 e2].
  destruct (shr_m mrs2); try reflexivity.
  destruct (e2 <=? F32.emax - F32.prec); reflexivity.
Qed.

Lemma sqrt_not_negative (x : float) : (F32.sqrt x <? F32.zero)%f32 = false.
Proof.
  unfold F32.sqrt, SFsqrt.
  destruct x as [s | s | | s m e]; try reflexivity;
    try (destruct s; reflexivity).
  destruct s; [reflexivity |].
  destruct (SFsqrt_core_binary F32.prec F32.emax (Z.pos m) e) as [[mz ez] lz].
  apply binary_round_aux_not_negative.
Qed.

Lemma pipeline_inputRms (st1 st2 : DenoiseState) (level : float)
      (frame : list float) :
  hoare (fun _ : Wrapper => True)
        (pipeline rnnoise_process_frame st1 st2 level frame)
        (fun _ w => inputRms (metrics_ w) = computeRms frame kRNNoiseFrameSize).
Proof.
  unfold pipeline.
  apply hoare_bind
    with (R := fun _ w => inputRms (metrics_ w)
                          = computeRms frame kRNNoiseFrameSize).
  - intros w _. reflexivity.
  - intros _.
    apply hoare_bind_stable; [solve [stable_auto] | intros frame1].
    destruct (rnnoise_process_frame st1 frame1) as [[st1' frame2] vad1].
    destruct (rnnoise_process_frame st2 frame2) as [[st2' frame3] vad2].
    repeat (apply hoare_bind_stable; [solve [stable_auto] | intros ?]).
    apply hoare_ret. auto.
Qed.

Lemma pipeline_outputRms (st1 st2 : DenoiseState) (level : float)
      (frame : list float) :
  hoare (fun _ : Wrapper => True)
        (pipeline rnnoise_process_frame st1 st2 level frame)
        (fun _ w => (outputRms (metrics_ w) <? F32.zero)%f32 = false).
Proof.
  unfold pipeline.
  apply hoare_skip; intros _.
  apply hoare_skip; intros frame1.
  destruct (rnnoise_process_frame st1 frame1) as [[st1' frame2] vad1].
  destruct (rnnoise_process_frame st2 frame2) as [[st2' frame3] vad2].
  do 11 (apply hoare_skip; intros ?).
  apply hoare_bind
    with (R := fun _ w => (outputRms (metrics_ w) <? F32.zero)%f32 = false).
  - intros w _. unfold store, modify, computeRms. simpl.
    apply sqrt_not_negative.
  - intros _.
    apply hoare_bind_stable; [solve [stable_auto] | intros _].
    apply hoare_ret. auto.
Qed.

(** X8.  The level meters never read below zero.  After every call of
    [processFrame] on an initialised wrapper, on the fast path as in
    the pipeline, [inputRms] is the RMS of the frame as it was handed
    in, and neither [inputRms] nor [outputRms] compares below 0: the
    square root that ends [computeRms] never returns a negative
    number. *)
Theorem rms_metrics_not_negative (w : Wrapper) (frame : list float) :
  initialised w = true ->
  let m' := metrics_ (exec (processFrame rnnoise_process_frame frame) w) in
  inputRms m' = computeRms frame kRNNoiseFrameSize
  /\ (inputRms m' <? F32.zero)%f32 = false
  /\ (outputRms m' <? F32.zero)%f32 = false.
Proof.
  intros Hinit m'.
  assert (Hin : inputRms m' = computeRms frame kRNNoiseFrameSize
                /\ (outputRms m' <? F32.zero)%f32 = false).
  { unfold m', exec.
    destruct (suppressionLevel_ w <=? F32.zero)%f32 eqn:Hlevel.
    - rewrite (processFrame_fast_path w frame Hinit Hlevel). simpl.
      split; [reflexivity |]. unfold computeRms. apply sqrt_not_negative.
    - pose proof Hinit as Hinit'. unfold initialised in Hinit'.
      destruct (state_ w) as [st1 |] eqn:H1; [| discriminate].
      destruct (state2_ w) as [st2 |] eqn:H2; [| discriminate].
      rewrite (processFrame_slow_path w frame st1 st2 H1 H2 Hlevel).
      split.
      + apply (pipeline_inputRms st1 st2 (suppressionLevel_ w) frame w I).
      + apply (pipeline_outputRms st1 st2 (suppressionLevel_ w) frame w I). }
  destruct Hin as [Hin Hout]. repeat split; try assumption.
  rewrite Hin. unfold computeRms. apply sqrt_not_negative.
Qed.

(** *** Loops that only rewrite the buffer *)

Lemma for_each_pure (f : float -> float) (cells : list float) (w : Wrapper) :
  for_each (fun x => ret (f x)) cells w = (map f cells, w).
Proof.
  induction cells as [| x rest IH]; simpl; [reflexivity |].
  unfold bind, ret in *. simpl. rewrite IH. reflexivity.
Qed.

Lemma for_frame_pure (f : float -> float) (frame : list float) (w : Wrapper) :
  for_frame (fun x => ret (f x)) frame w
  = (map f (firstn kRNNoiseFrameSize frame) ++ skipn kRNNoiseFrameSize frame,
     w).
Proof.
  unfold for_frame, bind. rewrite for_each_pure. reflexivity.
Qed.

Lemma Forall2_map_firstn (R : float -> float -> Prop) (f : float -> float)
      (n : nat) (frame : list float) :
  (forall x, R x (f x)) -> (forall x, R x x) ->
  Forall2 R frame (map f (firstn n frame) ++ skipn n frame).
Proof.
  intros Hf Hrefl. revert n.
  induction frame as [| x rest IH]; intros n.
  - destruct n; simpl; constructor.
  - destruct n; simpl.
    + constructor; [apply Hrefl |].
      specialize (IH 0%nat). simpl in IH. exact IH.
    + constructor; [apply Hf | apply IH].
Qed.

Lemma spectralClamp_unfolded (w : Wrapper) (frame : list float)
      (vad : float) :
  spectralClamp frame vad w
  = (if clamp_inactive w vad then frame
     else map (clamped_sample (clampThresh w))
              (firstn kRNNoiseFrameSize frame)
          ++ skipn kRNNoiseFrameSize frame,
     w).
Proof.
  unfold spectralClamp, clamp_inactive, bind, get.
  cbv beta iota zeta.
  destruct ((vad >=? vadThreshold_ w)%f32
            || (smoothGain_ w >? kClampGateThreshold)%f32);
    [reflexivity |].
  apply (for_frame_pure (clamped_sample (clampThresh w))).
Qed.

Lemma spectralClamp_length (w : Wrapper) (frame : list float)
      (vad : float) :
  List.length (fst (spectralClamp frame vad w)) = List.length frame.
Proof.
  rewrite spectralClamp_unfolded. cbn [fst].
  destruct (clamp_inactive w vad); [reflexivity |].
  rewrite length_app, length_map.
  rewrite <- (firstn_skipn kRNNoiseFrameSize frame) at 3.
  rewrite length_app. reflexivity.
Qed.

(** X9.  The spectral clamp only ever silences samples, and only
    samples below its threshold.  It changes no member of the wrapper
    and keeps the length of the buffer; every sample it leaves is
    either the sample it found or exactly zero, and zero only where
    the magnitude found was below [clampThresh]; and when the frame is
    speech by VAD or the smoothed gain is above 0.3 it leaves the
    whole buffer as it was. *)
Theorem spectralClamp_only_silences (w : Wrapper) (frame : list float)
        (vad : float) :
  let r := spectralClamp frame vad w in
  let silenced_or_kept x y :=
    y = x \/ (y = F32.zero /\ (F32.abs x <? clampThresh w)%f32 = true) in
  snd r = w
  /\ List.length (fst r) = List.length frame
  /\ Forall2 silenced_or_kept frame (fst r)
  /\ (clamp_inactive w vad = true -> fst r = frame).
Proof.
  intros r R.
  assert (Hrefl : forall x, R x x) by (intros x; left; reflexivity).
  assert (Hsame : Forall2 R frame frame).
  { induction frame; constructor; auto. }
  unfold r. rewrite spectralClamp_unfolded. cbn [fst snd].
  destruct (clamp_inactive w vad).
  - repeat split; auto.
  - assert (Hf : forall x, R x (clamped_sample (clampThresh w) x)).
    { intros x. unfold R, clamped_sample.
      destruct (F32.abs x <? clampThresh w)%f32; auto. }
    pose proof (Forall2_map_firstn R (clamped_sample (clampThresh w))
                                   kRNNoiseFrameSize frame Hf Hrefl) as Hall.
    repeat split.
    + apply Forall2_length in Hall. symmetry. exact Hall.
    + exact Hall.
    + intros H. discriminate H.
Qed.

Lemma applySoftSilence_disabled (frame : list float) (s : Z) (p : float) :
  stable (fun w : Wrapper =>
            comfortNoiseEnabled_ w = false
            /\ noiseState_ w = s /\ prevNoise_ w = p)
         (applySoftSilence frame).
Proof.
  intros w Hw. destruct Hw as [He Hrest].
  unfold applySoftSilence, bind, get. simpl. rewrite He. simpl.
  split; assumption.
Qed.

(** X10.  With comfort noise switched off, [processFrame] draws no
    noise: the LFSR state and the shaping history are the same after
    the call, for every frame, state and denoiser, and
    [applySoftSilence] leaves the buffer as it finds it.  The same is
    true of [applySoftSilence] whenever the smoothed gain is at least
    0.1. *)
Theorem comfort_noise_off_draws_nothing (w : Wrapper) (frame : list float) :
  (comfortNoiseEnabled_ w = false ->
   let w' := exec (processFrame rnnoise_process_frame frame) w in
   noiseState_ w' = noiseState_ w /\ prevNoise_ w' = prevNoise_ w)
  /\ (comfortNoiseEnabled_ w = false
      \/ (smoothGain_ w >=? kSoftSilenceGateThresh)%f32 = true ->
      applySoftSilence frame w = (frame, w)).
Proof.
  split.
  - intros He.
    apply (processFrame_keeps
             (fun w0 : Wrapper =>
                comfortNoiseEnabled_ w0 = false
                /\ noiseState_ w0 = noiseState_ w
                /\ prevNoise_ w0 = prevNoise_ w)).
    + intros st1 st2 level fr.
      pipeline_stable ltac:(apply applySoftSilence_disabled).
    + intros m w0 H. exact H.
    + repeat split. exact He.
  - intros H. unfold applySoftSilence, bind, get. simpl.
    destruct (comfortNoiseEnabled_ w); simpl; [| reflexivity].
    destruct H as [H | H]; [discriminate H |].
    rewrite H. reflexivity.
Qed.

(** *** The length of the buffer *)

Lemma for_each_length (body : float -> M float) (cells : list float) :
  forall w : Wrapper,
    List.length (fst (for_each body cells w)) = List.length cells.
Proof.
  induction cells as [| x rest IH]; intros w; simpl; [reflexivity |].
  unfold bind at 1. destruct (body x w) as [y w1].
  unfold bind at 1. specialize (IH w1).
  destruct (for_each body rest w1) as [ys w2]. simpl in *.
  rewrite IH. reflexivity.
Qed.

Lemma for_frame_length (body : float -> M float) (frame : list float)
      (w : Wrapper) :
  List.length (fst (for_frame body frame w)) = List.length frame.
Proof.
  unfold for_frame, bind.
  pose proof (for_each_length body (firstn kRNNoiseFrameSize frame) w) as H.
  destruct (for_each body (firstn kRNNoiseFrameSize frame) w) as [ys w1].
  unfold ret. cbn [fst snd] in *. rewrite length_app, H.
  rewrite <- (firstn_skipn kRNNoiseFrameSize frame) at 3.
  rewrite length_app. reflexivity.
Qed.

Lemma zip_with_length (f : float -> float -> float) (xs : list float) :
  forall ys, List.length (zip_with f xs ys) = List.length xs.
Proof.
  induction xs as [| x rest IH]; intros ys; simpl; [reflexivity |].
  destruct ys; simpl; [reflexivity |]. rewrite IH. reflexivity.
Qed.

Lemma applySoftSilence_length (frame : list float) (w : Wrapper) :
  List.length (fst (applySoftSilence frame w)) = List.length frame.
Proof.
  unfold applySoftSilence, bind at 1, get. cbv beta iota zeta.
  destruct (negb (comfortNoiseEnabled_ w)); [reflexivity |].
  unfold bind at 1. cbv beta iota zeta.
  destruct (smoothGain_ w >=? kSoftSilenceGateThresh)%f32; [reflexivity |].
  apply for_frame_length.
Qed.

(** A step whose result satisfies [V] in every state. *)
Lemma hoare_bind_value {A B} (V : A -> Prop) (Q : B -> Wrapper -> Prop)
      (c : M A) (k : A -> M B) :
  (forall w, V (fst (c w))) ->
  (forall a, V a -> hoare (fun _ => True) (k a) Q) ->
  hoare (fun _ => True) (bind c k) Q.
Proof.
  intros Hc Hk w _. unfold bind. specialize (Hc w).
  destruct (c w) as [a w1]. simpl in Hc. apply (Hk a Hc w1 I).
Qed.

Lemma pipeline_length (st1 st2 : DenoiseState) (level : float)
      (frame : list float) :
  (forall st f, List.length (snd (fst (rnnoise_process_frame st f)))
                = List.length f) ->
  hoare (fun _ : Wrapper => True)
        (pipeline rnnoise_process_frame st1 st2 level frame)
        (fun r _ => List.length (snd r) = List.length frame).
Proof.
  intros Hrnn. unfold pipeline.
  apply hoare_skip; intros _.
  apply hoare_bind_value
    with (V := fun fr => List.length fr = List.length frame);
    [intros w; apply for_frame_length | intros frame1 H1].
  pose proof (Hrnn st1 frame1) as H2.
  destruct (rnnoise_process_frame st1 frame1) as [[st1' frame2] vad1].
  pose proof (Hrnn st2 frame2) as H3.
  destruct (rnnoise_process_frame st2 frame2) as [[st2' frame3] vad2].
  simpl in H2, H3.
  do 2 (apply hoare_skip; intros _).
  apply hoare_bind_value
    with (V := fun fr => List.length fr = List.length frame);
    [intros w; rewrite for_frame_length; congruence | intros frame4 H4].
  set (frame5 := if (level <? F32.one)%f32 then _ else frame4).
  assert (H5 : List.length frame5 = List.length frame).
  { unfold frame5. destruct (level <? F32.one)%f32; [| exact H4].
    rewrite zip_with_length. exact H4. }
  clearbody frame5.
  apply hoare_bind_value
    with (V := fun fr => List.length fr = List.length frame);
    [intros w; rewrite for_frame_length; exact H5 | intros frame6 H6].
  do 4 (apply hoare_skip; intros ?).
  apply hoare_bind_value
    with (V := fun fr => List.length fr = List.length frame);
    [intros w; rewrite for_frame_length; exact H6 | intros frame7 H7].
  apply hoare_bind_value
    with (V := fun fr => List.length fr = List.length frame).
  { intros w. rewrite spectralClamp_length. exact H7. }
  intros frame8 H8.
  apply hoare_bind_value
    with (V := fun fr => List.length fr = List.length frame);
    [intros w; rewrite applySoftSilence_length; exact H8 | intros frame9 H9].
  do 2 (apply hoare_skip; intros _).
  apply hoare_ret. intros w _. exact H9.
Qed.

(** X11.  [processFrame] keeps the length of the buffer: a buffer of
    480 samples comes back as 480 samples (and any buffer with its own
    length), on every path, provided the denoiser writes back as many
    samples as it is given. *)
Theorem processFrame_keeps_length (w : Wrapper) (frame : list float) :
  (forall st f, List.length (snd (fst (rnnoise_process_frame st f)))
                = List.length f) ->
  List.length (snd (fst (processFrame rnnoise_process_frame frame w)))
  = List.length frame.
Proof.
  intros Hrnn.
  destruct (initialised w) eqn:Hinit.
  - destruct (suppressionLevel_ w <=? F32.zero)%f32 eqn:Hlevel.
    + rewrite (processFrame_fast_path w frame Hinit Hlevel). reflexivity.
    + unfold initialised in Hinit.
      destruct (state_ w) as [st1 |] eqn:H1; [| discriminate].
      destruct (state2_ w) as [st2 |] eqn:H2; [| discriminate].
      rewrite (processFrame_slow_path w frame st1 st2 H1 H2 Hlevel).
      apply (pipeline_length st1 st2 (suppressionLevel_ w) frame Hrnn w I).
  - rewrite (processFrame_null w frame Hinit). reflexivity.
Qed.

(** X12.  After [destroy] the wrapper processes nothing: both handles
    are null, [isInitialized] answers false, and every later
    [processFrame] returns 0 and leaves the buffer and the whole
    object, metrics included, as they are, until [init] is called
    again.  A second [destroy] changes nothing. *)
Theorem destroy_stops_processing (w : Wrapper) (frame : list float) :
  let w' := exec destroy w in
  fst (isInitialized w') = false
  /\ processFrame rnnoise_process_frame frame w' = ((F32.zero, frame), w')
  /\ exec destroy w' = w'
  /\ w' = set_states None None w.
Proof.
  intros w'. unfold w', exec, destroy, modify. simpl.
  repeat split.
Qed.

(** *** Where the clamp of the gain does not hold: NaN *)

Lemma add_nan_r (a : float) : (a + S754_nan)%f32 = S754_nan.
Proof. destruct a; reflexivity. Qed.

Lemma mul_nan_r (a : float) : (a * S754_nan)%f32 = S754_nan.
Proof. destruct a; reflexivity. Qed.

Lemma ltb_nan_l (a : float) : (S754_nan <? a)%f32 = false.
Proof. reflexivity. Qed.

Lemma leb_nan_l (a : float) : (S754_nan <=? a)%f32 = false.
Proof. reflexivity. Qed.

(** A target that is not a number makes the smoothed gain a NaN, which
    [std::clamp] hands back. *)
Lemma smooth_step_nan_target (smooth : float) :
  Spec.smooth_step S754_nan smooth = S754_nan.
Proof.
  unfold Spec.smooth_step. rewrite ltb_nan_l.
  change (S754_nan - smooth)%f32 with S754_nan.
  rewrite mul_nan_r, add_nan_r. reflexivity.
Qed.

Lemma BiquadState_process_nan (s : BiquadState) :
  fst (BiquadState_process s S754_nan) = S754_nan.
Proof.
  unfold BiquadState_process. cbn [fst].
  rewrite mul_nan_r. reflexivity.
Qed.

Lemma map_nan (f : float -> float) (n : nat) :
  f S754_nan = S754_nan ->
  map f (repeat S754_nan n) = repeat S754_nan n.
Proof.
  intros Hf. induction n as [| n IH]; simpl; [reflexivity |].
  rewrite Hf, IH. reflexivity.
Qed.

Lemma zip_with_nan (f : float -> float -> float) :
  (forall wet, f wet S754_nan = S754_nan) ->
  forall (xs : list float) (n : nat),
    List.length xs = n ->
    zip_with f xs (repeat S754_nan n) = repeat S754_nan n.
Proof.
  intros Hf. induction xs as [| x rest IH]; intros n Hn; simpl in Hn;
    subst n; simpl; [reflexivity |].
  rewrite Hf, (IH (List.length rest) eq_refl). reflexivity.
Qed.

Lemma for_each_nan (body : float -> M float) :
  (forall w, fst (body S754_nan w) = S754_nan) ->
  forall (n : nat) (w : Wrapper),
    fst (for_each body (repeat S754_nan n) w) = repeat S754_nan n.
Proof.
  intros Hbody. induction n as [| n IH]; intros w; simpl; [reflexivity |].
  unfold bind at 1. specialize (Hbody w).
  destruct (body S754_nan w) as [y w1]. cbn [fst] in Hbody. subst y.
  unfold bind at 1. specialize (IH w1).
  destruct (for_each body (repeat S754_nan n) w1) as [ys w2].
  cbn [fst] in *. subst ys. reflexivity.
Qed.

Lemma nan_frame_whole :
  firstn kRNNoiseFrameSize nan_frame = nan_frame
  /\ skipn kRNNoiseFrameSize nan_frame = [].
Proof.
  unfold nan_frame. split.
  - apply firstn_all2. rewrite repeat_length. apply Nat.le_refl.
  - apply skipn_all2. rewrite repeat_length. apply Nat.le_refl.
Qed.

Lemma for_frame_nan (body : float -> M float) (w : Wrapper) :
  (forall w, fst (body S754_nan w) = S754_nan) ->
  fst (for_frame body nan_frame w) = nan_frame.
Proof.
  intros Hbody. unfold for_frame, bind.
  destruct nan_frame_whole as [Hfirst Hskip]. rewrite Hfirst, Hskip.
  pose proof (for_each_nan body Hbody kRNNoiseFrameSize w) as H.
  fold nan_frame in H.
  destruct (for_each body nan_frame w) as [ys w1]. cbn [fst] in *.
  subst ys. unfold ret. cbn [fst]. apply app_nil_r.
Qed.

(** A step whose result satisfies [V] in every state and that keeps
    [I]. *)
Lemma hoare_bind_both {A B} (I : Wrapper -> Prop) (V : A -> Prop)
      (Q : B -> Wrapper -> Prop) (c : M A) (k : A -> M B) :
  stable I c ->
  (forall w, V (fst (c w))) ->
  (forall a, V a -> hoare I (k a) Q) ->
  hoare I (bind c k) Q.
Proof.
  intros Hc Hv Hk w Hw. unfold bind.
  specialize (Hc w Hw). specialize (Hv w).
  destruct (c w) as [a w1]. cbn [fst snd] in *. apply (Hk a Hv w1 Hc).
Qed.

Lemma computeGateTarget_blind (vad : float) :
  hoare (@gate_blind DenoiseState) (computeGateTarget vad S754_nan)
        (fun target w => target = S754_nan /\ gate_blind w).
Proof.
  intros w Hw. pose proof Hw as [Hvt Hhold].
  assert (Hs : is_speech w vad S754_nan = false).
  { unfold is_speech. rewrite Hvt.
    change (S754_nan - kVadHysteresis)%f32 with S754_nan.
    unfold F32.geb. fold (F32.leb S754_nan vad). rewrite leb_nan_l.
    reflexivity. }
  rewrite (computeGateTarget_released w vad S754_nan Hs Hhold).
  cbn [fst snd]. rewrite ltb_nan_l. split; [| exact Hw].
  change (S754_nan - gateThresh w)%f32 with S754_nan.
  reflexivity.
Qed.

(** The pipeline on a buffer of NaN samples, with the dry signal mixed
    in and a gate that cannot find speech: whatever the denoiser
    writes, the samples after the blend are not numbers, the
    post-filter RMS is not a number, neither is the gate target, and
    the gain that is published is not a number. *)
Lemma pipeline_nan_frame (st1 st2 : DenoiseState) (level : float) :
  keeps_length rnnoise_process_frame ->
  (level <? F32.one)%f32 = true ->
  hoare (@gate_blind DenoiseState)
        (pipeline rnnoise_process_frame st1 st2 level nan_frame)
        (fun _ w => gain_lost w).
Proof.
  intros Hrnn Hlevel. unfold pipeline.
  destruct nan_frame_whole as [Hfirst _]. rewrite Hfirst, Hlevel.
  apply hoare_bind_stable; [solve [stable_auto] | intros _].
  apply hoare_bind_both with (V := fun fr => fr = nan_frame);
    [solve [stable_auto]
    | intros w; apply for_frame_nan; intros w0; reflexivity
    | intros frame1 ->].
  pose proof (Hrnn st1 nan_frame) as H2.
  destruct (rnnoise_process_frame st1 nan_frame) as [[st1' frame2] vad1].
  pose proof (Hrnn st2 frame2) as H3.
  destruct (rnnoise_process_frame st2 frame2) as [[st2' frame3] vad2].
  cbn [fst snd] in H2, H3.
  do 2 (apply hoare_bind_stable; [solve [stable_auto] | intros _]).
  apply hoare_bind_both
    with (V := fun fr => List.length fr = kRNNoiseFrameSize);
    [solve [stable_auto]
    | intros w; rewrite for_frame_length, H3, H2; apply repeat_length
    | intros frame4 H4].
  assert (Hblend :
    zip_with (fun wet o => (wet * level + o * (F32.one - level))%f32)
             frame4 nan_frame = nan_frame).
  { apply zip_with_nan; [| exact H4].
    intros wet. change (S754_nan * (F32.one - level))%f32 with S754_nan.
    apply add_nan_r. }
  rewrite Hblend.
  apply hoare_bind_both with (V := fun fr => fr = nan_frame);
    [solve [stable_auto]
    | intros w; apply for_frame_nan; intros w0
    | intros frame6 ->].
  { unfold bind, get, modify, ret.
    pose proof (BiquadState_process_nan (hpf_ w0)) as Hh.
    destruct (BiquadState_process (hpf_ w0) S754_nan) as [y h].
    cbn [fst] in Hh. subst y.
    match goal with
    | |- context [BiquadState_process ?l S754_nan] =>
        pose proof (BiquadState_process_nan l) as Hl;
        destruct (BiquadState_process l S754_nan) as [z l']
    end.
    cbn [fst] in *. exact Hl. }
  assert (Hrms : computeRms nan_frame kRNNoiseFrameSize = S754_nan)
    by (vm_compute; reflexivity).
  rewrite Hrms.
  apply hoare_bind_stable; [solve [stable_auto] | intros _].
  apply hoare_bind
    with (R := fun target w => target = S754_nan /\ gate_blind w);
    [apply computeGateTarget_blind | intros target].
  apply hoare_bind with (R := fun _ w => gain_lost w).
  - intros w [-> _].
    change (snd (smoothGate S754_nan w))
      with (exec (smoothGate S754_nan) w).
    rewrite smoothGate_publishes, smooth_step_nan_target.
    split; reflexivity.
  - intros _.
    repeat (apply hoare_bind_stable; [solve [stable_auto] | intros ?]).
    apply hoare_ret. auto.
Qed.

(** [processFrame] on a buffer of NaN samples, for every denoiser:
    with a suppression level above 0 and below 1 and a gate that
    cannot find speech, the gain published is not a number. *)
Lemma processFrame_nan_frame (w : Wrapper) :
  keeps_length rnnoise_process_frame ->
  initialised w = true ->
  (suppressionLevel_ w <=? F32.zero)%f32 = false ->
  (suppressionLevel_ w <? F32.one)%f32 = true ->
  gate_blind w ->
  gain_lost (exec (processFrame rnnoise_process_frame nan_frame) w).
Proof.
  intros Hrnn Hinit Hlow Hhigh Hblind. unfold exec.
  unfold initialised in Hinit.
  destruct (state_ w) as [st1 |] eqn:H1; [| discriminate].
  destruct (state2_ w) as [st2 |] eqn:H2; [| discriminate].
  rewrite (processFrame_slow_path w nan_frame st1 st2 H1 H2 Hlow).
  apply (pipeline_nan_frame st1 st2 (suppressionLevel_ w) Hrnn Hhigh w
                            Hblind).
Qed.

(** Once the smoothed gain is not a number, every later frame that
    goes through the pipeline publishes a gain that is not a number,
    for every frame and every denoiser. *)
Lemma processFrame_nan_gain (w : Wrapper) (frame : list float) :
  initialised w = true ->
  (suppressionLevel_ w <=? F32.zero)%f32 = false ->
  smoothGain_ w = S754_nan ->
  gain_lost (exec (processFrame rnnoise_process_frame frame) w).
Proof.
  intros Hinit Hlow Hnan. unfold exec, gain_lost.
  unfold initialised in Hinit.
  destruct (state_ w) as [st1 |] eqn:H1; [| discriminate].
  destruct (state2_ w) as [st2 |] eqn:H2; [| discriminate].
  rewrite (processFrame_slow_path w frame st1 st2 H1 H2 Hlow).
  apply (pipeline_nan_gain st1 st2 (suppressionLevel_ w) frame w Hnan).
Qed.

End FrameProcessorPipeline.

(* ================================================================== *)
(** ** Properties of the audio engine *)
(* ================================================================== *)

(** Projections of setters, and nothing else, are reduced. *)
Ltac engine_cbn :=
  cbn [running_ shouldRestart_ config_ captureStream_ outputStream_
       captureRing_ outputRing_ rnnoise_ processingThread_ pa_initialized
       set_running set_shouldRestart set_config set_captureStream
       set_outputStream set_captureRing set_outputRing set_rnnoise
       set_processingThread set_pa_initialized Pa_Initialize_ok
       Pa_Terminate with_streams open_streams
       fst snd negb andb empty] in *.

Ltac branch_done :=
  cbn; repeat split; intros; first [reflexivity | congruence].

Section Engine.

Context {DenoiseState : Type}.
Variable host : Host DenoiseState.

Local Abbreviation Engine := (AudioEngine DenoiseState).

Lemma stop_not_running (e : Engine) : running_ (stop e) = false.
Proof.
  unfold stop. destruct (running_ e) eqn:Hrun; simpl; [| exact Hrun].
  destruct e as [run rst cfg cs os cr or w th pa]. simpl.
  destruct th, cs, os; reflexivity.
Qed.

(** C8.  [stop] is idempotent on every engine state: a second call
    returns at the [running_] test and the state is the one the first
    call left. *)
Theorem stop_idempotent (e : Engine) : stop (stop e) = stop e.
Proof.
  unfold stop at 1. rewrite stop_not_running. reflexivity.
Qed.

(** The output callback does not read the configuration: whatever
    [config_] holds, the buffer it fills is the same. *)
Lemma outputCallback_ignores_config (cfg : AudioConfig) (e : Engine)
      (frameCount : nat) (statusFlags : Z) :
  option_map fst (outputCallback frameCount statusFlags (set_config cfg e))
  = option_map fst (outputCallback frameCount statusFlags e).
Proof.
  unfold outputCallback. simpl.
  destruct (running_ e); simpl; [| reflexivity].
  destruct (outputRing_ e) as [ring |]; reflexivity.
Qed.

(** *** The contract of [start], [stop] and [openStreams] *)

Lemma init_result (w : RNNoiseWrapper DenoiseState)
      (created1 created2 : option DenoiseState) :
  fst (init created1 created2 w) = non_null created1 && non_null created2.
Proof.
  unfold init, bind, get, modify, store, destroy, initFilters, ret.
  destruct (non_null (state_ w)); reflexivity.
Qed.

Lemma empty_unique (a b : string) :
  empty a = true -> empty b = true -> a = b.
Proof.
  destruct a, b; simpl; intros Ha Hb; first [reflexivity | discriminate].
Qed.

(** [openStreams] on an engine that holds no stream: it does not
    return exactly when a device lookup gives a null pointer;
    otherwise both streams are open or the engine is as before. *)
Lemma openStreams_outcome (e : Engine) :
  captureStream_ e = None -> outputStream_ e = None ->
  match openStreams host e with
  | None => devices_missing host (config_ e) = true
  | Some r =>
      devices_missing host (config_ e) = false
      /\ empty (fst r) = streams_openable host (config_ e)
      /\ snd r = (if streams_openable host (config_ e)
                  then open_streams host (config_ e) false e else e)
  end.
Proof.
  intros Hcs Hos.
  destruct e as [run rst cfg cs os cr or w th pa]. simpl in Hcs, Hos.
  subst cs os.
  unfold openStreams, streams_openable, devices_missing, open_streams,
    with_streams, input_device, output_device, wants_exclusive.
  cbn [config_].
  set (i := if inputDeviceIndex cfg <? 0 then host_default_input host
            else inputDeviceIndex cfg).
  set (o := if outputDeviceIndex cfg <? 0 then host_default_output host
            else outputDeviceIndex cfg).
  set (x := host_win32 host && tryExclusiveMode cfg && host_wasapi host).
  destruct (i =? paNoDevice); [repeat split |].
  destruct (o =? paNoDevice); [repeat split |].
  destruct (host_Pa_GetDeviceInfo host i) as [inputInfo |];
    [| reflexivity].
  destruct (host_Pa_GetDeviceInfo host o) as [outputInfo |];
    [| reflexivity].
  destruct (open_with_fallback host Capture i x cfg =? paNoError);
    [| repeat split].
  destruct (open_with_fallback host Playback o x cfg =? paNoError);
    repeat split.
Qed.

(** X13.  [openStreams] opens both streams or none, when it returns.
    Called with no stream open, it fails to return exactly when both
    device indices resolve to a device index (a negative index
    standing for the default device) and [Pa_GetDeviceInfo] returns a
    null pointer for one of them, which the code reads through.
    Otherwise it returns the empty string exactly when neither index
    resolves to [paNoDevice] and both opens (with the shared-mode
    retry under [_WIN32]) succeed; then both streams are open, not yet
    started, on the configured devices; in every other case it returns
    a message and the engine is as before.  Nothing but the two stream
    pointers ever changes. *)
Theorem openStreams_all_or_nothing (e : Engine) :
  captureStream_ e = None -> outputStream_ e = None ->
  match openStreams host e with
  | None => devices_missing host (config_ e) = true
  | Some r =>
      devices_missing host (config_ e) = false
      /\ empty (fst r) = streams_openable host (config_ e)
      /\ snd r = (if streams_openable host (config_ e)
                  then open_streams host (config_ e) false e else e)
  end.
Proof.
  intros Hcs Hos. exact (openStreams_outcome e Hcs Hos).
Qed.

Lemma stop_running (e : Engine) :
  running_ e = true ->
  stop e
  = mkEngine false (shouldRestart_ e) (config_ e) None None None None
             (exec destroy (rnnoise_ e)) false (Nat.pred (pa_initialized e)).
Proof.
  intros Hrun. unfold stop. rewrite Hrun.
  destruct e as [run rst cfg cs os cr or w th pa]. simpl.
  destruct th, cs, os; reflexivity.
Qed.

(** [start] on a stopped engine, path by path. *)
Lemma start_outcome (config : AudioConfig) (e : Engine) :
  running_ e = false ->
  match start host config e with
  | None => start_crashes host config = true
  | Some r =>
      start_crashes host config = false
      /\ empty (fst r) = start_possible host config
      /\ (start_possible host config = true ->
          snd r
          = mkEngine true (shouldRestart_ e) config
              (Some (mkStream (input_device host config) true))
              (Some (mkStream (output_device host config) true))
              (Some (RingBuffer_new kRingCapacity))
              (Some (RingBuffer_new kRingCapacity))
              (exec (init (host_rnnoise_create1 host)
                          (host_rnnoise_create2 host)) (rnnoise_ e))
              true (S (pa_initialized e)))
      /\ (start_possible host config = false ->
          running_ (snd r) = false
          /\ shouldRestart_ (snd r) = shouldRestart_ e
          /\ config_ (snd r) = config
          /\ processingThread_ (snd r) = processingThread_ e
          /\ pa_initialized (snd r) = pa_initialized e
          /\ ((host_Pa_Initialize host =? paNoError) = true ->
              captureRing_ (snd r) = Some (RingBuffer_new kRingCapacity)
              /\ outputRing_ (snd r) = Some (RingBuffer_new kRingCapacity))
          /\ (captureStream_ e = None -> outputStream_ e = None ->
              captureStream_ (snd r) = None
              /\ outputStream_ (snd r) = None))
  end.
Proof.
  intros Hrun.
  destruct e as [run rst cfg cs os cr or w th pa]. simpl in Hrun. subst run.
  unfold start, start_possible, start_crashes, restart_possible,
    streams_startable.
  cbn [running_ negb].
  destruct (host_Pa_Initialize host =? paNoError); [| branch_done].
  cbn [negb andb]. unfold on_rnnoise, exec.
  cbn [rnnoise_ set_captureRing set_outputRing Pa_Initialize_ok
       set_pa_initialized set_config].
  pose proof (init_result w (host_rnnoise_create1 host)
                          (host_rnnoise_create2 host)) as Hok.
  destruct (init (host_rnnoise_create1 host) (host_rnnoise_create2 host) w)
    as [ok w1].
  cbn [fst snd] in *. rewrite <- Hok. clear Hok.
  destruct ok; [| branch_done].
  unfold openStreams, streams_openable, devices_missing, input_device,
    output_device, wants_exclusive.
  engine_cbn.
  set (i := if inputDeviceIndex config <? 0 then host_default_input host
            else inputDeviceIndex config).
  set (o := if outputDeviceIndex config <? 0 then host_default_output host
            else outputDeviceIndex config).
  set (x := host_win32 host && tryExclusiveMode config && host_wasapi host).
  destruct (i =? paNoDevice); [branch_done |].
  destruct (o =? paNoDevice); [branch_done |].
  destruct (host_Pa_GetDeviceInfo host i) as [inputInfo |];
    [| reflexivity].
  destruct (host_Pa_GetDeviceInfo host o) as [outputInfo |];
    [| reflexivity].
  destruct (open_with_fallback host Capture i x config =? paNoError);
    [| branch_done].
  destruct (open_with_fallback host Playback o x config =? paNoError);
    [| branch_done].
  engine_cbn.
  destruct (host_Pa_StartStream host Capture =? paNoError); [| branch_done].
  destruct (host_Pa_StartStream host Playback =? paNoError); [| branch_done].
  branch_done.
Qed.

(** A [start] that gets past [Pa_Initialize] and then fails returns
    with both rings still allocated. *)
Lemma start_failure_leaves_rings (config : AudioConfig) (e : Engine)
      (r : string * Engine) :
  running_ e = false ->
  host_Pa_Initialize host = paNoError ->
  start host config e = Some r ->
  empty (fst r) = false ->
  captureRing_ (snd r) = Some (RingBuffer_new kRingCapacity)
  /\ outputRing_ (snd r) = Some (RingBuffer_new kRingCapacity).
Proof.
  intros Hrun Hinit Hstart Hfail.
  pose proof (start_outcome config e Hrun) as H. rewrite Hstart in H.
  destruct H as (_ & Hempty & _ & Hno).
  rewrite Hfail in Hempty.
  destruct (Hno (eq_sym Hempty)) as (_ & _ & _ & _ & _ & Hrings & _).
  apply Hrings. rewrite Hinit. reflexivity.
Qed.

(** A [start] that returns a failure on an engine that is stopped and
    holds no stream returns a message that is not empty, leaves the
    engine stopped with no stream open, and has matched its
    [Pa_Initialize] with a [Pa_Terminate]. *)
Lemma start_failure_unwinds (config : AudioConfig) (e : Engine)
      (r : string * Engine) :
  running_ e = false ->
  captureStream_ e = None -> outputStream_ e = None ->
  start host config e = Some r ->
  empty (fst r) = false ->
  running_ (snd r) = false
  /\ captureStream_ (snd r) = None
  /\ outputStream_ (snd r) = None
  /\ pa_initialized (snd r) = pa_initialized e.
Proof.
  intros Hrun Hcs Hos Hstart Hfail.
  pose proof (start_outcome config e Hrun) as H. rewrite Hstart in H.
  destruct H as (_ & Hempty & _ & Hno).
  rewrite Hfail in Hempty.
  destruct (Hno (eq_sym Hempty)) as (H1 & _ & _ & _ & H5 & _ & Hstreams).
  destruct (Hstreams Hcs Hos) as [Hc Ho].
  split; [exact H1 |]. split; [exact Hc |]. split; [exact Ho | exact H5].
Qed.

(** A [start] that succeeds leaves the DSP state as [init] resets it. *)
Lemma start_resets_dsp (config : AudioConfig) (e : Engine)
      (e' : Engine) :
  start host config e = Some (EmptyString, e') ->
  let w := rnnoise_ e' in
  running_ e' = true
  /\ framesProcessed (metrics_ w) = 0
  /\ smoothGain_ w = F32.one
  /\ holdCounter_ w = 0
  /\ noiseFloorEstimate_ w = F32.zero
  /\ calibrationFrames_ w = 0
  /\ noiseState_ w = 0x12345678
  /\ delays_zero (hpf_ w) /\ delays_zero (lpf_ w).
Proof.
  intros Hstart.
  destruct (running_ e) eqn:Hrun.
  - unfold start in Hstart. rewrite Hrun in Hstart. discriminate Hstart.
  - pose proof (start_outcome config e Hrun) as H. rewrite Hstart in H.
    cbn [fst snd empty] in H. destruct H as (_ & Hempty & Hyes & _).
    specialize (Hyes (eq_sym Hempty)). subst e'.
    cbn [rnnoise_ running_]. split; [reflexivity |].
    apply (init_leaves_reset (rnnoise_ e) (host_rnnoise_create1 host)
                             (host_rnnoise_create2 host)).
Qed.

(** X14.  The contract of [start] on a stopped engine.  The call fails
    to return exactly when [Pa_Initialize] succeeds, both
    [rnnoise_create] calls return a state and [openStreams] reads
    through a null [Pa_GetDeviceInfo] pointer (a configured index that
    names no device).  Otherwise it returns the empty string, and
    leaves the engine running, exactly when [Pa_Initialize] succeeds,
    both [rnnoise_create] calls return a state, both streams open and
    both start.  Then both streams are active on the configured
    devices, both rings are fresh ones of capacity 4096, the denoiser
    is as [init] leaves it, the worker thread exists and PortAudio is
    initialised once more; a second [start] is refused with the
    running engine untouched.  In every other case the engine is still
    stopped and each [Pa_Initialize] has been matched by a
    [Pa_Terminate].  The configuration is stored and the restart flag
    is kept on every path that returns. *)
Theorem start_contract (config : AudioConfig) (e : Engine) :
  running_ e = false ->
  match start host config e with
  | None => start_crashes host config = true
  | Some r =>
      start_crashes host config = false
      /\ empty (fst r) = start_possible host config
      /\ running_ (snd r) = start_possible host config
      /\ config_ (snd r) = config
      /\ shouldRestart_ (snd r) = shouldRestart_ e
      /\ (start_possible host config = true ->
          captureStream_ (snd r)
          = Some (mkStream (input_device host config) true)
          /\ outputStream_ (snd r)
             = Some (mkStream (output_device host config) true)
          /\ captureRing_ (snd r) = Some (RingBuffer_new kRingCapacity)
          /\ outputRing_ (snd r) = Some (RingBuffer_new kRingCapacity)
          /\ rnnoise_ (snd r)
             = exec (init (host_rnnoise_create1 host)
                          (host_rnnoise_create2 host)) (rnnoise_ e)
          /\ processingThread_ (snd r) = true
          /\ pa_initialized (snd r) = S (pa_initialized e)
          /\ forall config',
               start host config' (snd r)
               = Some ("Engine already running"%string, snd r))
      /\ (start_possible host config = false ->
          processingThread_ (snd r) = processingThread_ e
          /\ pa_initialized (snd r) = pa_initialized e)
  end.
Proof.
  intros Hrun.
  pose proof (start_outcome config e Hrun) as H.
  destruct (start host config e) as [r |]; [| exact H].
  destruct H as (Hcrash & Hempty & Hyes & Hno).
  split; [exact Hcrash |]. split; [exact Hempty |].
  destruct (start_possible host config).
  - specialize (Hyes eq_refl). rewrite Hyes. unfold start. engine_cbn.
    repeat split; intros; first [reflexivity | discriminate].
  - destruct (Hno eq_refl) as (H1 & H2 & H3 & H4 & H5 & _).
    split; [exact H1 |]. split; [exact H3 |]. split; [exact H2 |].
    split; [intros H; discriminate H |].
    intros _. split; assumption.
Qed.

(** X15.  [stop] on a running engine releases everything, whatever was
    allocated: the engine is stopped, the worker joined, both stream
    pointers, both rings and both denoiser handles are null, and one
    [Pa_Terminate] has been made.  The configuration, the restart flag
    and the rest of the DSP state are kept. *)
Theorem stop_releases_everything (e : Engine) :
  running_ e = true ->
  let e' := stop e in
  running_ e' = false
  /\ processingThread_ e' = false
  /\ captureStream_ e' = None /\ outputStream_ e' = None
  /\ captureRing_ e' = None /\ outputRing_ e' = None
  /\ rnnoise_ e' = set_states None None (rnnoise_ e)
  /\ pa_initialized e' = Nat.pred (pa_initialized e)
  /\ config_ e' = config_ e
  /\ shouldRestart_ e' = shouldRestart_ e.
Proof.
  intros Hrun e'. unfold e'. rewrite (stop_running e Hrun). cbn.
  repeat split.
Qed.

(** X16.  [start] followed by [stop] leaves nothing behind, whether
    the start succeeded or returned a failure: the engine is stopped,
    every [Pa_Initialize] has been matched by one [Pa_Terminate], and
    no stream is open if none was before.  After a start that
    succeeded the rings and the denoiser handles are gone as well, and
    the engine can be started again with the same outcome.  The one
    start that [stop] cannot follow is the start that does not return,
    having read through a null [Pa_GetDeviceInfo] pointer. *)
Theorem start_stop_round_trip (config : AudioConfig) (e : Engine) :
  running_ e = false ->
  match start host config e with
  | None => start_crashes host config = true
  | Some r =>
      let e' := stop (snd r) in
      running_ e' = false
      /\ pa_initialized e' = pa_initialized e
      /\ config_ e' = config
      /\ (captureStream_ e = None -> outputStream_ e = None ->
          captureStream_ e' = None /\ outputStream_ e' = None)
      /\ (start_possible host config = true ->
          captureStream_ e' = None /\ outputStream_ e' = None
          /\ captureRing_ e' = None /\ outputRing_ e' = None
          /\ initialised (rnnoise_ e') = false
          /\ processingThread_ e' = false
          /\ option_map fst (start host config e') = Some (fst r))
  end.
Proof.
  intros Hrun.
  pose proof (start_outcome config e Hrun) as H.
  destruct (start host config e) as [r |]; [| exact H].
  destruct H as (Hcrash & Hempty & Hyes & Hno). intros e'.
  destruct (start_possible host config) eqn:Hposs.
  - assert (He' : e' = mkEngine false (shouldRestart_ e) config
                         None None None None
                         (exec destroy
                            (exec (init (host_rnnoise_create1 host)
                                        (host_rnnoise_create2 host))
                                  (rnnoise_ e)))
                         false (pa_initialized e)).
    { unfold e'. rewrite (Hyes eq_refl). apply stop_running. reflexivity. }
    clearbody e'. subst e'. engine_cbn.
    split; [reflexivity |]. split; [reflexivity |]. split; [reflexivity |].
    split; [intros _ _; split; reflexivity |].
    intros _. do 6 (split; [reflexivity |]).
    match goal with
    | |- option_map fst (start host config ?e0) = _ =>
        pose proof (start_outcome config e0 eq_refl) as H';
        destruct (start host config e0) as [r' |]
    end.
    + destruct H' as (_ & Hempty' & _). rewrite Hposs in Hempty'.
      cbn [option_map]. f_equal. apply empty_unique; assumption.
    + rewrite Hcrash in H'. discriminate H'.
  - destruct (Hno eq_refl) as (H1 & H2 & H3 & H4 & H5 & _ & Hstreams).
    assert (He' : e' = snd r).
    { unfold e', stop. rewrite H1. reflexivity. }
    clearbody e'. subst e'.
    split; [exact H1 |]. split; [exact H5 |]. split; [exact H3 |].
    split; [exact Hstreams | intros H; discriminate H].
Qed.

End Engine.

(* ================================================================== *)
(** ** Auto-restart *)
(* ================================================================== *)

Section RestartProperties.

Context {DenoiseState : Type}.
Variable hosts : nat -> Host DenoiseState.
Variable has_callback : bool.

Local Abbreviation Engine := (AudioEngine DenoiseState).

Lemma with_streams_twice (cs os cs' os' : option PaStream) (e : Engine) :
  with_streams cs os (with_streams cs' os' e) = with_streams cs os e.
Proof. reflexivity. Qed.

Lemma stop_and_close (e : Engine) :
  closeStreams
    (set_outputStream
       (stop_if_open
          (outputStream_
             (set_captureStream (stop_if_open (captureStream_ e)) e)))
       (set_captureStream (stop_if_open (captureStream_ e)) e))
  = with_streams None None e.
Proof.
  destruct e as [run rst cfg cs os cr or w th pa].
  destruct cs, os; reflexivity.
Qed.

(** One pass of the loop: it does not return when a device lookup
    gives a null pointer; otherwise it succeeds exactly when the
    streams can be opened and started, and then both are active, and
    else no stream is left open. *)
Lemma restart_pass_outcome (h : Host DenoiseState) (e : Engine) :
  restart_pass h e
  = if devices_missing h (config_ e) then None
    else Some (restart_possible h (config_ e),
               if restart_possible h (config_ e)
               then open_streams h (config_ e) true e
               else with_streams None None e).
Proof.
  unfold restart_pass. cbv zeta. rewrite stop_and_close.
  destruct e as [run rst cfg cs os cr or w th pa].
  unfold restart_possible, streams_startable, closeStreams,
    openStreams, streams_openable, devices_missing, input_device,
    output_device, wants_exclusive, stop_if_open, started.
  engine_cbn.
  set (i := if inputDeviceIndex cfg <? 0 then host_default_input h
            else inputDeviceIndex cfg).
  set (o := if outputDeviceIndex cfg <? 0 then host_default_output h
            else outputDeviceIndex cfg).
  set (x := host_win32 h && tryExclusiveMode cfg && host_wasapi h).
  destruct (i =? paNoDevice); [reflexivity |].
  destruct (o =? paNoDevice); [reflexivity |].
  destruct (host_Pa_GetDeviceInfo h i) as [inputInfo |]; [| reflexivity].
  destruct (host_Pa_GetDeviceInfo h o) as [outputInfo |]; [| reflexivity].
  destruct (open_with_fallback h Capture i x cfg =? paNoError);
    [| reflexivity].
  destruct (open_with_fallback h Playback o x cfg =? paNoError);
    [| reflexivity].
  engine_cbn. cbn [non_null].
  destruct (host_Pa_StartStream h Capture =? paNoError); [| reflexivity].
  destruct (host_Pa_StartStream h Playback =? paNoError); reflexivity.
Qed.

Lemma backoff_step (attempt : nat) :
  backoff_total attempt + 100 * Z.shiftl 1 (Z.of_nat attempt)
  = backoff_total (S attempt).
Proof.
  unfold backoff_total. rewrite Z.shiftl_1_l, Nat2Z.inj_succ, Z.pow_succ_r;
    lia.
Qed.

Lemma backoff_total_grows (n m : nat) :
  (n <= m)%nat -> backoff_total n <= backoff_total m.
Proof.
  intros H. unfold backoff_total.
  assert (2 ^ Z.of_nat n <= 2 ^ Z.of_nat m)
    by (apply Z.pow_le_mono_r; lia).
  lia.
Qed.

Lemma slept_report (msg : string) (t : RestartTrace) :
  slept_ms (report has_callback msg t) = slept_ms t.
Proof. unfold report. destruct has_callback; reflexivity. Qed.

Lemma restart_loop_pass (remaining attempt : nat) (t : RestartTrace)
      (e : Engine) :
  restart_loop hosts has_callback (S remaining) attempt t e
  = (let t := sleep_for (100 * Z.shiftl 1 (Z.of_nat attempt)) t in
     if negb (running_ e) then Some (t, e)
     else
       if devices_missing (hosts attempt) (config_ e) then None
       else
         if restart_possible (hosts attempt) (config_ e)
         then Some (report has_callback
                           "Audio engine restarted successfully" t,
                    open_streams (hosts attempt) (config_ e) true e)
         else restart_loop hosts has_callback remaining (S attempt) t
                           (with_streams None None e)).
Proof.
  cbn [restart_loop]. cbv zeta. rewrite restart_pass_outcome.
  destruct (devices_missing (hosts attempt) (config_ e)); [reflexivity |].
  destruct (restart_possible (hosts attempt) (config_ e)); reflexivity.
Qed.

(** The loop from attempt [attempt] on, when every pass returns and
    none succeeds. *)
Lemma restart_loop_exhausted (remaining : nat) :
  forall (attempt : nat) (t : RestartTrace) (e : Engine),
    running_ e = true ->
    captureStream_ e = None -> outputStream_ e = None ->
    (forall k, (attempt <= k < attempt + remaining)%nat ->
               devices_missing (hosts k) (config_ e) = false) ->
    (forall k, (attempt <= k < attempt + remaining)%nat ->
               restart_possible (hosts k) (config_ e) = false) ->
    slept_ms t = backoff_total attempt ->
    restart_loop hosts has_callback remaining attempt t e
    = Some (report has_callback
              "Failed to restart audio engine after multiple attempts"
              (mkTrace (status_messages t)
                       (backoff_total (attempt + remaining))), e).
Proof.
  induction remaining as [| remaining IH];
    intros attempt t e Hrun Hcs Hos Hdev Hfail Hslept.
  - cbn [restart_loop]. rewrite Nat.add_0_r, <- Hslept.
    destruct t; reflexivity.
  - rewrite restart_loop_pass. cbv zeta. rewrite Hrun. cbn [negb].
    rewrite Hdev, Hfail by lia.
    assert (He : with_streams None None e = e).
    { destruct e as [run rst cfg cs os cr or w th pa].
      simpl in Hcs, Hos. subst. reflexivity. }
    rewrite He.
    rewrite (IH (S attempt)); try assumption.
    + cbn [status_messages sleep_for].
      replace (S attempt + remaining)%nat
        with (attempt + S remaining)%nat by lia.
      reflexivity.
    + intros k Hk. apply Hdev. lia.
    + intros k Hk. apply Hfail. lia.
    + cbn [slept_ms sleep_for]. rewrite Hslept. apply backoff_step.
Qed.

(** What the loop leaves alone, the bounds on the time it sleeps, and
    when it does not return. *)
Lemma restart_loop_frame (remaining : nat) :
  forall (attempt : nat) (t : RestartTrace) (e : Engine),
    match restart_loop hosts has_callback remaining attempt t e with
    | Some r =>
        with_streams None None (snd r) = with_streams None None e
        /\ slept_ms t <= slept_ms (fst r)
           <= slept_ms t + (backoff_total (attempt + remaining)
                            - backoff_total attempt)
        /\ (has_callback = false ->
            status_messages (fst r) = status_messages t)
    | None =>
        running_ e = true
        /\ exists k, (attempt <= k < attempt + remaining)%nat
                     /\ devices_missing (hosts k) (config_ e) = true
    end.
Proof.
  induction remaining as [| remaining IH]; intros attempt t e.
  - cbn [restart_loop]. rewrite Nat.add_0_r. unfold report.
    destruct has_callback; cbn [fst snd slept_ms status_messages];
      repeat split; try lia.
  - rewrite restart_loop_pass. cbv zeta.
    pose proof (backoff_step attempt) as Hstep.
    assert (0 <= Z.shiftl 1 (Z.of_nat attempt))
      by (rewrite Z.shiftl_1_l; apply Z.pow_nonneg; lia).
    pose proof (backoff_total_grows (S attempt)
                  (attempt + S remaining) ltac:(lia)) as Hgrow.
    destruct (running_ e) eqn:Hrun; cbn [negb].
    + destruct (devices_missing (hosts attempt) (config_ e)) eqn:Hdev.
      { split; [reflexivity |]. exists attempt. split; [lia | exact Hdev]. }
      destruct (restart_possible (hosts attempt) (config_ e)).
      * unfold report, open_streams.
        destruct has_callback; cbn [fst snd slept_ms status_messages sleep_for];
          rewrite ?with_streams_twice; repeat split; try lia.
      * specialize (IH (S attempt)
                       (sleep_for (100 * Z.shiftl 1 (Z.of_nat attempt)) t)
                       (with_streams None None e)).
        destruct (restart_loop hosts has_callback remaining (S attempt)
                    (sleep_for (100 * Z.shiftl 1 (Z.of_nat attempt)) t)
                    (with_streams None None e)) as [r |].
        -- destruct IH as (H1 & H2 & H3).
           rewrite with_streams_twice in H1.
           cbn [slept_ms status_messages sleep_for] in H2, H3.
           replace (attempt + S remaining)%nat
             with (S attempt + remaining)%nat by lia.
           replace (attempt + S remaining)%nat
             with (S attempt + remaining)%nat in Hgrow by lia.
           split; [exact H1 |]. split; [lia | exact H3].
        -- destruct IH as (_ & k & Hk & Hmiss).
           split; [reflexivity |]. exists k. split; [lia | exact Hmiss].
    + cbn [fst snd slept_ms status_messages sleep_for].
      repeat split; try lia.
Qed.

(** X17.  [attemptRestart] touches nothing but the two stream
    pointers: when it returns, [running_], the restart flag, the
    configuration, both rings, the whole DSP state, the worker and
    PortAudio's initialisation count are as before, on every machine.
    It has slept at least 100 ms and at most 3100 ms, has reported
    nothing when no status callback is registered, and on an engine
    that is not running it returns after the first 100 ms with the
    engine untouched.  It fails to return only on a running engine,
    when at one of the five attempts [Pa_GetDeviceInfo] returns a null
    pointer for a device of the configuration. *)
Theorem attemptRestart_touches_only_streams (e : Engine) :
  match attemptRestart hosts has_callback e with
  | Some r =>
      with_streams None None (snd r) = with_streams None None e
      /\ 100 <= slept_ms (fst r) <= 3100
      /\ (has_callback = false -> status_messages (fst r) = [])
      /\ (running_ e = false -> snd r = e /\ slept_ms (fst r) = 100)
  | None =>
      running_ e = true
      /\ exists k, (k < 5)%nat
                   /\ devices_missing (hosts k) (config_ e) = true
  end.
Proof.
  assert (Hfirst : slept_ms (report has_callback
                     "Device issue detected, attempting restart..."
                     (mkTrace [] 0)) = 0)
    by apply slept_report.
  assert (Hquiet : has_callback = false ->
            status_messages (report has_callback
                     "Device issue detected, attempting restart..."
                     (mkTrace [] 0)) = []).
  { intros Hcb. unfold report. rewrite Hcb. reflexivity. }
  unfold attemptRestart.
  change (Z.to_nat kMaxRestartAttempts) with 5%nat.
  rewrite restart_loop_pass. cbv zeta.
  change (100 * Z.shiftl 1 (Z.of_nat 0)) with 100.
  destruct (running_ e) eqn:Hrun; cbn [negb].
  - destruct (devices_missing (hosts 0%nat) (config_ e)) eqn:Hdev.
    { split; [reflexivity |]. exists 0%nat. split; [lia | exact Hdev]. }
    destruct (restart_possible (hosts 0%nat) (config_ e)).
    + cbn [fst snd]. unfold open_streams.
      rewrite with_streams_twice, slept_report.
      cbn [slept_ms sleep_for]. rewrite Hfirst.
      split; [reflexivity |]. split; [lia |].
      split; [| intros H; discriminate H].
      intros Hcb. unfold report. rewrite Hcb. reflexivity.
    + pose proof (restart_loop_frame 4 1
                    (sleep_for 100
                       (report has_callback
                          "Device issue detected, attempting restart..."
                          (mkTrace [] 0)))
                    (with_streams None None e)) as Hrest.
      destruct (restart_loop hosts has_callback 4 1
                  (sleep_for 100
                     (report has_callback
                        "Device issue detected, attempting restart..."
                        (mkTrace [] 0)))
                  (with_streams None None e)) as [r |].
      * destruct Hrest as (H1 & H2 & H3).
        rewrite with_streams_twice in H1.
        cbn [slept_ms status_messages sleep_for] in H2, H3.
        rewrite Hfirst in H2.
        change (backoff_total (1 + 4)) with 3100 in H2.
        change (backoff_total 1) with 100 in H2.
        split; [exact H1 |]. split; [lia |].
        split; [| intros H; discriminate H].
        intros Hcb. rewrite (H3 Hcb). apply Hquiet. exact Hcb.
      * destruct Hrest as (_ & k & Hk & Hmiss).
        split; [reflexivity |]. exists k. split; [lia | exact Hmiss].
  - cbn [fst snd slept_ms status_messages sleep_for]. rewrite Hfirst.
    split; [reflexivity |]. split; [lia |].
    split; [exact Hquiet |]. intros _. split; reflexivity.
Qed.

(** X18.  When the devices of the configuration exist at each of the
    five attempts, as they did when the engine was started, and none
    of the attempts can reopen and start the streams, [attemptRestart]
    gives up after sleeping 100 + 200 + 400 + 800 + 1600 = 3100 ms:
    the status callback, if any, has received the opening and the
    failure message, no stream is open, and the engine is still marked
    running, with everything else untouched. *)
Theorem attemptRestart_exhausted (e : Engine) :
  running_ e = true ->
  (forall k, (k < 5)%nat ->
             devices_missing (hosts k) (config_ e) = false) ->
  (forall k, (k < 5)%nat ->
             restart_possible (hosts k) (config_ e) = false) ->
  attemptRestart hosts has_callback e
  = Some (mkTrace
            (messages has_callback
               ["Device issue detected, attempting restart...";
                "Failed to restart audio engine after multiple attempts"
               ]%string)
            3100,
          with_streams None None e)
  /\ running_ (with_streams None None e) = true.
Proof.
  intros Hrun Hdev Hfail. split; [| exact Hrun].
  unfold attemptRestart. change (Z.to_nat kMaxRestartAttempts) with 5%nat.
  rewrite restart_loop_pass. cbv zeta. rewrite Hrun. cbn [negb].
  rewrite Hdev, Hfail by lia.
  rewrite (restart_loop_exhausted 4 1); try reflexivity.
  - unfold report, messages. destruct has_callback; reflexivity.
  - exact Hrun.
  - intros k Hk. apply Hdev. lia.
  - intros k Hk. apply Hfail. lia.
  - unfold report. destruct has_callback; reflexivity.
Qed.

(** The loop up to its first pass that succeeds. *)
Lemma restart_loop_succeeds (n : nat) :
  forall (remaining attempt : nat) (t : RestartTrace) (e : Engine),
    running_ e = true ->
    (n < remaining)%nat ->
    (forall k, (attempt <= k <= attempt + n)%nat ->
               devices_missing (hosts k) (config_ e) = false) ->
    (forall k, (attempt <= k < attempt + n)%nat ->
               restart_possible (hosts k) (config_ e) = false) ->
    restart_possible (hosts (attempt + n)%nat) (config_ e) = true ->
    slept_ms t = backoff_total attempt ->
    restart_loop hosts has_callback remaining attempt t e
    = Some (report has_callback "Audio engine restarted successfully"
              (mkTrace (status_messages t)
                       (backoff_total (S (attempt + n)))),
            open_streams (hosts (attempt + n)%nat) (config_ e) true e).
Proof.
  induction n as [| n IH];
    intros remaining attempt t e Hrun Hlt Hdev Hfail Hok Hslept;
    (destruct remaining as [| remaining]; [lia |]).
  - rewrite Nat.add_0_r in *. rewrite restart_loop_pass. cbv zeta.
    rewrite Hrun. cbn [negb]. rewrite Hdev, Hok by lia.
    unfold sleep_for. rewrite Hslept, backoff_step. reflexivity.
  - rewrite restart_loop_pass. cbv zeta. rewrite Hrun. cbn [negb].
    rewrite Hdev, Hfail by lia.
    rewrite (IH remaining (S attempt)).
    + replace (S attempt + n)%nat with (attempt + S n)%nat by lia.
      reflexivity.
    + exact Hrun.
    + lia.
    + intros k Hk. apply Hdev. lia.
    + intros k Hk. apply Hfail. lia.
    + replace (S attempt + n)%nat with (attempt + S n)%nat by lia.
      exact Hok.
    + cbn [slept_ms sleep_for]. rewrite Hslept. apply backoff_step.
Qed.

(** X19.  When the devices of the configuration exist at every attempt
    made, as they did when the engine was started, and attempt [n]
    (counted from 0) is the first whose pass can reopen and start the
    streams, [attemptRestart] returns after that pass: it has slept
    100 * (2^(n+1) - 1) ms, the status callback, if any, has received
    the opening and the success message, both streams are active on
    the configured devices, and nothing else in the engine has
    changed: in particular the rings and the DSP state are not reset
    by a restart. *)
Theorem attemptRestart_first_success (e : Engine) (n : nat) :
  running_ e = true ->
  (n < 5)%nat ->
  (forall k, (k <= n)%nat ->
             devices_missing (hosts k) (config_ e) = false) ->
  (forall k, (k < n)%nat ->
             restart_possible (hosts k) (config_ e) = false) ->
  restart_possible (hosts n) (config_ e) = true ->
  attemptRestart hosts has_callback e
  = Some (mkTrace
            (messages has_callback
               ["Device issue detected, attempting restart...";
                "Audio engine restarted successfully"]%string)
            (backoff_total (S n)),
          open_streams (hosts n) (config_ e) true e).
Proof.
  intros Hrun Hn Hdev Hfail Hok.
  unfold attemptRestart. change (Z.to_nat kMaxRestartAttempts) with 5%nat.
  rewrite (restart_loop_succeeds n 5 0); try assumption.
  - unfold report, messages. destruct has_callback; reflexivity.
  - intros k Hk. apply Hdev. lia.
  - intros k Hk. apply Hfail. lia.
  - unfold report. destruct has_callback; reflexivity.
Qed.

End RestartProperties.

(* ================================================================== *)
(** ** The callbacks and the worker *)
(* ================================================================== *)

Section Callbacks.

Context {DenoiseState : Type}.
Variable rnnoise_process_frame :
  DenoiseState -> list float -> DenoiseState * list float * float.

Local Abbreviation Engine := (AudioEngine DenoiseState).

(** Two tests of one bit each are one test of the two bits. *)
Lemma two_flags (statusFlags a b : Z) :
  flag_set statusFlags a || flag_set statusFlags b
  = negb (Z.land statusFlags (Z.lor a b) =? 0).
Proof.
  unfold flag_set. rewrite Z.land_lor_distr_r.
  destruct (Z.land statusFlags a =? 0) eqn:Ha;
    destruct (Z.land statusFlags b =? 0) eqn:Hb; cbn [negb orb];
    symmetry.
  - apply Z.eqb_eq in Ha, Hb. rewrite Ha, Hb. reflexivity.
  - apply Z.eqb_neq in Hb. apply negb_true_iff, Z.eqb_neq.
    intros H. apply Z.lor_eq_0_iff in H. tauto.
  - apply Z.eqb_neq in Ha. apply negb_true_iff, Z.eqb_neq.
    intros H. apply Z.lor_eq_0_iff in H. tauto.
  - apply Z.eqb_neq in Ha. apply negb_true_iff, Z.eqb_neq.
    intros H. apply Z.lor_eq_0_iff in H. tauto.
Qed.

(** X20.  The callbacks and the restart flag.  A callback that runs
    to its end changes nothing of the engine but its own ring and
    [shouldRestart_]; it never clears the flag, and sets it exactly
    when the engine is running (and, for the capture side, the device
    buffer is not null) and one of its two xrun bits is set in
    [statusFlags]: bits 0x1 and 0x2 for capture, 0x4 and 0x8 for
    playback.  A capture callback on a stopped engine or with a null
    buffer changes nothing at all.  The only calls that do not run to
    their end are those that reach a null ring pointer while the
    engine is running. *)
Theorem callbacks_request_restart (input : option (list float))
        (frameCount : nat) (statusFlags : Z) (e : Engine) :
  (forall e', captureCallback input frameCount statusFlags e = Some e' ->
     set_captureRing None (set_shouldRestart false e')
     = set_captureRing None (set_shouldRestart false e)
     /\ shouldRestart_ e'
        = shouldRestart_ e
          || (non_null input && running_ e && input_xrun statusFlags)
     /\ (non_null input && running_ e = false -> e' = e))
  /\ (forall out e',
       outputCallback frameCount statusFlags e = Some (out, e') ->
       set_outputRing None (set_shouldRestart false e')
       = set_outputRing None (set_shouldRestart false e)
       /\ shouldRestart_ e'
          = shouldRestart_ e || (running_ e && output_xrun statusFlags))
  /\ (captureCallback input frameCount statusFlags e = None <->
      non_null input = true /\ running_ e = true /\ captureRing_ e = None)
  /\ (outputCallback frameCount statusFlags e = None <->
      running_ e = true /\ outputRing_ e = None).
Proof.
  destruct e as [run rst cfg cs os cr or w th pa].
  unfold captureCallback, outputCallback, input_xrun, output_xrun.
  change 3 with (Z.lor paInputUnderflow paInputOverflow).
  change 12 with (Z.lor paOutputUnderflow paOutputOverflow).
  rewrite <- !two_flags. engine_cbn.
  split; [| split; [| split]].
  - intros e'. destruct input as [samples |]; cbn [non_null andb].
    + destruct run; cbn [negb andb].
      * destruct cr as [ring |]; [| intros H; discriminate H].
        destruct (RingBuffer_write samples frameCount ring) as [n ring'].
        intros H. injection H as <-.
        destruct (flag_set statusFlags paInputUnderflow
                  || flag_set statusFlags paInputOverflow);
          engine_cbn; repeat split; try discriminate;
          destruct rst; reflexivity.
      * intros H. injection H as <-. engine_cbn.
        rewrite orb_false_r. repeat split.
    + intros H. injection H as <-. engine_cbn.
      rewrite orb_false_r. repeat split.
  - intros out e'. destruct run; cbn [negb andb].
    + destruct or as [ring |]; [| intros H; discriminate H].
      destruct (RingBuffer_read frameCount ring) as [got ring'].
      intros H. injection H as _ <-.
      destruct (flag_set statusFlags paOutputUnderflow
                || flag_set statusFlags paOutputOverflow);
        engine_cbn; repeat split; destruct rst; reflexivity.
    + intros H. injection H as _ <-. engine_cbn.
      rewrite orb_false_r. repeat split.
  - destruct input as [samples |]; cbn [non_null].
    + destruct run; cbn [negb].
      * destruct cr as [ring |].
        -- destruct (RingBuffer_write samples frameCount ring).
           split; [discriminate | intros (_ & _ & H); discriminate H].
        -- repeat split.
      * split; [discriminate | intros (_ & H & _); discriminate H].
    + split; [discriminate | intros (H & _); discriminate H].
  - destruct run; cbn [negb].
    + destruct or as [ring |].
      * destruct (RingBuffer_read frameCount ring).
        split; [discriminate | intros (_ & H); discriminate H].
      * repeat split.
    + split; [discriminate | intros (H & _); discriminate H].
Qed.

(** X21.  The output callback writes the whole device buffer: when it
    runs to its end the buffer holds exactly [frameCount] samples.  On
    a stopped engine they are all zero and the engine is untouched; on
    a running engine they are the oldest samples of the output ring,
    followed by zeros when the ring held fewer than [frameCount]. *)
Theorem outputCallback_fills_buffer (frameCount : nat) (statusFlags : Z)
        (e : Engine) (out : list float) (e' : Engine) :
  outputCallback frameCount statusFlags e = Some (out, e') ->
  List.length out = frameCount
  /\ (running_ e = false ->
      out = repeat F32.zero frameCount /\ e' = e)
  /\ (running_ e = true ->
      exists ring,
        outputRing_ e = Some ring
        /\ out = firstn frameCount (ring_held ring)
                 ++ repeat F32.zero (frameCount - available_read ring)).
Proof.
  unfold outputCallback. destruct (running_ e); cbn [negb].
  - destruct (outputRing_ e) as [ring |]; [| intros H; discriminate H].
    unfold RingBuffer_read, available_read. cbv zeta.
    intros H. injection H as <- _.
    assert (Hgot : List.length
                     (firstn (Nat.min frameCount
                                      (List.length (ring_held ring)))
                             (ring_held ring))
                   = Nat.min frameCount (List.length (ring_held ring))).
    { rewrite length_firstn. lia. }
    rewrite Hgot.
    assert (Hsame : firstn (Nat.min frameCount
                                    (List.length (ring_held ring)))
                           (ring_held ring)
                    = firstn frameCount (ring_held ring)).
    { destruct (Nat.le_ge_cases frameCount
                                (List.length (ring_held ring))) as [Hle | Hge].
      - rewrite Nat.min_l by exact Hle. reflexivity.
      - rewrite Nat.min_r by exact Hge.
        rewrite !firstn_all2 by lia. reflexivity. }
    rewrite Hsame.
    assert (Hzeros : (frameCount
                      - Nat.min frameCount (List.length (ring_held ring))
                      = frameCount - List.length (ring_held ring))%nat)
      by lia.
    rewrite Hzeros.
    split; [| split].
    + rewrite length_app, repeat_length, length_firstn. lia.
    + intros H. discriminate H.
    + intros _. exists ring. split; reflexivity.
  - intros H. injection H as <- <-.
    split; [apply repeat_length |].
    split; [intros _; split; reflexivity | intros H; discriminate H].
Qed.

Lemma fast_path_frame (w : RNNoiseWrapper DenoiseState)
      (frame : list float) :
  initialised w = true ->
  (suppressionLevel_ w <=? F32.zero)%f32 = true ->
  snd (fst (processFrame rnnoise_process_frame frame w)) = frame.
Proof.
  intros Hinit Hlevel. unfold initialised in Hinit.
  destruct (state_ w) as [st1 |] eqn:H1; [| discriminate].
  destruct (state2_ w) as [st2 |] eqn:H2; [| discriminate].
  unfold processFrame, bind, get. rewrite H1, H2, Hlevel.
  unfold passthrough, bind, store, modify, ret. reflexivity.
Qed.

(** X22.  With suppression switched off the engine is a wire.  On a
    running engine whose rings are empty and can hold a frame, a
    buffer of 480 samples delivered to the capture callback, moved by
    one pass of the worker and asked for by the output callback comes
    out sample for sample as it went in, and both rings are empty
    again. *)
Theorem bypass_is_a_wire (e : Engine) (cring oring : RingBuffer)
        (frame : list float) :
  running_ e = true ->
  captureRing_ e = Some cring -> ring_held cring = [] ->
  outputRing_ e = Some oring -> ring_held oring = [] ->
  (kRNNoiseFrameSize <= ring_capacity cring)%nat ->
  (kRNNoiseFrameSize <= ring_capacity oring)%nat ->
  initialised (rnnoise_ e) = true ->
  (suppressionLevel_ (rnnoise_ e) <=? F32.zero)%f32 = true ->
  List.length frame = kRNNoiseFrameSize ->
  exists e',
    one_frame_through rnnoise_process_frame frame kRNNoiseFrameSize e
    = Some (frame, e')
    /\ captureRing_ e' = Some cring
    /\ outputRing_ e' = Some oring.
Proof.
  intros Hrun Hcr Hcheld Hor Hoheld Hccap Hocap Hinit Hlevel Hlen.
  destruct e as [run rst cfg cs os cr or w th pa].
  cbn [running_ captureRing_ outputRing_ rnnoise_] in *.
  subst run cr or.
  destruct cring as [ccap cheld], oring as [ocap oheld].
  cbn [ring_held ring_capacity] in *. subst cheld oheld.
  pose proof (fast_path_frame w frame Hinit Hlevel) as Hpass.
  unfold one_frame_through, processingLoop_frame.
  rewrite <- Hlen in *.
  (* the capture callback *)
  unfold captureCallback, RingBuffer_write, available_write, available_read.
  engine_cbn. cbn [ring_held ring_capacity List.length].
  rewrite Nat.sub_0_r, (Nat.min_l _ _ Hccap), firstn_all.
  change (flag_set 0 paInputUnderflow || flag_set 0 paInputOverflow)
    with false.
  cbv iota. engine_cbn. cbn [ring_held ring_capacity List.length app].
  (* the worker *)
  unfold RingBuffer_read, available_read, on_rnnoise.
  cbn [ring_held ring_capacity].
  rewrite Nat.leb_refl, Nat.min_id, firstn_all, skipn_all.
  engine_cbn.
  destruct (processFrame rnnoise_process_frame frame w) as [[vad frame'] w'].
  cbn [fst snd] in Hpass. subst frame'.
  engine_cbn. cbn [ring_held ring_capacity List.length app].
  rewrite Nat.sub_0_r, (Nat.min_l _ _ Hocap), firstn_all.
  (* the output callback *)
  unfold outputCallback, RingBuffer_read, available_read.
  engine_cbn. cbn [ring_held ring_capacity].
  rewrite Nat.min_id, firstn_all, skipn_all, Nat.sub_diag.
  change (flag_set 0 paOutputUnderflow || flag_set 0 paOutputOverflow)
    with false.
  cbv iota. cbn [repeat]. rewrite app_nil_r.
  eexists. split; [reflexivity |]. split; reflexivity.
Qed.

End Callbacks.

(* ================================================================== *)
(** ** Device enumeration *)
(* ================================================================== *)

Section Enumeration.

Variable h : DeviceHost.

Lemma enumerate_from_app (todo : nat) :
  forall (i : Z) (devices : list DeviceInfo),
    enumerate_from h todo i devices
    = devices ++ enumerate_from h todo i [].
Proof.
  induction todo as [| todo IH]; intros i devices; cbn [enumerate_from].
  - rewrite app_nil_r. reflexivity.
  - destruct (enum_Pa_GetDeviceInfo h i) as [info |].
    + rewrite (IH (i + 1) (devices ++ _)), (IH (i + 1) ([] ++ _)).
      rewrite <- app_assoc. reflexivity.
    + apply IH.
Qed.

Lemma enumerate_from_members (todo : nat) :
  forall (i : Z) (d : DeviceInfo),
    In d (enumerate_from h todo i []) <->
    exists info,
      i <= index d < i + Z.of_nat todo
      /\ enum_Pa_GetDeviceInfo h (index d) = Some info
      /\ d = device_entry (index d) info.
Proof.
  induction todo as [| todo IH]; intros i d; cbn [enumerate_from].
  - split; [intros [] | intros (info & Hi & _); lia].
  - destruct (enum_Pa_GetDeviceInfo h i) as [info |] eqn:Hinfo.
    + rewrite enumerate_from_app. cbn [app In]. rewrite IH. split.
      * intros [<- | (info' & Hi & Hget & Hd)].
        -- exists info. cbn [device_entry index].
           split; [lia |]. split; [exact Hinfo | reflexivity].
        -- exists info'. split; [lia |]. split; assumption.
      * intros (info' & Hi & Hget & Hd).
        destruct (Z.eq_dec (index d) i) as [Heq | Hneq].
        -- left. rewrite Heq in Hget, Hd. congruence.
        -- right. exists info'. split; [lia |]. split; assumption.
    + rewrite IH. split.
      * intros (info' & Hi & Hget & Hd).
        exists info'. split; [lia |]. split; assumption.
      * intros (info' & Hi & Hget & Hd).
        destruct (Z.eq_dec (index d) i) as [Heq | Hneq].
        -- rewrite Heq in Hget. congruence.
        -- exists info'. split; [lia |]. split; assumption.
Qed.

Lemma enumerate_from_ascending (todo : nat) :
  forall i : Z, ascending (enumerate_from h todo i []).
Proof.
  induction todo as [| todo IH]; intros i; cbn [enumerate_from].
  - constructor.
  - destruct (enum_Pa_GetDeviceInfo h i) as [info |]; [| apply IH].
    rewrite enumerate_from_app. cbn [app].
    constructor; [apply IH |].
    apply Forall_forall. intros d Hd.
    apply enumerate_from_members in Hd.
    destruct Hd as (info' & Hi & _). cbn [device_entry index]. lia.
Qed.

Lemma enumerate_from_length (todo : nat) :
  forall i : Z, (List.length (enumerate_from h todo i []) <= todo)%nat.
Proof.
  induction todo as [| todo IH]; intros i; cbn [enumerate_from].
  - apply Nat.le_refl.
  - destruct (enum_Pa_GetDeviceInfo h i) as [info |].
    + rewrite enumerate_from_app. cbn [app List.length].
      specialize (IH (i + 1)). lia.
    + specialize (IH (i + 1)). lia.
Qed.

(** X23.  [enumerateDevices] lists exactly the devices PortAudio
    describes.  When [Pa_Initialize] fails the list is empty.
    Otherwise an entry is in the list exactly when its index [i] is
    one of [0 .. numDevices - 1], [Pa_GetDeviceInfo(i)] is not null and
    the entry is the copy of that description (the name "(unknown)"
    standing for a null name); the entries come in increasing order of
    index, so no device is listed twice, and there are at most
    [numDevices] of them (none for a negative count). *)
Theorem enumerateDevices_lists_devices :
  (enum_Pa_Initialize h <> paNoError -> enumerateDevices h = [])
  /\ (enum_Pa_Initialize h = paNoError ->
      (forall d,
         In d (enumerateDevices h) <->
         exists info,
           0 <= index d < enum_Pa_GetDeviceCount h
           /\ enum_Pa_GetDeviceInfo h (index d) = Some info
           /\ d = device_entry (index d) info)
      /\ ascending (enumerateDevices h)
      /\ Z.of_nat (List.length (enumerateDevices h))
         <= Z.max 0 (enum_Pa_GetDeviceCount h)).
Proof.
  unfold enumerateDevices. split.
  - intros Hfail. apply Z.eqb_neq in Hfail. rewrite Hfail. reflexivity.
  - intros Hok. rewrite Hok. cbn [negb Z.eqb paNoError].
    change (negb (paNoError =? paNoError)) with false. cbv iota.
    split; [| split].
    + intros d. rewrite enumerate_from_members.
      split; intros (info & Hi & Hrest); exists info; (split; [lia |]);
        exact Hrest.
    + apply enumerate_from_ascending.
    + pose proof (enumerate_from_length
                    (Z.to_nat (enum_Pa_GetDeviceCount h)) 0).
      lia.
Qed.

End Enumeration.

(* ================================================================== *)
(** ** The properties on concrete runs *)
(* ================================================================== *)



(** The fast path on a frame of constant 0.5: the samples come back
    and the level published for the input is exactly 0.5. *)
Lemma processFrame_bypass_witness :
  List.length Sample.half_scale = kRNNoiseFrameSize
  /\ initialised Sample.bypassed = true
  /\ (suppressionLevel_ Sample.bypassed <=? F32.zero)%f32 = true
  /\ snd (fst (processFrame Sample.rnnoise_stub Sample.half_scale
                            Sample.bypassed)) = Sample.half_scale
  /\ inputRms (metrics_ (snd (processFrame Sample.rnnoise_stub
                                           Sample.half_scale
                                           Sample.bypassed)))
     = F32.lit 1 2.
Proof.
  assert (Hlen : List.length Sample.half_scale = kRNNoiseFrameSize)
    by (vm_compute; reflexivity).
  assert (Hlevel : (suppressionLevel_ Sample.bypassed <=? F32.zero)%f32 = true)
    by (vm_compute; reflexivity).
  assert (Hrms : Spec.rms Sample.half_scale = F32.lit 1 2)
    by (vm_compute; reflexivity).
  split; [exact Hlen |].
  split; [reflexivity | split; [exact Hlevel |]].
  destruct (processFrame_bypass Sample.rnnoise_stub Sample.bypassed
                                Sample.half_scale Hlen eq_refl Hlevel)
    as (Hframe & _ & Hin & _).
  split; [exact Hframe |].
  exact (eq_trans Hin Hrms).
Defined.

Lemma processFrame_bypass_frame_effect_witness :
  initialised Sample.bypassed = true
  /\ (suppressionLevel_ Sample.bypassed <=? F32.zero)%f32 = true
  /\ noiseFloor (metrics_ (exec (processFrame Sample.rnnoise_stub
                                              Sample.half_scale)
                                Sample.bypassed))
     = noiseFloor (metrics_ Sample.bypassed).
Proof.
  assert (Hlevel : (suppressionLevel_ Sample.bypassed <=? F32.zero)%f32 = true)
    by (vm_compute; reflexivity).
  split; [reflexivity | split; [exact Hlevel |]].
  destruct (processFrame_bypass_frame_effect
              Sample.rnnoise_stub Sample.bypassed Sample.half_scale
              eq_refl Hlevel)
    as (_ & _ & _ & _ & _ & _ & _ & _ & Hfloor & _).
  exact Hfloor.
Defined.

(** The gain published for a frame of constant 0.5 through the
    pipeline. *)
Lemma gate_gain_published_witness :
  initialised Sample.fresh = true
  /\ gain_ok (currentGain
                (metrics_ (exec (processFrame Sample.rnnoise_stub
                                              Sample.half_scale)
                                Sample.fresh))).
Proof.
  split; [reflexivity |].
  exact (proj1 (proj2 (gate_gain_published Sample.rnnoise_stub Sample.fresh
                                           Sample.half_scale eq_refl))).
Defined.

(** C7 on the code.  The gain published is not always in [0, 1]: the
    smoothing step does apply [std::clamp(smoothGain_, 0, 1)], but the
    clamp hands a NaN back.

    One frame of finite samples of 1e38, on the wrapper that [init]
    leaves and with a denoiser that hands the samples back: scaling
    to the int16 range overflows, the filters produce NaN, and the
    gain that is published is not in [0, 1].

    For every denoiser that writes back as many samples as it is
    handed: after [init], [setVadThreshold(NaN)] and
    [setSuppressionLevel(0.5)], one frame of NaN samples makes the
    published gain a NaN.

    And for every denoiser, once the smoothed gain is a NaN every
    later frame that goes through the pipeline publishes a NaN. *)
Theorem gate_gain_not_clamped :
  (initialised Sample.fresh = true
   /\ List.length Sample.overload = kRNNoiseFrameSize
   /\ forallb (valid_binary F32.prec F32.emax) Sample.overload = true
   /\ forallb (fun x => negb (F32.is_nan x)) Sample.overload = true
   /\ F32.in_range F32.zero F32.one
        (currentGain
           (metrics_ (exec (processFrame Sample.rnnoise_stub Sample.overload)
                           Sample.fresh))) = false)
  /\ (forall (DenoiseState : Type)
             (rnnoise_process_frame :
                DenoiseState -> list float
                -> DenoiseState * list float * float)
             (st1 st2 : DenoiseState),
        keeps_length rnnoise_process_frame ->
        let w := exec (setSuppressionLevel (F32.lit 5 10))
                   (exec (setVadThreshold Scenario.not_a_number)
                      (exec (init (Some st1) (Some st2))
                            RNNoiseWrapper_new)) in
        let g := currentGain
                   (metrics_ (exec (processFrame rnnoise_process_frame
                                                 nan_frame) w)) in
        F32.is_nan g = true
        /\ F32.in_range F32.zero F32.one g = false)
  /\ (forall (DenoiseState : Type)
             (rnnoise_process_frame :
                DenoiseState -> list float
                -> DenoiseState * list float * float)
             (w : RNNoiseWrapper DenoiseState) (frame : list float),
        initialised w = true ->
        (suppressionLevel_ w <=? F32.zero)%f32 = false ->
        F32.is_nan (smoothGain_ w) = true ->
        let g := currentGain
                   (metrics_ (exec (processFrame rnnoise_process_frame
                                                 frame) w)) in
        F32.is_nan g = true
        /\ F32.in_range F32.zero F32.one g = false).
Proof.
  split; [| split].
  - vm_compute. repeat split; reflexivity.
  - intros DenoiseState rnnoise_process_frame st1 st2 Hrnn w g.
    assert (Hlost : gain_lost (exec (processFrame rnnoise_process_frame
                                                  nan_frame) w)).
    { apply processFrame_nan_frame.
      - exact Hrnn.
      - reflexivity.
      - vm_compute. reflexivity.
      - vm_compute. reflexivity.
      - split; [vm_compute; reflexivity | vm_compute; discriminate]. }
    destruct Hlost as [_ Hg]. unfold g. rewrite Hg. split; reflexivity.
  - intros DenoiseState rnnoise_process_frame w frame Hinit Hlow Hnan g.
    assert (Hsmooth : smoothGain_ w = S754_nan)
      by (destruct (smoothGain_ w); try discriminate Hnan; reflexivity).
    destruct (processFrame_nan_gain rnnoise_process_frame w frame
                                    Hinit Hlow Hsmooth) as [_ Hg].
    unfold g. rewrite Hg. split; reflexivity.
Qed.

Lemma processFrame_framesProcessed_witness :
  0 <= framesProcessed (metrics_ Sample.fresh) < 2 ^ 64 - 1
  /\ framesProcessed
       (metrics_ (exec (processFrame Sample.rnnoise_stub Sample.silence)
                       Sample.fresh))
     = wrap64 (framesProcessed (metrics_ Sample.fresh) + 1).
Proof.
  split; [simpl; lia |].
  exact (proj1 (processFrame_framesProcessed Sample.rnnoise_stub Sample.fresh
                                             Sample.silence)).
Defined.

(** C5 as stated fails.  On a wrapper that was never initialised both
    handles are null; a call of [processFrame] on a frame of 480 zeros
    leaves [framesProcessed] at 0. *)
Lemma framesProcessed_counterexample :
  let w := @RNNoiseWrapper_new unit in
  let w' := exec (processFrame Sample.rnnoise_stub Sample.silence) w in
  List.length Sample.silence = kRNNoiseFrameSize
  /\ framesProcessed (metrics_ w') = framesProcessed (metrics_ w)
  /\ framesProcessed (metrics_ w') <> framesProcessed (metrics_ w) + 1.
Proof. vm_compute. repeat split; try reflexivity. discriminate. Qed.

(** C4 on the code.  Started with output index -2, the engine opens the
    output stream on the default output device, as for -1, and the
    output callback hands the device the processed samples: the frame
    of constant 0.5 that was captured comes out, not zeros. *)
Theorem mute_output_plays_audio :
  exists started,
    start Sample.host_ok Sample.mute_config AudioEngine_new
    = Some (EmptyString, started)
    /\ option_map stream_device (outputStream_ started)
       = Some (host_default_output Sample.host_ok)
    /\ Sample.muted_playback = Some Sample.half_scale
    /\ Sample.muted_playback <> Some (repeat F32.zero 480).
Proof.
  exists (match start Sample.host_ok Sample.mute_config AudioEngine_new with
          | Some (_, e) => e
          | None => AudioEngine_new
          end).
  vm_compute. repeat split; try reflexivity. discriminate.
Qed.

(** C6 on the code.  With no capture device [start] fails with a
    non-empty message, the streams are closed, the denoiser is
    destroyed and PortAudio is terminated, but both ring buffers stay
    allocated.  When the second [rnnoise_create] fails the first
    denoiser state stays allocated as well. *)
Theorem failed_start_keeps_rings :
  exists e e',
    start Sample.host_no_microphone AudioConfig_default AudioEngine_new
    = Some ("No input device available"%string, e)
    /\ running_ e = false
    /\ captureStream_ e = None /\ outputStream_ e = None
    /\ initialised (rnnoise_ e) = false
    /\ pa_initialized e = pa_initialized (@AudioEngine_new unit)
    /\ captureRing_ e = Some (RingBuffer_new kRingCapacity)
    /\ outputRing_ e = Some (RingBuffer_new kRingCapacity)
    /\ start Sample.host_denoiser_fails AudioConfig_default AudioEngine_new
       = Some ("RNNoise initialization failed"%string, e')
    /\ state_ (rnnoise_ e') = Some tt
    /\ captureRing_ e' = Some (RingBuffer_new kRingCapacity).
Proof.
  exists (match start Sample.host_no_microphone AudioConfig_default
                      AudioEngine_new with
          | Some (_, e) => e
          | None => AudioEngine_new
          end).
  exists (match start Sample.host_denoiser_fails AudioConfig_default
                      AudioEngine_new with
          | Some (_, e) => e
          | None => AudioEngine_new
          end).
  vm_compute. repeat split; reflexivity.
Qed.

(** The gate rule on the wrapper that [init] leaves (threshold 0.65, no
    floor learnt, hold counter 0). *)
Example gate_opens_on_speech :
  let r := computeGateTarget (F32.lit 9 10) (F32.lit 1 10) Sample.fresh in
  fst r = F32.one /\ holdCounter_ (snd r) = 15.
Proof. vm_compute. split; reflexivity. Qed.

Example gate_closes_below_threshold :
  let r := computeGateTarget F32.zero (F32.lit 1 1000) Sample.fresh in
  fst r = F32.zero /\ holdCounter_ (snd r) = 0.
Proof. vm_compute. split; reflexivity. Qed.

Example gate_partial_near_threshold :
  F32.in_range (F32.lit 24 100) (F32.lit 26 100)
    (fst (computeGateTarget F32.zero (F32.lit 25 10000) Sample.fresh)) = true.
Proof. vm_compute. reflexivity. Qed.

Example gate_holds_then_counts_down :
  let w := snd (computeGateTarget (F32.lit 9 10) (F32.lit 1 10) Sample.fresh) in
  let r := computeGateTarget F32.zero F32.zero w in
  fst r = F32.one /\ holdCounter_ (snd r) = 14.
Proof. vm_compute. split; reflexivity. Qed.

(** Silence through the pipeline: the floor is seeded and raised to
    0.0003, the gate target is 0 and the gain falls from 1 to 0.6. *)
Example silence_first_frame :
  let w := exec (processFrame Sample.rnnoise_stub Sample.silence)
                Sample.fresh in
  noiseFloor (metrics_ w) = F32.lit 3 10000
  /\ currentGain (metrics_ w)
     = (F32.one + F32.lit 40 100 * (F32.zero - F32.one))%f32
  /\ framesProcessed (metrics_ w) = 1.
Proof. vm_compute. repeat split; reflexivity. Qed.

(** *** Further concrete runs *)


(** A frame of constant 0.5 through the pipeline, from the state [init]
    leaves: the hold counter stays within its range. *)
Lemma processFrame_hold_in_range_witness :
  hold_in_range Sample.fresh
  /\ hold_in_range (exec (processFrame Sample.rnnoise_stub Sample.half_scale)
                         Sample.fresh).
Proof.
  assert (H : hold_in_range Sample.fresh)
    by (unfold hold_in_range; vm_compute; split; discriminate).
  split; [exact H |].
  exact (processFrame_hold_in_range Sample.rnnoise_stub Sample.fresh
                                    Sample.half_scale H).
Defined.

(** The same call: the calibration count goes from 0 to 0 or 1. *)
Lemma processFrame_calibration_witness :
  calibration_in_range Sample.fresh
  /\ calibrationFrames_
       (exec (processFrame Sample.rnnoise_stub Sample.half_scale)
             Sample.fresh)
     <= kCalibrationPeriod.
Proof.
  assert (H : calibration_in_range Sample.fresh)
    by (unfold calibration_in_range; vm_compute; split; discriminate).
  split; [exact H |].
  exact (proj2 (processFrame_calibration Sample.rnnoise_stub Sample.fresh
                                         Sample.half_scale H)).
Defined.

(** The same call: the level meters. *)
Lemma rms_metrics_not_negative_witness :
  initialised Sample.fresh = true
  /\ (outputRms
        (metrics_ (exec (processFrame Sample.rnnoise_stub Sample.half_scale)
                        Sample.fresh)) <? F32.zero)%f32 = false.
Proof.
  split; [reflexivity |].
  exact (proj2 (proj2 (rms_metrics_not_negative
                         Sample.rnnoise_stub Sample.fresh Sample.half_scale
                         eq_refl))).
Defined.

(** The same call, with a denoiser that hands the samples back: 480
    samples come back. *)
Lemma processFrame_keeps_length_witness :
  (forall (st : unit) (f : list float),
     List.length (snd (fst (Sample.rnnoise_stub st f))) = List.length f)
  /\ List.length
       (snd (fst (processFrame Sample.rnnoise_stub Sample.half_scale
                               Sample.fresh)))
     = List.length Sample.half_scale.
Proof.
  assert (H : forall (st : unit) (f : list float),
            List.length (snd (fst (Sample.rnnoise_stub st f)))
            = List.length f)
    by (intros st f; reflexivity).
  split; [exact H |].
  exact (processFrame_keeps_length Sample.rnnoise_stub Sample.fresh
                                   Sample.half_scale H).
Defined.

(** [openStreams] on a freshly constructed engine, on a machine where
    every call succeeds: both streams are opened on the default
    devices. *)
Lemma openStreams_all_or_nothing_witness :
  captureStream_ (@AudioEngine_new unit) = None
  /\ outputStream_ (@AudioEngine_new unit) = None
  /\ option_map snd (openStreams Sample.host_ok AudioEngine_new)
     = Some (open_streams Sample.host_ok AudioConfig_default false
                          AudioEngine_new).
Proof.
  split; [reflexivity | split; [reflexivity |]].
  pose proof (openStreams_all_or_nothing Sample.host_ok AudioEngine_new
                                         eq_refl eq_refl) as H.
  destruct (openStreams Sample.host_ok AudioEngine_new) as [r |];
    [| vm_compute in H; discriminate H].
  destruct H as (_ & _ & H). cbn [option_map]. rewrite H. reflexivity.
Defined.

(** [start] on a freshly constructed engine, on the same machine: it
    returns, and the engine is running. *)
Lemma start_contract_witness :
  running_ (@AudioEngine_new unit) = false
  /\ option_map (fun r => running_ (snd r))
       (start Sample.host_ok AudioConfig_default AudioEngine_new)
     = Some true.
Proof.
  split; [reflexivity |].
  pose proof (start_contract Sample.host_ok AudioConfig_default
                             AudioEngine_new eq_refl) as H.
  destruct (start Sample.host_ok AudioConfig_default AudioEngine_new)
    as [r |]; [| vm_compute in H; discriminate H].
  destruct H as (_ & _ & H & _). cbn [option_map]. rewrite H. reflexivity.
Defined.

(** [start] with an input index that names no device: the call does
    not return. *)
Example start_unknown_device :
  start_crashes Sample.host_ok Scenario.unknown_input = true
  /\ start Sample.host_ok Scenario.unknown_input AudioEngine_new = None.
Proof. vm_compute. split; reflexivity. Qed.

(** [stop] on the engine that this [start] leaves. *)
Lemma stop_releases_everything_witness :
  running_ Scenario.running_engine = true
  /\ running_ (stop Scenario.running_engine) = false.
Proof.
  assert (H : running_ Scenario.running_engine = true)
    by (vm_compute; reflexivity).
  split; [exact H |].
  exact (proj1 (stop_releases_everything Scenario.running_engine H)).
Defined.

(** [start], then [stop], on a freshly constructed engine. *)
Lemma start_stop_round_trip_witness :
  running_ (@AudioEngine_new unit) = false
  /\ option_map (fun r => pa_initialized (stop (snd r)))
       (start Sample.host_ok AudioConfig_default AudioEngine_new)
     = Some (pa_initialized (@AudioEngine_new unit)).
Proof.
  split; [reflexivity |].
  pose proof (start_stop_round_trip Sample.host_ok AudioConfig_default
                                    AudioEngine_new eq_refl) as H.
  destruct (start Sample.host_ok AudioConfig_default AudioEngine_new)
    as [r |]; [| vm_compute in H; discriminate H].
  destruct H as (_ & H & _). cbn [option_map]. rewrite H. reflexivity.
Defined.

(** The microphone is unplugged from a running engine and stays
    unplugged: five attempts, 3100 ms. *)
Lemma attemptRestart_exhausted_witness :
  running_ Scenario.running_engine = true
  /\ (forall k, (k < 5)%nat ->
        devices_missing (Scenario.unplugged k)
                        (config_ Scenario.running_engine) = false)
  /\ (forall k, (k < 5)%nat ->
        restart_possible (Scenario.unplugged k)
                         (config_ Scenario.running_engine) = false)
  /\ running_ (with_streams None None Scenario.running_engine) = true.
Proof.
  assert (H : running_ Scenario.running_engine = true)
    by (vm_compute; reflexivity).
  assert (Hdev : forall k, (k < 5)%nat ->
            devices_missing (Scenario.unplugged k)
                            (config_ Scenario.running_engine) = false)
    by (intros k _; vm_compute; reflexivity).
  assert (Hfail : forall k, (k < 5)%nat ->
            restart_possible (Scenario.unplugged k)
                             (config_ Scenario.running_engine) = false)
    by (intros k _; vm_compute; reflexivity).
  split; [exact H | split; [exact Hdev | split; [exact Hfail |]]].
  exact (proj2 (attemptRestart_exhausted Scenario.unplugged true
                  Scenario.running_engine H Hdev Hfail)).
Defined.

(** The microphone is plugged in again before the third attempt: the
    restart succeeds after 100 + 200 + 400 ms. *)
Lemma attemptRestart_first_success_witness :
  running_ Scenario.running_engine = true
  /\ restart_possible (Scenario.replugged 2)
                      (config_ Scenario.running_engine) = true
  /\ attemptRestart Scenario.replugged true Scenario.running_engine
     = Some (mkTrace
               (messages true
                  ["Device issue detected, attempting restart...";
                   "Audio engine restarted successfully"]%string)
               (backoff_total 3),
             open_streams (Scenario.replugged 2)
                          (config_ Scenario.running_engine) true
                          Scenario.running_engine).
Proof.
  assert (H : running_ Scenario.running_engine = true)
    by (vm_compute; reflexivity).
  assert (Hn : (2 < 5)%nat) by lia.
  assert (Hdev : forall k, (k <= 2)%nat ->
            devices_missing (Scenario.replugged k)
                            (config_ Scenario.running_engine) = false).
  { intros k Hk. destruct k as [| [| [| k]]];
      [vm_compute; reflexivity | vm_compute; reflexivity
      | vm_compute; reflexivity | lia]. }
  assert (Hfail : forall k, (k < 2)%nat ->
            restart_possible (Scenario.replugged k)
                             (config_ Scenario.running_engine) = false).
  { intros k Hk. destruct k as [| [| k]];
      [vm_compute; reflexivity | vm_compute; reflexivity | lia]. }
  assert (Hok : restart_possible (Scenario.replugged 2)
                                 (config_ Scenario.running_engine) = true)
    by (vm_compute; reflexivity).
  split; [exact H | split; [exact Hok |]].
  exact (attemptRestart_first_success Scenario.replugged true
           Scenario.running_engine 2 H Hn Hdev Hfail Hok).
Defined.

(** The output callback asks a running engine whose ring is empty for
    two samples. *)
Lemma outputCallback_fills_buffer_witness :
  outputCallback 2 0 Scenario.running_engine
  = Some (Scenario.underrun_buffer, Scenario.underrun_engine)
  /\ List.length Scenario.underrun_buffer = 2%nat.
Proof.
  assert (H : outputCallback 2 0 Scenario.running_engine
              = Some (Scenario.underrun_buffer, Scenario.underrun_engine))
    by (vm_compute; reflexivity).
  split; [exact H |].
  exact (proj1 (outputCallback_fills_buffer 2 0 Scenario.running_engine
                  Scenario.underrun_buffer Scenario.underrun_engine H)).
Defined.

(** A frame of constant 0.5 through the running engine with
    suppression switched off. *)
Lemma bypass_is_a_wire_witness :
  running_ Scenario.wire_engine = true
  /\ List.length Sample.half_scale = kRNNoiseFrameSize
  /\ exists e',
       one_frame_through Sample.rnnoise_stub Sample.half_scale
                         kRNNoiseFrameSize Scenario.wire_engine
       = Some (Sample.half_scale, e')
       /\ captureRing_ e' = Some (RingBuffer_new kRingCapacity)
       /\ outputRing_ e' = Some (RingBuffer_new kRingCapacity).
Proof.
  assert (Hrun : running_ Scenario.wire_engine = true)
    by (vm_compute; reflexivity).
  assert (Hcr : captureRing_ Scenario.wire_engine
                = Some (RingBuffer_new kRingCapacity))
    by (vm_compute; reflexivity).
  assert (Hor : outputRing_ Scenario.wire_engine
                = Some (RingBuffer_new kRingCapacity))
    by (vm_compute; reflexivity).
  assert (Hheld : ring_held (RingBuffer_new kRingCapacity) = [])
    by reflexivity.
  assert (Hcap : (kRNNoiseFrameSize
                  <= ring_capacity (RingBuffer_new kRingCapacity))%nat)
    by (apply Nat.leb_le; vm_compute; reflexivity).
  assert (Hinit : initialised (rnnoise_ Scenario.wire_engine) = true)
    by (vm_compute; reflexivity).
  assert (Hlevel : (suppressionLevel_ (rnnoise_ Scenario.wire_engine)
                    <=? F32.zero)%f32 = true)
    by (vm_compute; reflexivity).
  assert (Hlen : List.length Sample.half_scale = kRNNoiseFrameSize)
    by (vm_compute; reflexivity).
  split; [exact Hrun | split; [exact Hlen |]].
  exact (bypass_is_a_wire Sample.rnnoise_stub Scenario.wire_engine
           (RingBuffer_new kRingCapacity) (RingBuffer_new kRingCapacity)
           Sample.half_scale
           Hrun Hcr Hheld Hor Hheld Hcap Hcap Hinit Hlevel Hlen).
Defined.
